(** * The DRM atomic helpers (drivers/gpu/drm/drm_atomic_helper.c)

    A shallow embedding of the transactional update core: transaction
    allocation ([drm_atomic_helper_begin]), lazily created shadow state
    ([drm_atomic_helper_get_plane_state], [drm_atomic_helper_get_crtc_state]),
    the check and commit passes and the teardown.

    Pointers are addresses into typed stores ([None] is [NULL]); the stores,
    the device's object tables, the framebuffer reference counts and the
    allocator live in one [world] record that every function threads
    through an error monad.  A [NULL] dereference or an access outside an
    array is a [fault]: the C code has no check on those paths, so the model
    stops there, as the kernel does.

    Locking ([drm_modeset_lock_all], [crtc->mutex]) has no effect in a
    sequential model and is left out. *)

From Stdlib Require Import ZArith.
From stdpp Require Import base option list gmap.

Local Open Scope Z_scope.

(** ** Data model *)

Definition addr := nat.
Definition fb_id := nat.

(** Modelled from the spec: errno.h is not among the sources.  The spec
    names the error kinds only; the two codes the helpers return are given
    their Linux values. *)
Definition EINVAL : Z := 22.
Definition EBUSY : Z := 16.

(** Modelled from the spec: [struct drm_plane_state] is declared in
    drm_crtc.h, which is not among the sources.  The record has the fields
    the helpers read or write: target crtc, image, destination and source
    rectangle, and [ps_state], the [void *state] back-pointer to the
    transaction. *)
Record drm_plane_state := mk_plane_state {
  ps_crtc : option nat;
  ps_fb : option fb_id;
  ps_crtc_x : Z; ps_crtc_y : Z; ps_crtc_w : Z; ps_crtc_h : Z;
  ps_src_x : Z; ps_src_y : Z; ps_src_w : Z; ps_src_h : Z;
  ps_state : option addr
}.

(** Modelled from the spec: [struct drm_crtc_state], also from drm_crtc.h,
    with the fields the helpers use: the [set_config] flag and the payload
    of a full reconfiguration (position, mode, connector ids), the image,
    the pending event and the back-pointer.  [num_connector_ids] is the
    length of [cs_connector_ids]. *)
Record drm_crtc_state := mk_crtc_state {
  cs_set_config : bool;
  cs_fb : option fb_id;
  cs_event : option nat;
  cs_x : Z; cs_y : Z;
  cs_mode_valid : bool;
  cs_mode : nat;
  cs_connector_ids : list Z;
  cs_state : option addr
}.

(** Modelled from the spec: of [struct drm_plane] (drm_crtc.h) the live
    state pointer and [base.propvals], which points into the live state
    block. *)
Record drm_plane := mk_plane {
  plane_state : option addr;
  plane_propvals : option addr
}.

(** Modelled from the spec: of [struct drm_crtc] (drm_crtc.h) the live
    state pointer, [base.propvals], and whether [crtc->funcs->page_flip] is
    set. *)
Record drm_crtc := mk_crtc {
  crtc_state : option addr;
  crtc_propvals : option addr;
  crtc_has_page_flip : bool
}.

(** [struct drm_atomic_helper_state]: the four arrays hold object and state
    pointers, indexed by object id. *)
Record drm_atomic_helper_state := mk_helper_state {
  flags : Z;
  planes : list (option nat);
  pstates : list (option addr);
  crtcs : list (option nat);
  cstates : list (option addr)
}.

(** Modelled from the spec: [struct drm_mode_set] (drm_crtc.h), the
    request handed to [drm_mode_set_config_internal], with the fields that
    [set_config] and the disable branch fill in. *)
Record drm_mode_set := mk_mode_set {
  set_crtc : nat;
  set_x : Z; set_y : Z;
  set_mode : option nat;
  set_num_connectors : nat;
  set_connectors : option (list (option nat));
  set_fb : option fb_id
}.

(** The request of the disable branch: [{ .crtc = crtc, .fb = NULL }]. *)
Definition disable_set (i : nat) : drm_mode_set :=
  mk_mode_set i 0 0 None 0 None None.

(** The request that [set_config] builds from the staged state. *)
Definition config_set (crtc : nat) (cs : drm_crtc_state)
    (connector_set : option (list (option nat))) : drm_mode_set :=
  mk_mode_set crtc (cs_x cs) (cs_y cs)
    (if cs_mode_valid cs then Some (cs_mode cs) else None)
    (length (cs_connector_ids cs)) connector_set (cs_fb cs).

(** Calls that leave this file, with their arguments and return code. *)
Inductive event :=
| EvCheckPlane (plane : nat) (pstate : drm_plane_state) (rc : Z)
| EvCheckCrtc (crtc : nat) (cstate : drm_crtc_state) (rc : Z)
| EvUpdatePlane (plane crtc : nat) (fb : fb_id) (geometry : list Z) (rc : Z)
| EvDisablePlane (plane : nat) (rc : Z)
| EvPageFlip (crtc : nat) (fb : fb_id) (ev : option nat) (fl : Z) (rc : Z)
| EvSetConfig (set : drm_mode_set) (rc : Z).

(** The object and block a check call was made on, and its answer. *)
Definition check_target (e : event) : option (nat * drm_plane_state) :=
  match e with
  | EvCheckPlane i ps _ => Some (i, ps)
  | _ => None
  end.

Definition event_rc (e : event) : Z :=
  match e with
  | EvCheckPlane _ _ rc | EvCheckCrtc _ _ rc | EvUpdatePlane _ _ _ _ rc
  | EvDisablePlane _ rc | EvPageFlip _ _ _ _ rc | EvSetConfig _ rc => rc
  end.

(** The functions the helpers call through [plane->funcs], [crtc->funcs],
    the [atomic_helpers] table and the mode-setting core.  They are not
    part of this file: each one is taken to run on the driver's private
    state [HW] and to return a code, and not to touch the state blocks, the
    state pointers, the transaction or the reference counts.  [crtc_fb]
    reads the legacy [crtc->fb] binding, which only those functions write. *)
Record drm_driver := mk_driver {
  HW : Type;
  crtc_fb : HW → nat → option fb_id;
  check_plane_state : HW → nat → drm_plane_state → Z * HW;
  check_crtc_state : HW → nat → drm_crtc_state → Z * HW;
  update_plane : HW → nat → nat → fb_id → list Z → Z * HW;
  disable_plane : HW → nat → Z * HW;
  page_flip : HW → nat → fb_id → option nat → Z → Z * HW;
  mode_set_config_internal : HW → drm_mode_set → Z * HW;
  connector_find : HW → Z → option nat
}.

Inductive fault := NullDeref | BadAddress | OutOfBounds.

Inductive result (A : Type) :=
| Ok (a : A)
| Oops (f : fault).
Arguments Ok {A} a.
Arguments Oops {A} f.

(** ** One kind of resource: live pointers, touched markers, shadow slots *)

(** [lv] lists the live state pointer of every object of the kind, [mk]
    and [sl] are the transaction's marker and slot arrays.  Live and staged
    blocks are allocated and never alias. *)
Record table_inv (valid : addr → Prop) (n : nat) (lv : list (option addr))
    (mk : list (option nat)) (sl : list (option addr)) : Prop := {
  ti_live_len : length lv = n;
  ti_mark_len : length mk = n;
  ti_slot_len : length sl = n;
  ti_tag : ∀ i p, mk !! i = Some (Some p) → p = i;
  ti_pair : ∀ i, mk !! i = Some None ↔ sl !! i = Some None;
  ti_live_valid : ∀ i p, lv !! i = Some p → ∃ q, p = Some q ∧ valid q;
  ti_slot_valid : ∀ i q, sl !! i = Some (Some q) → valid q;
  ti_sep_ll : ∀ i j q, lv !! i = Some (Some q) → lv !! j = Some (Some q) → i = j;
  ti_sep_ls : ∀ i j q, lv !! i = Some (Some q) → sl !! j ≠ Some (Some q);
  ti_sep_ss : ∀ i j q, sl !! i = Some (Some q) → sl !! j = Some (Some q) → i = j
}.

Section Helpers.
Context {D : drm_driver}.

(** The machine: device tables, typed stores, reference counts, the
    allocator ([brk] is the next fresh address, [kmalloc_script] tells for
    the coming allocations whether each succeeds; once it is used up every
    allocation succeeds), the driver state and the log of outside calls. *)
Record world := mk_world {
  dev_num_plane : nat;
  dev_num_crtc : nat;
  dev_planes : list drm_plane;
  dev_crtcs : list drm_crtc;
  pstate_mem : gmap addr drm_plane_state;
  cstate_mem : gmap addr drm_crtc_state;
  helper_mem : gmap addr drm_atomic_helper_state;
  fb_refcount : gmap fb_id Z;
  brk : addr;
  kmalloc_script : list bool;
  hw : HW D;
  events : list event
}.

Definition set_dev_planes (f : list drm_plane → list drm_plane) (w : world) :=
  mk_world (dev_num_plane w) (dev_num_crtc w) (f (dev_planes w)) (dev_crtcs w)
    (pstate_mem w) (cstate_mem w) (helper_mem w) (fb_refcount w) (brk w)
    (kmalloc_script w) (hw w) (events w).
Definition set_dev_crtcs (f : list drm_crtc → list drm_crtc) (w : world) :=
  mk_world (dev_num_plane w) (dev_num_crtc w) (dev_planes w) (f (dev_crtcs w))
    (pstate_mem w) (cstate_mem w) (helper_mem w) (fb_refcount w) (brk w)
    (kmalloc_script w) (hw w) (events w).
Definition set_pstate_mem
    (f : gmap addr drm_plane_state → gmap addr drm_plane_state) (w : world) :=
  mk_world (dev_num_plane w) (dev_num_crtc w) (dev_planes w) (dev_crtcs w)
    (f (pstate_mem w)) (cstate_mem w) (helper_mem w) (fb_refcount w) (brk w)
    (kmalloc_script w) (hw w) (events w).
Definition set_cstate_mem
    (f : gmap addr drm_crtc_state → gmap addr drm_crtc_state) (w : world) :=
  mk_world (dev_num_plane w) (dev_num_crtc w) (dev_planes w) (dev_crtcs w)
    (pstate_mem w) (f (cstate_mem w)) (helper_mem w) (fb_refcount w) (brk w)
    (kmalloc_script w) (hw w) (events w).
Definition set_helper_mem
    (f : gmap addr drm_atomic_helper_state → gmap addr drm_atomic_helper_state)
    (w : world) :=
  mk_world (dev_num_plane w) (dev_num_crtc w) (dev_planes w) (dev_crtcs w)
    (pstate_mem w) (cstate_mem w) (f (helper_mem w)) (fb_refcount w) (brk w)
    (kmalloc_script w) (hw w) (events w).
Definition set_fb_refcount (f : gmap fb_id Z → gmap fb_id Z) (w : world) :=
  mk_world (dev_num_plane w) (dev_num_crtc w) (dev_planes w) (dev_crtcs w)
    (pstate_mem w) (cstate_mem w) (helper_mem w) (f (fb_refcount w)) (brk w)
    (kmalloc_script w) (hw w) (events w).
Definition set_alloc (b : addr) (s : list bool) (w : world) :=
  mk_world (dev_num_plane w) (dev_num_crtc w) (dev_planes w) (dev_crtcs w)
    (pstate_mem w) (cstate_mem w) (helper_mem w) (fb_refcount w) b s
    (hw w) (events w).
Definition set_hw (h : HW D) (e : event) (w : world) :=
  mk_world (dev_num_plane w) (dev_num_crtc w) (dev_planes w) (dev_crtcs w)
    (pstate_mem w) (cstate_mem w) (helper_mem w) (fb_refcount w) (brk w)
    (kmalloc_script w) h (events w ++ [e]).

(** ** The state and error monad *)

Definition M (A : Type) : Type := world → result (A * world).

#[export] Instance M_ret : MRet M := λ A x w, Ok (x, w).
#[export] Instance M_bind : MBind M := λ A B f m w,
  match m w with
  | Ok (x, w') => f x w'
  | Oops e => Oops e
  end.

Definition gets {A} (f : world → A) : M A := λ w, Ok (f w, w).
Definition modify (f : world → world) : M unit := λ w, Ok (tt, f w).
Definition oops {A} (e : fault) : M A := λ _, Oops e.

(** [*p] for a pointer [p]: a fault on [NULL]. *)
Definition deref (p : option addr) : M addr :=
  match p with Some q => mret q | None => oops NullDeref end.

(** [arr[i]]: a fault outside the array. *)
Definition index {A} (l : list A) (i : nat) : M A :=
  match l !! i with Some x => mret x | None => oops OutOfBounds end.

Definition load {A} (mem : world → gmap addr A) (p : option addr) : M A :=
  q ← deref p;
  m ← gets mem;
  match m !! q with Some x => mret x | None => oops BadAddress end.

Definition load_plane (plane : nat) : M drm_plane :=
  l ← gets dev_planes; index l plane.
Definition load_crtc (crtc : nat) : M drm_crtc :=
  l ← gets dev_crtcs; index l crtc.

(** [kzalloc]/[kmalloc]: [NULL] when the script says the allocation fails,
    a fresh address otherwise. *)
Definition kzalloc : M (option addr) := λ w,
  match kmalloc_script w with
  | false :: s => Ok (None, set_alloc (brk w) s w)
  | _ => Ok (Some (brk w), set_alloc (S (brk w)) (tail (kmalloc_script w)) w)
  end.

(** Modelled from the spec: [drm_framebuffer_unreference] is defined outside
    this file; images are shared by reference counting and the call drops
    one reference. *)
Definition drm_framebuffer_unreference (fb : fb_id) : M unit :=
  modify (set_fb_refcount (alter Z.pred fb)).

(** [if (fb) drm_framebuffer_unreference(fb);] *)
Definition unreference_if (fb : option fb_id) : M unit :=
  match fb with Some f => drm_framebuffer_unreference f | None => mret tt end.

(** Calls through the function tables, logged with their return code. *)
Definition call_check_plane_state (plane : nat) (ps : drm_plane_state) : M Z :=
  λ w, let '(rc, h) := check_plane_state D (hw w) plane ps in
       Ok (rc, set_hw h (EvCheckPlane plane ps rc) w).
Definition call_update_plane (plane crtc : nat) (fb : fb_id) (g : list Z) : M Z :=
  λ w, let '(rc, h) := update_plane D (hw w) plane crtc fb g in
       Ok (rc, set_hw h (EvUpdatePlane plane crtc fb g rc) w).
Definition call_disable_plane (plane : nat) : M Z :=
  λ w, let '(rc, h) := disable_plane D (hw w) plane in
       Ok (rc, set_hw h (EvDisablePlane plane rc) w).
Definition call_page_flip (crtc : nat) (fb : fb_id) (ev : option nat) (fl : Z) : M Z :=
  λ w, let '(rc, h) := page_flip D (hw w) crtc fb ev fl in
       Ok (rc, set_hw h (EvPageFlip crtc fb ev fl rc) w).
Definition call_mode_set_config_internal (set : drm_mode_set) : M Z :=
  λ w, let '(rc, h) := mode_set_config_internal D (hw w) set in
       Ok (rc, set_hw h (EvSetConfig set rc) w).

(** ** drm_atomic_helper_begin *)

(** One block holds the struct and its four arrays; how its size [sz] is
    computed is not modelled.  [kzalloc] zeroes the block, so the arrays
    start out all [NULL].  The result of [kzalloc] is used without a test:
    [state->flags = flags] is the first store through it. *)
Definition drm_atomic_helper_begin (fl : Z) : M (option addr) :=
  nplanes ← gets dev_num_plane;
  ncrtcs ← gets dev_num_crtc;
  ptr ← kzalloc;
  state ← deref ptr;
  modify (set_helper_mem (<[state :=
    mk_helper_state fl (replicate nplanes None) (replicate nplanes None)
                       (replicate ncrtcs None) (replicate ncrtcs None)]>));;
  mret (Some state).

(** ** Staging: get-or-create shadow state *)

Definition store_pstate (q : addr) (ps : drm_plane_state) : M unit :=
  modify (set_pstate_mem (<[q := ps]>)).
Definition store_cstate (q : addr) (cs : drm_crtc_state) : M unit :=
  modify (set_cstate_mem (<[q := cs]>)).
Definition store_helper (q : addr) (a : drm_atomic_helper_state) : M unit :=
  modify (set_helper_mem (<[q := a]>)).

Definition with_ps_state (ps : drm_plane_state) (st : option addr) :=
  mk_plane_state (ps_crtc ps) (ps_fb ps) (ps_crtc_x ps) (ps_crtc_y ps)
    (ps_crtc_w ps) (ps_crtc_h ps) (ps_src_x ps) (ps_src_y ps) (ps_src_w ps)
    (ps_src_h ps) st.
Definition with_cs_state (cs : drm_crtc_state) (st : option addr) :=
  mk_crtc_state (cs_set_config cs) (cs_fb cs) (cs_event cs) (cs_x cs) (cs_y cs)
    (cs_mode_valid cs) (cs_mode cs) (cs_connector_ids cs) st.
Definition with_cs_event (cs : drm_crtc_state) (ev : option nat) :=
  mk_crtc_state (cs_set_config cs) (cs_fb cs) ev (cs_x cs) (cs_y cs)
    (cs_mode_valid cs) (cs_mode cs) (cs_connector_ids cs) (cs_state cs).

(** [*pstate = *plane->state; pstate->state = state;] *)
Definition drm_atomic_helper_init_plane_state
    (plane : nat) (pstate state : option addr) : M unit :=
  pl ← load_plane plane;
  live ← load pstate_mem (plane_state pl);
  q ← deref pstate;
  store_pstate q (with_ps_state live state).

(** A plane or crtc pointer is the object's id, so [a->planes[plane->id] =
    plane] stores [plane] at index [plane]. *)
Definition drm_atomic_helper_get_plane_state
    (plane : nat) (state : option addr) : M (option addr) :=
  a ← load helper_mem state;
  pstate ← index (pstates a) plane;
  match pstate with
  | Some q => mret (Some q)
  | None =>
      pstate ← kzalloc;
      drm_atomic_helper_init_plane_state plane pstate state;;
      a ← load helper_mem state;
      _ ← index (planes a) plane;
      st ← deref state;
      store_helper st (mk_helper_state (flags a)
        (<[plane := Some plane]> (planes a)) (<[plane := pstate]> (pstates a))
        (crtcs a) (cstates a));;
      mret pstate
  end.

(** [*cstate = *crtc->state; cstate->state = state;] *)
Definition drm_atomic_helper_init_crtc_state
    (crtc : nat) (cstate state : option addr) : M unit :=
  c ← load_crtc crtc;
  live ← load cstate_mem (crtc_state c);
  q ← deref cstate;
  store_cstate q (with_cs_state live state).

Definition drm_atomic_helper_get_crtc_state
    (crtc : nat) (state : option addr) : M (option addr) :=
  a ← load helper_mem state;
  cstate ← index (cstates a) crtc;
  match cstate with
  | Some q => mret (Some q)
  | None =>
      cstate ← kzalloc;
      drm_atomic_helper_init_crtc_state crtc cstate state;;
      a ← load helper_mem state;
      _ ← index (crtcs a) crtc;
      st ← deref state;
      store_helper st (mk_helper_state (flags a) (planes a) (pstates a)
        (<[crtc := Some crtc]> (crtcs a)) (<[crtc := cstate]> (cstates a)));;
      mret cstate
  end.

(** [obj->type] of a [struct drm_mode_object]. *)
Inductive drm_mode_object :=
| ObjCrtc (crtc : nat)
| ObjPlane (plane : nat)
| ObjOther.

Definition drm_atomic_helper_set_event
    (state : option addr) (obj : drm_mode_object) (ev : option nat) : M Z :=
  match obj with
  | ObjCrtc crtc =>
      cstate ← drm_atomic_helper_get_crtc_state crtc state;
      cs ← load cstate_mem cstate;
      q ← deref cstate;
      store_cstate q (with_cs_event cs ev);;
      mret 0
  | _ => mret (- EINVAL)
  end.

(** ** Loops

    [for (i = 0; i < n; i++) { if (...) { ret = ...; if (ret) break; } }]:
    the body answers [None] when its [if] is not taken, which leaves [ret]
    as it was, and [Some rc] when it assigns [ret]. *)
Fixpoint for_each (ids : list nat) (body : nat → M (option Z)) (ret : Z) : M Z :=
  match ids with
  | [] => mret ret
  | i :: rest =>
      r ← body i;
      match r with
      | None => for_each rest body ret
      | Some rc => if decide (rc = 0) then for_each rest body rc else mret rc
      end
  end.

(** A loop without [break]. *)
Fixpoint for_all (ids : list nat) (body : nat → M unit) : M unit :=
  match ids with
  | [] => mret tt
  | i :: rest => body i;; for_all rest body
  end.

(** ** drm_atomic_helper_check *)

(** [drm_atomic_check_plane_state], from drm_atomic_helper.h: dispatch
    through [plane->dev->driver->atomic_helpers]. *)
Definition drm_atomic_check_plane_state (plane : nat) (pstate : option addr) : M Z :=
  _ ← load_plane plane;
  ps ← load pstate_mem pstate;
  call_check_plane_state plane ps.

Definition check_body (state : option addr) (i : nat) : M (option Z) :=
  a ← load helper_mem state;
  p ← index (planes a) i;
  match p with
  | None => mret None
  | Some plane =>
      q ← index (pstates a) i;
      rc ← drm_atomic_check_plane_state plane q;
      mret (Some rc)
  end.

Definition drm_atomic_helper_check (state : option addr) : M Z :=
  nplanes ← gets dev_num_plane;
  for_each (seq 0 nplanes) (check_body state) 0.

(** ** Commit of one plane *)

(** [swap(plane->state, a->pstates[plane->id]);
     plane->base.propvals = &plane->state->propvals;] *)
Definition swap_plane_state (plane : nat) (state : option addr) : M unit :=
  a ← load helper_mem state;
  slot ← index (pstates a) plane;
  pl ← load_plane plane;
  st ← deref state;
  store_helper st (mk_helper_state (flags a) (planes a)
    (<[plane := plane_state pl]> (pstates a)) (crtcs a) (cstates a));;
  modify (set_dev_planes (<[plane := mk_plane slot slot]>)).

Definition geometry (ps : drm_plane_state) : list Z :=
  [ps_crtc_x ps; ps_crtc_y ps; ps_crtc_w ps; ps_crtc_h ps;
   ps_src_x ps; ps_src_y ps; ps_src_w ps; ps_src_h ps].

(** The code after [drm_modeset_unlock_all]: drop [fb] and [old_fb] when
    they are set. *)
Definition commit_plane_out (ret : Z) (fb old_fb : option fb_id) : M Z :=
  unreference_if fb;;
  unreference_if old_fb;;
  mret ret.

(** [fb] starts as [pstate->fb] and is reset to [NULL] when the update
    succeeded; [old_fb] is the image of the state that was live.  The code
    of [disable_plane] is not looked at. *)
Definition drm_atomic_helper_commit_plane_state
    (plane : nat) (pstate : option addr) : M Z :=
  ps ← load pstate_mem pstate;
  match ps_crtc ps, ps_fb ps with
  | Some crtc, Some fb =>
      ret ← call_update_plane plane crtc fb (geometry ps);
      if decide (ret = 0) then
        pl ← load_plane plane;
        live ← load pstate_mem (plane_state pl);
        swap_plane_state plane (ps_state ps);;
        commit_plane_out ret None (ps_fb live)
      else commit_plane_out ret (Some fb) None
  | _, _ =>
      pl ← load_plane plane;
      live ← load pstate_mem (plane_state pl);
      _ ← call_disable_plane plane;
      swap_plane_state plane (ps_state ps);;
      commit_plane_out 0 (ps_fb ps) (ps_fb live)
  end.

(** ** Commit of one crtc *)

Definition swap_crtc_state (crtc : nat) (state : option addr) : M unit :=
  a ← load helper_mem state;
  slot ← index (cstates a) crtc;
  c ← load_crtc crtc;
  st ← deref state;
  store_helper st (mk_helper_state (flags a) (planes a) (pstates a) (crtcs a)
    (<[crtc := crtc_state c]> (cstates a)));;
  modify (set_dev_crtcs (<[crtc := mk_crtc slot slot (crtc_has_page_flip c)]>)).

(** The array is a temporary of [set_config]; only whether [kmalloc] gave
    one matters. *)
Definition get_connector_set (ids : list Z) : M (option (list (option nat))) :=
  p ← kzalloc;
  match p with
  | None => mret None
  | Some _ => h ← gets hw; mret (Some (map (connector_find D h) ids))
  end.

Definition set_config (crtc : nat) (cstate : option addr) : M Z :=
  cs ← load cstate_mem cstate;
  connector_set ← get_connector_set (cs_connector_ids cs);
  ret ← call_mode_set_config_internal (config_set crtc cs connector_set);
  (if decide (ret = 0) then swap_crtc_state crtc (cs_state cs) else mret tt);;
  unreference_if (cs_fb cs);;
  mret ret.

(** The code after the [out:] label. *)
Definition commit_crtc_out (ret : Z) (fb old_fb : option fb_id) : M Z :=
  unreference_if fb;;
  unreference_if old_fb;;
  mret ret.

Definition drm_atomic_helper_commit_crtc_state
    (crtc : nat) (cstate : option addr) : M Z :=
  cs ← load cstate_mem cstate;
  if cs_set_config cs then set_config crtc cstate
  else
    c ← load_crtc crtc;
    live ← load cstate_mem (crtc_state c);
    match cs_fb cs with
    | Some fb =>
        if decide (cs_fb live = Some fb) then commit_crtc_out (- EINVAL) None None
        else
          h ← gets hw;
          match crtc_fb D h crtc with
          | None => commit_crtc_out (- EBUSY) None None
          | Some bound =>
              if crtc_has_page_flip c then
                a ← load helper_mem (cs_state cs);
                ret ← call_page_flip crtc fb (cs_event cs) (flags a);
                if decide (ret = 0) then
                  swap_crtc_state crtc (cs_state cs);;
                  commit_crtc_out ret None (Some bound)
                else commit_crtc_out ret (Some fb) None
              else commit_crtc_out (- EINVAL) None None
          end
    | None =>
        if decide (cs_fb live = None) then commit_crtc_out (- EINVAL) None None
        else
          ret ← call_mode_set_config_internal (disable_set crtc);
          (if decide (ret = 0) then swap_crtc_state crtc (cs_state cs)
           else mret tt);;
          commit_crtc_out ret None (cs_fb live)
    end.

(** ** drm_atomic_helper_commit *)

(** [drm_atomic_commit_plane_state] (drm_atomic_helper.h) and its crtc
    twin dispatch through [plane->dev->driver->atomic_helpers]; the table
    [drm_atomic_helper_funcs] binds them to the two functions above. *)
Definition drm_atomic_commit_plane_state (plane : nat) (pstate : option addr) : M Z :=
  _ ← load_plane plane;
  drm_atomic_helper_commit_plane_state plane pstate.
Definition drm_atomic_commit_crtc_state (crtc : nat) (cstate : option addr) : M Z :=
  _ ← load_crtc crtc;
  drm_atomic_helper_commit_crtc_state crtc cstate.

Definition commit_plane_body (state : option addr) (i : nat) : M (option Z) :=
  a ← load helper_mem state;
  p ← index (planes a) i;
  match p with
  | None => mret None
  | Some plane =>
      q ← index (pstates a) i;
      rc ← drm_atomic_commit_plane_state plane q;
      mret (Some rc)
  end.

Definition commit_crtc_body (state : option addr) (i : nat) : M (option Z) :=
  a ← load helper_mem state;
  p ← index (crtcs a) i;
  match p with
  | None => mret None
  | Some crtc =>
      q ← index (cstates a) i;
      rc ← drm_atomic_commit_crtc_state crtc q;
      mret (Some rc)
  end.

Definition drm_atomic_helper_commit (state : option addr) : M Z :=
  nplanes ← gets dev_num_plane;
  ncrtcs ← gets dev_num_crtc;
  ret ← for_each (seq 0 nplanes) (commit_plane_body state) 0;
  for_each (seq 0 ncrtcs) (commit_crtc_body state) ret.

(** ** drm_atomic_helper_end *)

Definition end_plane_body (state : option addr) (i : nat) : M unit :=
  a ← load helper_mem state;
  q ← index (pstates a) i;
  match q with
  | None => mret tt
  | Some q' =>
      p ← index (planes a) i;
      plane ← deref p;
      pl ← load_plane plane;
      live ← load pstate_mem (plane_state pl);
      l ← deref (plane_state pl);
      store_pstate l (with_ps_state live None);;
      modify (set_pstate_mem (delete q'))
  end.

Definition end_crtc_body (state : option addr) (i : nat) : M unit :=
  a ← load helper_mem state;
  q ← index (cstates a) i;
  match q with
  | None => mret tt
  | Some q' =>
      p ← index (crtcs a) i;
      crtc ← deref p;
      c ← load_crtc crtc;
      live ← load cstate_mem (crtc_state c);
      l ← deref (crtc_state c);
      store_cstate l (with_cs_state live None);;
      modify (set_cstate_mem (delete q'))
  end.

Definition drm_atomic_helper_end (state : option addr) : M unit :=
  nplanes ← gets dev_num_plane;
  ncrtcs ← gets dev_num_crtc;
  for_all (seq 0 nplanes) (end_plane_body state);;
  for_all (seq 0 ncrtcs) (end_crtc_body state);;
  match state with
  | Some st => modify (set_helper_mem (delete st))
  | None => mret tt
  end.

(** ** The worlds the helpers produce, written out *)

Definition fresh_helper_state (fl : Z) (w : world) : drm_atomic_helper_state :=
  mk_helper_state fl (replicate (dev_num_plane w) None)
    (replicate (dev_num_plane w) None) (replicate (dev_num_crtc w) None)
    (replicate (dev_num_crtc w) None).

Definition allocated (w : world) : world :=
  set_alloc (S (brk w)) (tail (kmalloc_script w)) w.

Definition begun (fl : Z) (w : world) : world :=
  set_helper_mem (<[brk w := fresh_helper_state fl w]>) (allocated w).

Definition stage_plane_txn (t : drm_atomic_helper_state) (i : nat) (q : addr) :=
  mk_helper_state (flags t) (<[i := Some i]> (planes t))
    (<[i := Some q]> (pstates t)) (crtcs t) (cstates t).
Definition stage_crtc_txn (t : drm_atomic_helper_state) (i : nat) (q : addr) :=
  mk_helper_state (flags t) (planes t) (pstates t)
    (<[i := Some i]> (crtcs t)) (<[i := Some q]> (cstates t)).

Definition staged_plane (a : addr) (t : drm_atomic_helper_state) (i : nat)
    (live : drm_plane_state) (w : world) : world :=
  set_helper_mem (<[a := stage_plane_txn t i (brk w)]>)
    (set_pstate_mem (<[brk w := with_ps_state live (Some a)]>) (allocated w)).
Definition staged_crtc (a : addr) (t : drm_atomic_helper_state) (i : nat)
    (live : drm_crtc_state) (w : world) : world :=
  set_helper_mem (<[a := stage_crtc_txn t i (brk w)]>)
    (set_cstate_mem (<[brk w := with_cs_state live (Some a)]>) (allocated w)).

Definition swap_plane_txn (t : drm_atomic_helper_state) (i : nat) (l : option addr) :=
  mk_helper_state (flags t) (planes t) (<[i := l]> (pstates t)) (crtcs t) (cstates t).
Definition swap_crtc_txn (t : drm_atomic_helper_state) (i : nat) (l : option addr) :=
  mk_helper_state (flags t) (planes t) (pstates t) (crtcs t) (<[i := l]> (cstates t)).

(** The world after [swap_plane_state]: the plane points to the block that
    was in the slot, the slot holds the previous live pointer [l]. *)
Definition swapped_plane (a : addr) (t : drm_atomic_helper_state) (i : nat)
    (l q : option addr) (w : world) : world :=
  set_dev_planes (<[i := mk_plane q q]>)
    (set_helper_mem (<[a := swap_plane_txn t i l]>) w).
Definition swapped_crtc (a : addr) (t : drm_atomic_helper_state) (i : nat)
    (c : drm_crtc) (q : option addr) (w : world) : world :=
  set_dev_crtcs (<[i := mk_crtc q q (crtc_has_page_flip c)]>)
    (set_helper_mem (<[a := swap_crtc_txn t i (crtc_state c)]>) w).

(** The world after some outside calls: a new driver state and a longer log. *)
Definition logged (h : HW D) (evs : list event) (w : world) : world :=
  mk_world (dev_num_plane w) (dev_num_crtc w) (dev_planes w) (dev_crtcs w)
    (pstate_mem w) (cstate_mem w) (helper_mem w) (fb_refcount w) (brk w)
    (kmalloc_script w) h (events w ++ evs).

(** The world after [if (fb) drm_framebuffer_unreference(fb);]. *)
Definition unreferenced (fb : option fb_id) (w : world) : world :=
  match fb with
  | Some f => set_fb_refcount (alter Z.pred f) w
  | None => w
  end.

(** ** Validation as the specification words it *)

(** Plane [i] with its staged block, when the transaction touched it. *)
Definition touched_plane (w : world) (t : drm_atomic_helper_state) (i : nat)
    : option (nat * drm_plane_state) :=
  match planes t !! i, pstates t !! i with
  | Some (Some p), Some (Some q) => ps ← pstate_mem w !! q; Some (p, ps)
  | _, _ => None
  end.

(** The touched planes in identity order. *)
Definition touched_planes (w : world) (t : drm_atomic_helper_state)
    : list (nat * drm_plane_state) :=
  omap (touched_plane w t) (seq 0 (dev_num_plane w)).

(** "Invoke the check hook on the shadow of every touched surface, stop at
    the first failure and return that error": the result code, the driver
    state and the calls made, for a list of touched surfaces, starting from
    result code [ret]. *)
Fixpoint validate_spec (l : list (nat * drm_plane_state)) (ret : Z) (h : HW D)
    : Z * HW D * list event :=
  match l with
  | [] => (ret, h, [])
  | (i, ps) :: rest =>
      let '(rc, h') := check_plane_state D h i ps in
      if decide (rc = 0) then
        let '(r, h'', evs) := validate_spec rest rc h' in
        (r, h'', EvCheckPlane i ps rc :: evs)
      else (rc, h', [EvCheckPlane i ps rc])
  end.

(** ** What a caller can observe, and the invariants *)

(** [outcome r Q F]: a run that returns satisfies [Q], a run that faults
    can only do so when [F] holds. *)
Definition outcome {A} (r : result (A * world)) (Q : A → world → Prop) (F : Prop) : Prop :=
  match r with
  | Ok (x, w') => Q x w'
  | Oops _ => F
  end.

(** The live state of an object: its [struct] and the block its state
    pointer leads to. *)
Definition plane_live (w : world) (i : nat) : option (drm_plane * drm_plane_state) :=
  pl ← dev_planes w !! i;
  q ← plane_state pl;
  ps ← pstate_mem w !! q;
  Some (pl, ps).
Definition crtc_live (w : world) (i : nat) : option (drm_crtc * drm_crtc_state) :=
  c ← dev_crtcs w !! i;
  q ← crtc_state c;
  cs ← cstate_mem w !! q;
  Some (c, cs).

Definition valid_pstate (w : world) (q : addr) : Prop := is_Some (pstate_mem w !! q).
Definition valid_cstate (w : world) (q : addr) : Prop := is_Some (cstate_mem w !! q).

(** [frame Mp Mc w t w' t']: going from [w], [t] to [w'], [t'] left the
    state blocks alone and changed the live pointer and the slot of no
    plane outside [Mp] and of no crtc outside [Mc]. *)
Record frame (Mp Mc : nat → Prop) (w : world) (t : drm_atomic_helper_state)
    (w' : world) (t' : drm_atomic_helper_state) : Prop := {
  fr_pmem : pstate_mem w' = pstate_mem w;
  fr_cmem : cstate_mem w' = cstate_mem w;
  fr_flags : flags t' = flags t;
  fr_planes : planes t' = planes t;
  fr_crtcs : crtcs t' = crtcs t;
  fr_dev_planes : ∀ j, ¬ Mp j → dev_planes w' !! j = dev_planes w !! j;
  fr_pstates : ∀ j, ¬ Mp j → pstates t' !! j = pstates t !! j;
  fr_dev_crtcs : ∀ j, ¬ Mc j → dev_crtcs w' !! j = dev_crtcs w !! j;
  fr_cstates : ∀ j, ¬ Mc j → cstates t' !! j = cstates t !! j
}.

(** The transaction at [a] is [t], and its tables fit the device. *)
Record Inv (a : addr) (w : world) (t : drm_atomic_helper_state) : Prop := {
  inv_txn : helper_mem w !! a = Some t;
  inv_planes : table_inv (valid_pstate w) (dev_num_plane w)
                 (plane_state <$> dev_planes w) (planes t) (pstates t);
  inv_crtcs : table_inv (valid_cstate w) (dev_num_crtc w)
                 (crtc_state <$> dev_crtcs w) (crtcs t) (cstates t);
  inv_pback : ∀ q ps, pstate_mem w !! q = Some ps →
                ps_state ps = None ∨ ps_state ps = Some a;
  inv_cback : ∀ q cs, cstate_mem w !! q = Some cs →
                cs_state cs = None ∨ cs_state cs = Some a;
  inv_pbrk : ∀ q, valid_pstate w q → (q < brk w)%nat;
  inv_cbrk : ∀ q, valid_cstate w q → (q < brk w)%nat
}.

(** No commit ran yet: every staged block still points back to [a]. *)
Definition staged (a : addr) (w : world) (t : drm_atomic_helper_state) : Prop :=
  (∀ i q ps, pstates t !! i = Some (Some q) → pstate_mem w !! q = Some ps →
     ps_state ps = Some a) ∧
  (∀ i q cs, cstates t !! i = Some (Some q) → cstate_mem w !! q = Some cs →
     cs_state cs = Some a).

(** A device between transactions: every object has a live state block of
    its own and no block points to a transaction. *)
Record quiescent (w : world) : Prop := {
  qu_nplanes : length (dev_planes w) = dev_num_plane w;
  qu_ncrtcs : length (dev_crtcs w) = dev_num_crtc w;
  qu_plane_valid : ∀ i pl, dev_planes w !! i = Some pl →
                     ∃ q, plane_state pl = Some q ∧ valid_pstate w q;
  qu_crtc_valid : ∀ i c, dev_crtcs w !! i = Some c →
                     ∃ q, crtc_state c = Some q ∧ valid_cstate w q;
  qu_plane_sep : ∀ i j pi pj q, dev_planes w !! i = Some pi →
                   dev_planes w !! j = Some pj →
                   plane_state pi = Some q → plane_state pj = Some q → i = j;
  qu_crtc_sep : ∀ i j ci cj q, dev_crtcs w !! i = Some ci →
                   dev_crtcs w !! j = Some cj →
                   crtc_state ci = Some q → crtc_state cj = Some q → i = j;
  qu_pback : ∀ q ps, pstate_mem w !! q = Some ps → ps_state ps = None;
  qu_cback : ∀ q cs, cstate_mem w !! q = Some cs → cs_state cs = None;
  qu_pbrk : ∀ q, valid_pstate w q → (q < brk w)%nat;
  qu_cbrk : ∀ q, valid_cstate w q → (q < brk w)%nat
}.

(** The states of the transaction at [a] that a caller can bring about:
    [begin] on a quiescent device, then staging, setting an event, editing
    a staged block through the pointer that staging returned (what the
    property setters do; they may also take image references), [check] and
    [commit], in any order.  A call that faults yields no state.  The flag
    tells whether a [commit] has run. *)
Inductive reachable (a : addr) : bool → world → Prop :=
| reach_begin w0 fl w :
    quiescent w0 → drm_atomic_helper_begin fl w0 = Ok (Some a, w) →
    reachable a false w
| reach_get_plane_state b w i p w' :
    reachable a b w →
    drm_atomic_helper_get_plane_state i (Some a) w = Ok (p, w') →
    reachable a b w'
| reach_get_crtc_state b w i p w' :
    reachable a b w →
    drm_atomic_helper_get_crtc_state i (Some a) w = Ok (p, w') →
    reachable a b w'
| reach_set_event b w obj ev rc w' :
    reachable a b w →
    drm_atomic_helper_set_event (Some a) obj ev w = Ok (rc, w') →
    reachable a b w'
| reach_edit_plane b w t i q ps ps' refs :
    reachable a b w → helper_mem w !! a = Some t →
    pstates t !! i = Some (Some q) → pstate_mem w !! q = Some ps →
    ps_state ps' = ps_state ps →
    reachable a b (set_fb_refcount (λ _, refs) (set_pstate_mem (<[q := ps']>) w))
| reach_edit_crtc b w t i q cs cs' refs :
    reachable a b w → helper_mem w !! a = Some t →
    cstates t !! i = Some (Some q) → cstate_mem w !! q = Some cs →
    cs_state cs' = cs_state cs →
    reachable a b (set_fb_refcount (λ _, refs) (set_cstate_mem (<[q := cs']>) w))
| reach_check b w rc w' :
    reachable a b w → drm_atomic_helper_check (Some a) w = Ok (rc, w') →
    reachable a b w'
| reach_commit b w rc w' :
    reachable a b w → drm_atomic_helper_commit (Some a) w = Ok (rc, w') →
    reachable a true w'.

(** The state between two iterations of the plane loop, and of the crtc
    loop, of a commit that started in [w0] with transaction [t0]. *)
Definition plane_pass (a : addr) (w0 : world) (t0 : drm_atomic_helper_state)
    (j : nat) (w : world) : Prop :=
  ∃ t, Inv a w t ∧
    frame (λ x, (x < j)%nat ∧ planes t0 !! x ≠ Some None) (λ _, False) w0 t0 w t.
Definition crtc_pass (a : addr) (w0 : world) (t0 : drm_atomic_helper_state)
    (j : nat) (w : world) : Prop :=
  ∃ t, Inv a w t ∧
    frame (λ x, planes t0 !! x ≠ Some None)
          (λ x, (x < j)%nat ∧ crtcs t0 !! x ≠ Some None) w0 t0 w t.

(** What [drm_atomic_helper_end] keeps true of the world [w] while it walks
    the tables of a transaction [t] that it started on in [w0]: the tables
    and pointers are as they were, every live block is still allocated, and
    the live blocks of unstaged objects are as they were. *)
Record end_pass (w0 : world) (t : drm_atomic_helper_state) (w : world) : Prop := {
  ep_helper : helper_mem w = helper_mem w0;
  ep_planes : dev_planes w = dev_planes w0;
  ep_crtcs : dev_crtcs w = dev_crtcs w0;
  ep_nplane : dev_num_plane w = dev_num_plane w0;
  ep_ncrtc : dev_num_crtc w = dev_num_crtc w0;
  ep_plive : ∀ k pl l, dev_planes w0 !! k = Some pl → plane_state pl = Some l →
               is_Some (pstate_mem w !! l);
  ep_clive : ∀ k c l, dev_crtcs w0 !! k = Some c → crtc_state c = Some l →
               is_Some (cstate_mem w !! l);
  ep_pkeep : ∀ k pl l, dev_planes w0 !! k = Some pl → plane_state pl = Some l →
               planes t !! k = Some None →
               pstate_mem w !! l = pstate_mem w0 !! l;
  ep_ckeep : ∀ k c l, dev_crtcs w0 !! k = Some c → crtc_state c = Some l →
               crtcs t !! k = Some None →
               cstate_mem w !! l = cstate_mem w0 !! l
}.

(** The live state of every object the transaction [t] did not stage is in
    [w'] what it was in [w]. *)
Definition unstaged_kept (t : drm_atomic_helper_state) (w w' : world) : Prop :=
  (∀ i, planes t !! i = Some None → plane_live w' i = plane_live w i) ∧
  (∀ i, crtcs t !! i = Some None → crtc_live w' i = crtc_live w i).

(** Crtc [c] is staged, no full reconfiguration is asked for and the staged
    image is the one its live state has: none of the three cases of
    [drm_atomic_helper_commit_crtc_state] applies. *)
Definition noop_touch (w : world) (t : drm_atomic_helper_state) (c : nat) : Prop :=
  ∃ q cs pl l live,
    cstates t !! c = Some (Some q) ∧ cstate_mem w !! q = Some cs ∧
    cs_set_config cs = false ∧
    dev_crtcs w !! c = Some pl ∧ crtc_state pl = Some l ∧
    cstate_mem w !! l = Some live ∧ cs_fb live = cs_fb cs.

(** The world a computation leaves behind ([w] itself when it faults). *)
Definition exec {A} (m : M A) (w : world) : world :=
  match m w with
  | Ok (_, w') => w'
  | Oops _ => w
  end.

(** A staging call on a plane or on a crtc, and a run of such calls. *)
Inductive stage_op :=
| StagePlane (plane : nat)
| StageCrtc (crtc : nat).

Definition run_stage (state : option addr) (op : stage_op) : M (option addr) :=
  match op with
  | StagePlane i => drm_atomic_helper_get_plane_state i state
  | StageCrtc i => drm_atomic_helper_get_crtc_state i state
  end.

Fixpoint run_stages (state : option addr) (ops : list stage_op) : M unit :=
  match ops with
  | [] => mret tt
  | op :: rest => run_stage state op;; run_stages state rest
  end.

(** ** The rest of the file: property setters, and what commit and
    teardown leave behind *)

(** [drm_atomic_get_plane_state] (drm_atomic_helper.h): dispatch through
    [plane->dev->driver->atomic_helpers], which reads the plane. *)
Definition drm_atomic_get_plane_state (plane : nat) (state : option addr)
    : M (option addr) :=
  _ ← load_plane plane;
  drm_atomic_helper_get_plane_state plane state.

(** Modelled from the spec: [drm_atomic_get_crtc_state], which the property
    setter of a crtc calls, is not in the header at hand; it is taken to be
    the crtc twin of [drm_atomic_get_plane_state]. *)
Definition drm_atomic_get_crtc_state (crtc : nat) (state : option addr)
    : M (option addr) :=
  _ ← load_crtc crtc;
  drm_atomic_helper_get_crtc_state crtc state.

(** Modelled from the spec: [drm_plane_set_property] is defined outside
    this file; it interprets one property on the state block it is handed,
    may take image references, and answers with a code.  [setter] is that
    function at the [property], [val] and [blob_data] of the call: from
    the block and the reference counts to the code, the block and the
    counts afterwards. *)
Definition drm_atomic_helper_plane_set_property
    (setter : drm_plane_state → gmap fb_id Z → Z * drm_plane_state * gmap fb_id Z)
    (plane : nat) (state : option addr) : M Z :=
  pstate ← drm_atomic_get_plane_state plane state;
  ps ← load pstate_mem pstate;
  q ← deref pstate;
  refs ← gets fb_refcount;
  store_pstate q (setter ps refs).1.2;;
  modify (set_fb_refcount (λ _, (setter ps refs).2));;
  mret (setter ps refs).1.1.

(** Modelled from the spec: [drm_crtc_set_property], as for planes. *)
Definition drm_atomic_helper_crtc_set_property
    (setter : drm_crtc_state → gmap fb_id Z → Z * drm_crtc_state * gmap fb_id Z)
    (crtc : nat) (state : option addr) : M Z :=
  cstate ← drm_atomic_get_crtc_state crtc state;
  cs ← load cstate_mem cstate;
  q ← deref cstate;
  refs ← gets fb_refcount;
  store_cstate q (setter cs refs).1.2;;
  modify (set_fb_refcount (λ _, (setter cs refs).2));;
  mret (setter cs refs).1.1.

(** From [m] to [m'] no image appeared or went away and no count went
    up. *)
Definition refs_dropped (m m' : gmap fb_id Z) : Prop :=
  ∀ f, match m !! f, m' !! f with
       | Some n, Some k => k ≤ n
       | None, None => True
       | _, _ => False
       end.

(** [w'] has the tables of [w]: the device tables, the stores and the
    transaction are the same; the driver state, the log and the allocator
    may have moved on, and references may have been dropped. *)
Record same_tables (w w' : world) : Prop := {
  st_nplane : dev_num_plane w' = dev_num_plane w;
  st_ncrtc : dev_num_crtc w' = dev_num_crtc w;
  st_planes : dev_planes w' = dev_planes w;
  st_crtcs : dev_crtcs w' = dev_crtcs w;
  st_pmem : pstate_mem w' = pstate_mem w;
  st_cmem : cstate_mem w' = cstate_mem w;
  st_helper : helper_mem w' = helper_mem w;
  st_brk : (brk w ≤ brk w')%nat;
  st_refs : refs_dropped (fb_refcount w) (fb_refcount w')
}.

(** [base.propvals] of every plane and crtc points into its live state. *)
Definition propvals_track (w : world) : Prop :=
  (∀ i pl, dev_planes w !! i = Some pl → plane_propvals pl = plane_state pl) ∧
  (∀ i c, dev_crtcs w !! i = Some c → crtc_propvals c = crtc_state c).

(** Every block that points back to the transaction is in one of its
    slots or is the live block of an object it staged. *)
Definition owned (a : addr) (w : world) (t : drm_atomic_helper_state) : Prop :=
  (∀ q ps, pstate_mem w !! q = Some ps → ps_state ps = Some a →
     ∃ i s, pstates t !! i = Some (Some s) ∧
       (s = q ∨ plane_state <$> dev_planes w !! i = Some (Some q))) ∧
  (∀ q cs, cstate_mem w !! q = Some cs → cs_state cs = Some a →
     ∃ i s, cstates t !! i = Some (Some s) ∧
       (s = q ∨ crtc_state <$> dev_crtcs w !! i = Some (Some q))).

(** No live block points back to a transaction. *)
Definition live_clean (w : world) : Prop :=
  (∀ i pl ps, plane_live w i = Some (pl, ps) → ps_state ps = None) ∧
  (∀ i c cs, crtc_live w i = Some (c, cs) → cs_state cs = None).

(** What [drm_atomic_helper_end] has done to one store of state blocks
    after the slots below [j]: a block that still points back to a
    transaction belongs to a slot from [j] on (it is the slot's block or
    the live block of the slot's object), every block is what it was in
    [mem0] or that with the back-pointer cleared, the blocks of the slots
    below [j] are gone and no other block is. *)
Record cleared {St} (back : St → option addr) (clear : St → St)
    (mem0 mem : gmap addr St) (lv sl : list (option addr)) (j : nat) : Prop := {
  cl_back : ∀ x s, mem !! x = Some s → back s ≠ None →
              ∃ i q, (j ≤ i)%nat ∧ sl !! i = Some (Some q) ∧
                     (q = x ∨ lv !! i = Some (Some x));
  cl_from : ∀ x s, mem !! x = Some s →
              ∃ s0, mem0 !! x = Some s0 ∧ (s = s0 ∨ s = clear s0);
  cl_freed : ∀ i q, (i < j)%nat → sl !! i = Some (Some q) → mem !! q = None;
  cl_kept : ∀ x, is_Some (mem0 !! x) →
              (∀ i, (i < j)%nat → sl !! i ≠ Some (Some x)) → is_Some (mem !! x)
}.

(** What [drm_atomic_helper_end] never touches. *)
Record end_quiet (w0 w : world) : Prop := {
  eq_refs : fb_refcount w = fb_refcount w0;
  eq_hw : hw w = hw w0;
  eq_events : events w = events w0;
  eq_brk : brk w = brk w0;
  eq_script : kmalloc_script w = kmalloc_script w0
}.

(** The state between two iterations of the plane loop, and of the crtc
    loop, of [drm_atomic_helper_end] on the transaction [t] of [w0]; [w1]
    is the world the plane loop left. *)
Definition end_plane_pass (w0 : world) (t : drm_atomic_helper_state)
    (j : nat) (w : world) : Prop :=
  end_pass w0 t w ∧ end_quiet w0 w ∧ cstate_mem w = cstate_mem w0 ∧
  cleared ps_state (λ s, with_ps_state s None) (pstate_mem w0) (pstate_mem w)
    (plane_state <$> dev_planes w0) (pstates t) j.
Definition end_crtc_pass (w0 : world) (t : drm_atomic_helper_state)
    (w1 : world) (j : nat) (w : world) : Prop :=
  end_pass w0 t w ∧ end_quiet w0 w ∧ pstate_mem w = pstate_mem w1 ∧
  cleared cs_state (λ s, with_cs_state s None) (cstate_mem w0) (cstate_mem w)
    (crtc_state <$> dev_crtcs w0) (cstates t) j.

(** The staged planes below [j] have been committed: the plane's state
    pointer is the block that was in the slot, and the slot holds the
    pointer that was live.  The same for crtcs. *)
Definition planes_committed (w0 : world) (t0 : drm_atomic_helper_state) (j : nat)
    (w : world) (t : drm_atomic_helper_state) : Prop :=
  ∀ i q, (i < j)%nat → pstates t0 !! i = Some (Some q) →
    plane_state <$> dev_planes w !! i = Some (Some q) ∧
    pstates t !! i = plane_state <$> dev_planes w0 !! i.
Definition crtcs_committed (w0 : world) (t0 : drm_atomic_helper_state) (j : nat)
    (w : world) (t : drm_atomic_helper_state) : Prop :=
  ∀ i q, (i < j)%nat → cstates t0 !! i = Some (Some q) →
    crtc_state <$> dev_crtcs w !! i = Some (Some q) ∧
    cstates t !! i = crtc_state <$> dev_crtcs w0 !! i.

(** The state between two iterations of the plane loop of a commit, with
    what the iterations so far have done; and the same for the crtc loop,
    where [ret] is the loop's result so far. *)
Definition plane_pass_done (a : addr) (w0 : world) (t0 : drm_atomic_helper_state)
    (j : nat) (w : world) : Prop :=
  ∃ t, Inv a w t ∧
    frame (λ x, (x < j)%nat ∧ planes t0 !! x ≠ Some None) (λ _, False) w0 t0 w t ∧
    planes_committed w0 t0 j w t.
Definition crtc_pass_done (a : addr) (w0 : world) (t0 : drm_atomic_helper_state)
    (j : nat) (ret : Z) (w : world) : Prop :=
  (∃ t, Inv a w t ∧
     frame (λ x, planes t0 !! x ≠ Some None)
           (λ x, (x < j)%nat ∧ crtcs t0 !! x ≠ Some None) w0 t0 w t ∧
     crtcs_committed w0 t0 j w t) ∧
  (∀ i q, (i < j)%nat → cstates t0 !! i = Some (Some q) → ret = 0).

End Helpers.

(** ** A small driver and device for the examples *)

(** The driver state is the image bound to each crtc, the legacy
    [crtc->fb].  The plane check refuses a source of width zero,
    [update_plane] a destination of width zero, [page_flip] a request whose
    flags have bit 0 set; everything else succeeds. *)
Definition demo_driver : drm_driver := {|
  HW := list (option fb_id);
  crtc_fb := λ h c, default None (h !! c);
  check_plane_state := λ h _ ps,
    (if decide (ps_src_w ps = 0) then - EINVAL else 0, h);
  check_crtc_state := λ h _ _, (0, h);
  update_plane := λ h _ _ _ g,
    (if decide (g !! 2%nat = Some 0) then - EINVAL else 0, h);
  disable_plane := λ h _, (0, h);
  page_flip := λ h c fb _ fl,
    if Z.odd fl then (- EBUSY, h) else (0, <[c := Some fb]> h);
  mode_set_config_internal := λ h set, (0, <[set_crtc set := set_fb set]> h);
  connector_find := λ _ id, Some (Z.to_nat id)
|}.

Definition idle_plane : drm_plane_state :=
  mk_plane_state None None 0 0 0 0 0 0 0 0 None.
Definition overlay_plane : drm_plane_state :=
  mk_plane_state (Some 0%nat) (Some 7%nat) 0 0 640 480 0 0 640 480 None.
Definition scanout_crtc : drm_crtc_state :=
  mk_crtc_state false (Some 5%nat) None 0 0 true 1%nat [40] None.

(** Two planes and one crtc; plane 1 shows image 7, the crtc scans out
    image 5; images 5, 6 and 7 exist with one reference each. *)
Definition demo_device : @world demo_driver :=
  @mk_world demo_driver 2%nat 1%nat
    [mk_plane (Some 0%nat) (Some 0%nat); mk_plane (Some 1%nat) (Some 1%nat)]
    [mk_crtc (Some 2%nat) (Some 2%nat) true]
    (<[1%nat := overlay_plane]> {[0%nat := idle_plane]})
    {[2%nat := scanout_crtc]}
    ∅
    (<[7%nat := 1]> (<[6%nat := 1]> {[5%nat := 1]}))
    3%nat [] [Some 5%nat] [].

(** The same device when the next allocation fails. *)
Definition demo_device_oom : @world demo_driver :=
  @set_alloc demo_driver 3%nat [false] demo_device.

(** The same device after an unplug: nothing is bound to the crtc. *)
Definition demo_device_unbound : @world demo_driver :=
  @logged demo_driver [None] [] demo_device.

(** What the caller asks for: plane 0 shows image 6 on crtc 0. *)
Definition show_image_6 (st : option addr) (w : Z) : drm_plane_state :=
  mk_plane_state (Some 0%nat) (Some 6%nat) 0 0 w 480 0 0 640 480 st.
(** The crtc scans out image 6. *)
Definition flip_to_6 (st : option addr) : drm_crtc_state :=
  mk_crtc_state false (Some 6%nat) None 0 0 true 1%nat [40] st.

(** Taking one more reference on image 6, as the property setter does. *)
Definition hold_6 (refs : gmap fb_id Z) : gmap fb_id Z := alter Z.succ 6%nat refs.

(** A transaction (at address 3) that stages plane 0 (block 4) to show
    image 6 with destination width [width]. *)
Definition demo_plane_txn (fl width : Z) (dev : @world demo_driver)
    : @world demo_driver :=
  let w1 := exec (drm_atomic_helper_begin fl) dev in
  let w2 := exec (drm_atomic_helper_get_plane_state 0%nat (Some 3%nat)) w1 in
  set_fb_refcount (λ _, hold_6 (fb_refcount w2))
    (set_pstate_mem (<[4%nat := show_image_6 (Some 3%nat) width]>) w2).

(** A transaction (at address 3) that stages crtc 0 (block 4) without
    changing it. *)
Definition demo_crtc_touch (fl : Z) (dev : @world demo_driver)
    : @world demo_driver :=
  let w1 := exec (drm_atomic_helper_begin fl) dev in
  exec (drm_atomic_helper_get_crtc_state 0%nat (Some 3%nat)) w1.

(** The same, with the staged block asking for image 6. *)
Definition demo_crtc_flip (fl : Z) (dev : @world demo_driver)
    : @world demo_driver :=
  let w2 := demo_crtc_touch fl dev in
  set_fb_refcount (λ _, hold_6 (fb_refcount w2))
    (set_cstate_mem (<[4%nat := flip_to_6 (Some 3%nat)]>) w2).

(** A transaction that stages plane 0 (block 4) with a destination of
    width zero, which the driver refuses, and crtc 0 (block 5) for a flip
    to image 6. *)
Definition demo_mixed_txn : @world demo_driver :=
  let w3 := demo_plane_txn 0 0 demo_device in
  let w4 := exec (drm_atomic_helper_get_crtc_state 0%nat (Some 3%nat)) w3 in
  set_fb_refcount (λ _, hold_6 (fb_refcount w4))
    (set_cstate_mem (<[5%nat := flip_to_6 (Some 3%nat)]>) w4).


(** ** More examples *)

(** A driver that refuses every request. *)
Definition stubborn_driver : drm_driver := {|
  HW := list (option fb_id);
  crtc_fb := λ h c, default None (h !! c);
  check_plane_state := λ h _ _, (- EINVAL, h);
  check_crtc_state := λ h _ _, (- EINVAL, h);
  update_plane := λ h _ _ _ _, (- EINVAL, h);
  disable_plane := λ h _, (- EINVAL, h);
  page_flip := λ h _ _ _ _, (- EINVAL, h);
  mode_set_config_internal := λ h _, (- EINVAL, h);
  connector_find := λ _ id, Some (Z.to_nat id)
|}.

(** What the caller asks for: the plane is turned off; the crtc scans out
    nothing. *)
Definition turn_off (st : option addr) : drm_plane_state :=
  mk_plane_state None None 0 0 0 0 0 0 0 0 st.
Definition blank_crtc (st : option addr) : drm_crtc_state :=
  mk_crtc_state false None None 0 0 true 1%nat [40] st.

(** The demo device under that driver, with a transaction (at address 3)
    that stages plane 1 (block 4) to be turned off and crtc 0 (block 5) to
    be blanked. *)
Definition stubborn_txn : @world stubborn_driver :=
  @mk_world stubborn_driver 2%nat 1%nat
    [mk_plane (Some 0%nat) (Some 0%nat); mk_plane (Some 1%nat) (Some 1%nat)]
    [mk_crtc (Some 2%nat) (Some 2%nat) true]
    (<[4%nat := turn_off (Some 3%nat)]>
       (<[1%nat := overlay_plane]> {[0%nat := idle_plane]}))
    (<[5%nat := blank_crtc (Some 3%nat)]> {[2%nat := scanout_crtc]})
    {[3%nat := mk_helper_state 0 [None; Some 1%nat] [None; Some 4%nat]
                 [Some 0%nat] [Some 5%nat]]}
    (<[7%nat := 1]> (<[6%nat := 1]> {[5%nat := 1]}))
    6%nat [] [Some 5%nat] [].

(** The demo device with a crtc whose driver has no [page_flip]. *)
Definition demo_device_no_flip : @world demo_driver :=
  @set_dev_crtcs demo_driver (λ _, [mk_crtc (Some 2%nat) (Some 2%nat) false])
    demo_device.

(** The demo device when the second allocation from now fails. *)
Definition demo_device_tight : @world demo_driver :=
  @set_alloc demo_driver 3%nat [true; false] demo_device.

(** A full reconfiguration of the crtc to image 6 on two connectors. *)
Definition modeset_to_6 (st : option addr) : drm_crtc_state :=
  mk_crtc_state true (Some 6%nat) None 0 0 true 1%nat [40; 41] st.

(** A transaction (at address 3) that stages crtc 0 (block 4) for that
    reconfiguration, at a moment when the next allocation fails. *)
Definition demo_modeset_txn : @world demo_driver :=
  let w2 := demo_crtc_touch 0 demo_device in
  @set_alloc demo_driver (brk w2) [false]
    (set_fb_refcount (λ _, hold_6 (fb_refcount w2))
       (set_cstate_mem (<[4%nat := modeset_to_6 (Some 3%nat)]>) w2)).

(** A property setter: it makes a plane show image 6 on crtc 0, takes a
    reference on the image and answers 0. *)
Definition demo_set_fb_6 (ps : drm_plane_state) (refs : gmap fb_id Z)
    : Z * drm_plane_state * gmap fb_id Z :=
  (0, show_image_6 (ps_state ps) 640, hold_6 refs).

(** * Proofs *)

(** ** One kind of resource *)

Section Table.
Context (valid : addr → Prop).

Lemma table_inv_begin n lv :
  length lv = n →
  (∀ i p, lv !! i = Some p → ∃ q, p = Some q ∧ valid q) →
  (∀ i j q, lv !! i = Some (Some q) → lv !! j = Some (Some q) → i = j) →
  table_inv valid n lv (replicate n None) (replicate n None).
Proof.
  intros Hl Hv Hs. split; auto using length_replicate.
  - intros i p [? ?]%lookup_replicate. done.
  - intros i q [? ?]%lookup_replicate. done.
  - intros i j q _ [? ?]%lookup_replicate. done.
  - intros i j q [? ?]%lookup_replicate. done.
Qed.

Lemma table_slot_marker n lv mk sl i :
  table_inv valid n lv mk sl →
  (∃ q, sl !! i = Some (Some q)) ↔ (∃ p, mk !! i = Some (Some p)).
Proof.
  intros T. destruct (ti_pair _ _ _ _ _ T i) as [H1 H2].
  pose proof (ti_mark_len _ _ _ _ _ T) as Lm.
  pose proof (ti_slot_len _ _ _ _ _ T) as Ls.
  split.
  - intros [q Hq]. destruct (mk !! i) as [[p|]|] eqn:E.
    + eauto.
    + specialize (H1 eq_refl). congruence.
    + apply lookup_ge_None in E. apply lookup_lt_Some in Hq. lia.
  - intros [p Hp]. destruct (sl !! i) as [[q|]|] eqn:E.
    + eauto.
    + specialize (H2 eq_refl). congruence.
    + apply lookup_ge_None in E. apply lookup_lt_Some in Hp. lia.
Qed.

End Table.

Lemma table_inv_valid (v v' : addr → Prop) n lv mk sl :
  (∀ q, v q → v' q) → table_inv v n lv mk sl → table_inv v' n lv mk sl.
Proof.
  intros Hvv [Ll Lm Ls Htag Hpair Hlv Hsv Hll Hls Hss].
  split; auto.
  - intros i p Hp. destruct (Hlv i p Hp) as (q & -> & Hq). eauto.
  - eauto.
Qed.

(** Staging object [i] with a block that was not allocated before. *)
Lemma table_inv_stage (v : addr → Prop) n lv mk sl i q :
  table_inv v n lv mk sl → sl !! i = Some None → ¬ v q →
  table_inv (λ x, x = q ∨ v x) n lv (<[i := Some i]> mk) (<[i := Some q]> sl).
Proof.
  intros [Ll Lm Ls Htag Hpair Hlv Hsv Hll Hls Hss] Hi Hq.
  assert (i < length sl)%nat as Hlt by (by eapply lookup_lt_Some).
  split; rewrite ?length_insert; auto.
  - intros j p. destruct (decide (i = j)) as [<-|Hne].
    + rewrite list_lookup_insert_eq by lia. congruence.
    + rewrite list_lookup_insert_ne by done. auto.
  - intros j. destruct (decide (i = j)) as [<-|Hne].
    + rewrite !list_lookup_insert_eq by lia. split; intros [=].
    + rewrite !list_lookup_insert_ne by done. auto.
  - intros j p Hp. destruct (Hlv j p Hp) as (x & -> & Hx). eauto.
  - intros j x. destruct (decide (i = j)) as [<-|Hne].
    + rewrite list_lookup_insert_eq by lia. intros [= ->]. auto.
    + rewrite list_lookup_insert_ne by done. eauto.
  - intros j k x Hj. destruct (decide (i = k)) as [<-|Hne].
    + rewrite list_lookup_insert_eq by lia. intros [= ->].
      destruct (Hlv j _ Hj) as (y & [= <-] & Hy). done.
    + rewrite list_lookup_insert_ne by done. eauto.
  - intros j k x.
    destruct (decide (i = j)) as [<-|Hj], (decide (i = k)) as [<-|Hk]; try done.
    + rewrite list_lookup_insert_eq, list_lookup_insert_ne by (done || lia).
      intros [= <-] Hx. apply Hsv in Hx. done.
    + rewrite list_lookup_insert_ne, list_lookup_insert_eq by (done || lia).
      intros Hx [= <-]. apply Hsv in Hx. done.
    + rewrite !list_lookup_insert_ne by done. eauto.
Qed.

(** The exchange made by [swap_plane_state] and [swap_crtc_state]. *)
Lemma table_inv_swap (v : addr → Prop) n lv mk sl i p q :
  table_inv v n lv mk sl → lv !! i = Some p → sl !! i = Some (Some q) →
  table_inv v n (<[i := Some q]> lv) mk (<[i := p]> sl).
Proof.
  intros [Ll Lm Ls Htag Hpair Hlv Hsv Hll Hls Hss] Hp Hq.
  assert (i < length sl)%nat as Hlts by (by eapply lookup_lt_Some).
  assert (i < length lv)%nat as Hltl by (by eapply lookup_lt_Some).
  destruct (Hlv i p Hp) as (l & -> & Hl).
  split; rewrite ?length_insert; auto.
  - intros j. rewrite Hpair. destruct (decide (i = j)) as [<-|Hne].
    + rewrite list_lookup_insert_eq, Hq by lia. split; intros [=].
    + by rewrite list_lookup_insert_ne by done.
  - intros j x. destruct (decide (i = j)) as [<-|Hne].
    + rewrite list_lookup_insert_eq by lia. intros [= <-]. eauto.
    + rewrite list_lookup_insert_ne by done. eauto.
  - intros j x. destruct (decide (i = j)) as [<-|Hne].
    + rewrite list_lookup_insert_eq by lia. intros [= <-]. eauto.
    + rewrite list_lookup_insert_ne by done. eauto.
  - intros j k x.
    destruct (decide (i = j)) as [<-|Hj], (decide (i = k)) as [<-|Hk]; try done.
    + rewrite list_lookup_insert_eq, list_lookup_insert_ne by (done || lia).
      intros [= <-] Hx. exfalso. by eapply Hls.
    + rewrite list_lookup_insert_ne, list_lookup_insert_eq by (done || lia).
      intros Hx [= <-]. exfalso. by eapply Hls.
    + rewrite !list_lookup_insert_ne by done. eauto.
  - intros j k x.
    destruct (decide (i = j)) as [<-|Hj], (decide (i = k)) as [<-|Hk].
    + rewrite !list_lookup_insert_eq by lia. intros [= <-] [= <-].
      by eapply Hls.
    + rewrite list_lookup_insert_eq, list_lookup_insert_ne by (done || lia).
      intros [= <-] Hx. apply Hk. eauto.
    + rewrite list_lookup_insert_ne, list_lookup_insert_eq by (done || lia).
      intros Hx [= <-]. apply Hj. eauto.
    + rewrite !list_lookup_insert_ne by done. eauto.
  - intros j k x.
    destruct (decide (i = j)) as [<-|Hj], (decide (i = k)) as [<-|Hk]; try done.
    + rewrite list_lookup_insert_eq, list_lookup_insert_ne by (done || lia).
      intros [= <-] Hx. exfalso. by eapply Hls.
    + rewrite list_lookup_insert_ne, list_lookup_insert_eq by (done || lia).
      intros Hx [= <-]. exfalso. by eapply Hls.
    + rewrite !list_lookup_insert_ne by done. eauto.
Qed.

(** ** Running the monad *)

Ltac unfold_ops :=
  unfold store_pstate, store_cstate, store_helper, unreference_if,
    drm_framebuffer_unreference, load_plane, load_crtc;
  unfold load; unfold index, deref, gets, modify, oops;
  unfold mbind, M_bind, mret, M_ret.

(** Projections of the written-out worlds. *)
Ltac wsimpl :=
  cbn [pstate_mem cstate_mem helper_mem dev_planes dev_crtcs dev_num_plane
       dev_num_crtc fb_refcount brk kmalloc_script hw events
       allocated begun staged_plane staged_crtc swapped_plane swapped_crtc
       set_alloc set_hw set_pstate_mem set_cstate_mem set_helper_mem
       set_dev_planes set_dev_crtcs set_fb_refcount] in *.

(** Side conditions on the index sets of [frame]. *)
Ltac side := intros ?; cbv beta; tauto.

(** Symbolic execution: rewrite with the lookups at hand. *)
Ltac run :=
  repeat (wsimpl;
    match goal with
    | H : ?l = Some _ |- context [?l] => rewrite H
    | H : ?l = None |- context [?l] => rewrite H
    | H : ?l = Ok _ |- context [?l] => rewrite H
    | H : ?l = true |- context [?l] => rewrite H
    | H : ?l = false |- context [?l] => rewrite H
    | |- context [decide ?P] =>
        first [rewrite (decide_True (P := P)) by done
              |rewrite (decide_False (P := P)) by done]
    end).

Section Run.
Context {D : drm_driver}.
Implicit Types (w : @world D) (t : drm_atomic_helper_state).

Lemma outcome_weaken {A} (r : result (A * world)) (Q Q' : A → world → Prop) (F F' : Prop) :
  outcome r Q F → (∀ x w', Q x w' → Q' x w') → (F → F') → outcome r Q' F'.
Proof. destruct r as [[x w']|e]; simpl; auto. Qed.

Lemma outcome_bind {A B} (m : M A) (f : A → M B) w
    (Q1 : A → world → Prop) (Q : B → world → Prop) (F : Prop) :
  outcome (m w) Q1 F →
  (∀ x w1, Q1 x w1 → outcome (f x w1) Q F) →
  outcome ((m ≫= f) w) Q F.
Proof.
  unfold mbind, M_bind. destruct (m w) as [[x w1]|e]; simpl; auto.
Qed.

Lemma outcome_ok {A} (r : result (A * world)) (Q : A → world → Prop) :
  outcome r Q False → ∃ x w', r = Ok (x, w') ∧ Q x w'.
Proof. destruct r as [[x w']|e]; simpl; [eauto | done]. Qed.

(** The [for] loop with [break], over the indices [k .. k+m-1]: [I] holds
    between iterations, [B] after the iteration that breaks. *)
Lemma for_each_seq (I : nat → world → Prop) (B : nat → Z → world → Prop)
    (F : Prop) (body : nat → M (option Z)) m : ∀ k ret w,
  (∀ i w, (k ≤ i < k + m)%nat → I i w →
     outcome (body i w)
       (λ r w', match r with
                | None => I (S i) w'
                | Some rc => if decide (rc = 0) then I (S i) w' else B i rc w'
                end) F) →
  I k w →
  outcome (for_each (seq k m) body ret w)
    (λ rc w', (I (k + m)%nat w' ∧ (rc = ret ∨ rc = 0)) ∨
              (∃ i, (k ≤ i < k + m)%nat ∧ rc ≠ 0 ∧ B i rc w')) F.
Proof.
  induction m as [|m IH]; intros k ret w Hbody HI; simpl.
  - left. rewrite Nat.add_0_r. auto.
  - eapply outcome_bind; [apply (Hbody k w); [lia | done] |].
    intros [rc|] w1 H1; simpl in H1.
    + revert H1. destruct (decide (rc = 0)) as [->|Hrc]; intros H1.
      * eapply outcome_weaken; [apply (IH (S k) 0 w1) | |done].
        -- intros i w2 Hi. apply Hbody. lia.
        -- done.
        -- intros rc w2 [[HI2 Hr]|(i & Hi & Hr)].
           ++ left. replace (k + S m)%nat with (S k + m)%nat by lia.
              split; [done | right; by destruct Hr].
           ++ right. exists i. split; [lia | done].
      * right. exists k. split; [lia | done].
    + eapply outcome_weaken; [apply (IH (S k) ret w1) | |done].
      * intros i w2 Hi. apply Hbody. lia.
      * done.
      * intros rc w2 [[HI2 Hr]|(i & Hi & Hr)].
        -- left. replace (k + S m)%nat with (S k + m)%nat by lia. done.
        -- right. exists i. split; [lia | done].
Qed.

(** The loop without [break]. *)
Lemma for_all_seq (I : nat → world → Prop) (F : Prop) (body : nat → M unit) m :
  ∀ k w,
  (∀ i w, (k ≤ i < k + m)%nat → I i w →
     outcome (body i w) (λ _ w', I (S i) w') F) →
  I k w →
  outcome (for_all (seq k m) body w) (λ _ w', I (k + m)%nat w') F.
Proof.
  induction m as [|m IH]; intros k w Hbody HI; simpl.
  - by rewrite Nat.add_0_r.
  - eapply outcome_bind; [apply (Hbody k w); [lia | done] |].
    intros [] w1 H1. simpl in H1.
    replace (k + S m)%nat with (S k + m)%nat by lia.
    apply IH; [|done]. intros i w2 Hi. apply Hbody. lia.
Qed.

(** *** Loads that succeed *)

Lemma load_helper_run w a t :
  helper_mem w !! a = Some t → load helper_mem (Some a) w = Ok (t, w).
Proof. intros H. unfold_ops. by rewrite H. Qed.

Lemma load_pstate_run w q ps :
  pstate_mem w !! q = Some ps → load pstate_mem (Some q) w = Ok (ps, w).
Proof. intros H. unfold_ops. by rewrite H. Qed.

Lemma load_cstate_run w q cs :
  cstate_mem w !! q = Some cs → load cstate_mem (Some q) w = Ok (cs, w).
Proof. intros H. unfold_ops. by rewrite H. Qed.

Lemma load_plane_run w i pl :
  dev_planes w !! i = Some pl → load_plane i w = Ok (pl, w).
Proof. intros H. unfold_ops. by rewrite H. Qed.

Lemma load_crtc_run w i c :
  dev_crtcs w !! i = Some c → load_crtc i w = Ok (c, w).
Proof. intros H. unfold_ops. by rewrite H. Qed.

(** *** Allocation and [begin] *)

Lemma kzalloc_ok w :
  head (kmalloc_script w) ≠ Some false → kzalloc w = Ok (Some (brk w), allocated w).
Proof.
  unfold kzalloc, allocated. destruct (kmalloc_script w) as [|[] s]; simpl; done.
Qed.

Lemma kzalloc_fail w s :
  kmalloc_script w = false :: s → kzalloc w = Ok (None, set_alloc (brk w) s w).
Proof. unfold kzalloc. by intros ->. Qed.

Lemma begin_ok fl w :
  head (kmalloc_script w) ≠ Some false →
  drm_atomic_helper_begin fl w = Ok (Some (brk w), begun fl w).
Proof.
  intros H. unfold drm_atomic_helper_begin. unfold_ops.
  by rewrite (kzalloc_ok w H).
Qed.

Lemma begin_oom fl w s :
  kmalloc_script w = false :: s → drm_atomic_helper_begin fl w = Oops NullDeref.
Proof.
  intros H. unfold drm_atomic_helper_begin. unfold_ops.
  by rewrite (kzalloc_fail w s H).
Qed.

Lemma begin_inversion fl w0 p w :
  drm_atomic_helper_begin fl w0 = Ok (p, w) →
  p = Some (brk w0) ∧ w = begun fl w0 ∧ head (kmalloc_script w0) ≠ Some false.
Proof.
  destruct (decide (head (kmalloc_script w0) = Some false)) as [E|E].
  - destruct (kmalloc_script w0) as [|[] s] eqn:E'; try done.
    by rewrite (begin_oom fl w0 s E').
  - rewrite begin_ok by done. by intros [= <- <-].
Qed.

Lemma begin_Inv fl w0 :
  quiescent w0 →
  Inv (brk w0) (begun fl w0) (fresh_helper_state fl w0) ∧
  staged (brk w0) (begun fl w0) (fresh_helper_state fl w0).
Proof.
  intros Q. split; [split|split]; simpl.
  - apply lookup_insert_eq.
  - apply table_inv_begin.
    + rewrite length_fmap. apply Q.
    + intros i p. rewrite list_lookup_fmap.
      destruct (dev_planes w0 !! i) as [pl|] eqn:E; [|done]. intros [= <-].
      apply (qu_plane_valid _ Q) in E. done.
    + intros i j q. rewrite !list_lookup_fmap.
      destruct (dev_planes w0 !! i) as [pi|] eqn:Ei; [|done].
      destruct (dev_planes w0 !! j) as [pj|] eqn:Ej; [|done].
      intros [= Hi] [= Hj]. eapply (qu_plane_sep _ Q); eauto.
  - apply table_inv_begin.
    + rewrite length_fmap. apply Q.
    + intros i p. rewrite list_lookup_fmap.
      destruct (dev_crtcs w0 !! i) as [c|] eqn:E; [|done]. intros [= <-].
      apply (qu_crtc_valid _ Q) in E. done.
    + intros i j q. rewrite !list_lookup_fmap.
      destruct (dev_crtcs w0 !! i) as [ci|] eqn:Ei; [|done].
      destruct (dev_crtcs w0 !! j) as [cj|] eqn:Ej; [|done].
      intros [= Hi] [= Hj]. eapply (qu_crtc_sep _ Q); eauto.
  - intros q ps Hq. left. by eapply (qu_pback _ Q).
  - intros q cs Hq. left. by eapply (qu_cback _ Q).
  - intros q Hq. apply (qu_pbrk _ Q) in Hq. lia.
  - intros q Hq. apply (qu_cbrk _ Q) in Hq. lia.
  - intros i q ps [? ?]%lookup_replicate. done.
  - intros i q cs [? ?]%lookup_replicate. done.
Qed.

(** *** Staging a plane *)

Lemma get_plane_state_hit w a t i q :
  helper_mem w !! a = Some t → pstates t !! i = Some (Some q) →
  drm_atomic_helper_get_plane_state i (Some a) w = Ok (Some q, w).
Proof.
  intros Ht Hq. unfold drm_atomic_helper_get_plane_state. unfold_ops.
  by rewrite Ht, Hq.
Qed.

Lemma get_plane_state_miss w a t i pl l live :
  helper_mem w !! a = Some t → pstates t !! i = Some None →
  is_Some (planes t !! i) →
  dev_planes w !! i = Some pl → plane_state pl = Some l →
  pstate_mem w !! l = Some live →
  head (kmalloc_script w) ≠ Some false →
  drm_atomic_helper_get_plane_state i (Some a) w
  = Ok (Some (brk w), staged_plane a t i live w).
Proof.
  intros Ht Hq [m Hm] Hpl Hl Hlive Hk.
  unfold drm_atomic_helper_get_plane_state, drm_atomic_helper_init_plane_state.
  pose proof (kzalloc_ok w Hk). unfold_ops. by run.
Qed.

Lemma get_plane_state_oom w a t i pl l live s :
  helper_mem w !! a = Some t → pstates t !! i = Some None →
  dev_planes w !! i = Some pl → plane_state pl = Some l →
  pstate_mem w !! l = Some live →
  kmalloc_script w = false :: s →
  drm_atomic_helper_get_plane_state i (Some a) w = Oops NullDeref.
Proof.
  intros Ht Hq Hpl Hl Hlive Hk.
  unfold drm_atomic_helper_get_plane_state, drm_atomic_helper_init_plane_state.
  pose proof (kzalloc_fail w s Hk). unfold_ops. by run.
Qed.

Lemma Inv_live_plane a w t i :
  Inv a w t → (i < dev_num_plane w)%nat →
  ∃ pl l live, dev_planes w !! i = Some pl ∧ plane_state pl = Some l ∧
               pstate_mem w !! l = Some live.
Proof.
  intros I Hi. pose proof (inv_planes _ _ _ I) as T.
  pose proof (ti_live_len _ _ _ _ _ T) as Hlen. rewrite length_fmap in Hlen.
  destruct (lookup_lt_is_Some_2 (dev_planes w) i) as [pl Hpl]; [lia|].
  destruct (ti_live_valid _ _ _ _ _ T i (plane_state pl)) as (l & Hl & [live Hv]).
  { by rewrite list_lookup_fmap, Hpl. }
  eauto 10.
Qed.

Lemma Inv_staged_plane a w t i live :
  Inv a w t → pstates t !! i = Some None →
  Inv a (staged_plane a t i live w) (stage_plane_txn t i (brk w)) ∧
  (staged a w t → staged a (staged_plane a t i live w) (stage_plane_txn t i (brk w))).
Proof.
  intros I Hq.
  assert (¬ valid_pstate w (brk w)) as Hfresh.
  { intros Hv. apply (inv_pbrk _ _ _ I) in Hv. lia. }
  split; [split|]; simpl.
  - apply lookup_insert_eq.
  - eapply table_inv_valid;
      [|exact (table_inv_stage _ _ _ _ _ i (brk w) (inv_planes _ _ _ I) Hq Hfresh)].
    intros q [->|Hv]; unfold valid_pstate; simpl.
    + rewrite lookup_insert_eq. eauto.
    + rewrite lookup_insert_ne; [done|]. intros <-. done.
  - exact (inv_crtcs _ _ _ I).
  - intros q ps. destruct (decide (brk w = q)) as [<-|Hne].
    + rewrite lookup_insert_eq. intros [= <-]. by right.
    + rewrite lookup_insert_ne by done. apply (inv_pback _ _ _ I).
  - exact (inv_cback _ _ _ I).
  - intros q. unfold valid_pstate; simpl.
    destruct (decide (brk w = q)) as [<-|Hne]; [lia|].
    rewrite lookup_insert_ne by done. intros Hv.
    apply (inv_pbrk _ _ _ I) in Hv. lia.
  - intros q Hv. apply (inv_cbrk _ _ _ I) in Hv. lia.
  - intros [Sp Sc]. split; simpl; [|exact Sc].
    intros j q ps. destruct (decide (i = j)) as [<-|Hne].
    + rewrite list_lookup_insert_eq by (by eapply lookup_lt_Some).
      intros [= <-]. rewrite lookup_insert_eq. by intros [= <-].
    + rewrite list_lookup_insert_ne by done. intros Hj.
      rewrite lookup_insert_ne; [by apply (Sp j)|].
      intros <-. apply Hfresh.
      exact (ti_slot_valid _ _ _ _ _ (inv_planes _ _ _ I) _ _ Hj).
Qed.

(** Whatever [drm_atomic_helper_get_plane_state] returns, the invariant
    still holds. *)
Lemma get_plane_state_Inv a w t i p w' :
  Inv a w t →
  drm_atomic_helper_get_plane_state i (Some a) w = Ok (p, w') →
  ∃ t', Inv a w' t' ∧ (staged a w t → staged a w' t').
Proof.
  intros I. pose proof (inv_txn _ _ _ I) as Ht.
  pose proof (inv_planes _ _ _ I) as T.
  destruct (pstates t !! i) as [[q|]|] eqn:Hq.
  - rewrite (get_plane_state_hit w a t i q Ht Hq). intros [= <- <-]. eauto.
  - assert (i < dev_num_plane w)%nat as Hi.
    { rewrite <- (ti_slot_len _ _ _ _ _ T). by eapply lookup_lt_Some. }
    destruct (Inv_live_plane a w t i I Hi) as (pl & l & live & Hpl & Hl & Hlive).
    destruct (decide (head (kmalloc_script w) = Some false)) as [E|E].
    + destruct (kmalloc_script w) as [|[] s] eqn:E'; try done.
      by rewrite (get_plane_state_oom w a t i pl l live s).
    + rewrite (get_plane_state_miss w a t i pl l live); try done.
      * intros [= <- <-]. eexists. by apply Inv_staged_plane.
      * apply lookup_lt_is_Some_2. by rewrite (ti_mark_len _ _ _ _ _ T).
  - unfold drm_atomic_helper_get_plane_state. unfold_ops. by rewrite Ht, Hq.
Qed.

(** *** Staging a crtc *)

Lemma get_crtc_state_hit w a t i q :
  helper_mem w !! a = Some t → cstates t !! i = Some (Some q) →
  drm_atomic_helper_get_crtc_state i (Some a) w = Ok (Some q, w).
Proof.
  intros Ht Hq. unfold drm_atomic_helper_get_crtc_state. unfold_ops.
  by rewrite Ht, Hq.
Qed.

Lemma get_crtc_state_miss w a t i pl l live :
  helper_mem w !! a = Some t → cstates t !! i = Some None →
  is_Some (crtcs t !! i) →
  dev_crtcs w !! i = Some pl → crtc_state pl = Some l →
  cstate_mem w !! l = Some live →
  head (kmalloc_script w) ≠ Some false →
  drm_atomic_helper_get_crtc_state i (Some a) w
  = Ok (Some (brk w), staged_crtc a t i live w).
Proof.
  intros Ht Hq [m Hm] Hpl Hl Hlive Hk.
  unfold drm_atomic_helper_get_crtc_state, drm_atomic_helper_init_crtc_state.
  pose proof (kzalloc_ok w Hk). unfold_ops. by run.
Qed.

Lemma get_crtc_state_oom w a t i pl l live s :
  helper_mem w !! a = Some t → cstates t !! i = Some None →
  dev_crtcs w !! i = Some pl → crtc_state pl = Some l →
  cstate_mem w !! l = Some live →
  kmalloc_script w = false :: s →
  drm_atomic_helper_get_crtc_state i (Some a) w = Oops NullDeref.
Proof.
  intros Ht Hq Hpl Hl Hlive Hk.
  unfold drm_atomic_helper_get_crtc_state, drm_atomic_helper_init_crtc_state.
  pose proof (kzalloc_fail w s Hk). unfold_ops. by run.
Qed.

Lemma Inv_live_crtc a w t i :
  Inv a w t → (i < dev_num_crtc w)%nat →
  ∃ pl l live, dev_crtcs w !! i = Some pl ∧ crtc_state pl = Some l ∧
               cstate_mem w !! l = Some live.
Proof.
  intros I Hi. pose proof (inv_crtcs _ _ _ I) as T.
  pose proof (ti_live_len _ _ _ _ _ T) as Hlen. rewrite length_fmap in Hlen.
  destruct (lookup_lt_is_Some_2 (dev_crtcs w) i) as [pl Hpl]; [lia|].
  destruct (ti_live_valid _ _ _ _ _ T i (crtc_state pl)) as (l & Hl & [live Hv]).
  { by rewrite list_lookup_fmap, Hpl. }
  eauto 10.
Qed.

Lemma Inv_staged_crtc a w t i live :
  Inv a w t → cstates t !! i = Some None →
  Inv a (staged_crtc a t i live w) (stage_crtc_txn t i (brk w)) ∧
  (staged a w t → staged a (staged_crtc a t i live w) (stage_crtc_txn t i (brk w))).
Proof.
  intros I Hq.
  assert (¬ valid_cstate w (brk w)) as Hfresh.
  { intros Hv. apply (inv_cbrk _ _ _ I) in Hv. lia. }
  split; [split|]; simpl.
  - apply lookup_insert_eq.
  - exact (inv_planes _ _ _ I).
  - eapply table_inv_valid;
      [|exact (table_inv_stage _ _ _ _ _ i (brk w) (inv_crtcs _ _ _ I) Hq Hfresh)].
    intros q [->|Hv]; unfold valid_cstate; simpl.
    + rewrite lookup_insert_eq. eauto.
    + rewrite lookup_insert_ne; [done|]. intros <-. done.
  - exact (inv_pback _ _ _ I).
  - intros q ps. destruct (decide (brk w = q)) as [<-|Hne].
    + rewrite lookup_insert_eq. intros [= <-]. by right.
    + rewrite lookup_insert_ne by done. apply (inv_cback _ _ _ I).
  - intros q Hv. apply (inv_pbrk _ _ _ I) in Hv. lia.
  - intros q. unfold valid_cstate; simpl.
    destruct (decide (brk w = q)) as [<-|Hne]; [lia|].
    rewrite lookup_insert_ne by done. intros Hv.
    apply (inv_cbrk _ _ _ I) in Hv. lia.
  - intros [Sp Sc]. split; simpl; [exact Sp|].
    intros j q ps. destruct (decide (i = j)) as [<-|Hne].
    + rewrite list_lookup_insert_eq by (by eapply lookup_lt_Some).
      intros [= <-]. rewrite lookup_insert_eq. by intros [= <-].
    + rewrite list_lookup_insert_ne by done. intros Hj.
      rewrite lookup_insert_ne; [by apply (Sc j)|].
      intros <-. apply Hfresh.
      exact (ti_slot_valid _ _ _ _ _ (inv_crtcs _ _ _ I) _ _ Hj).
Qed.

(** Whatever [drm_atomic_helper_get_crtc_state] returns, the invariant
    still holds. *)
Lemma get_crtc_state_Inv a w t i p w' :
  Inv a w t →
  drm_atomic_helper_get_crtc_state i (Some a) w = Ok (p, w') →
  ∃ t', Inv a w' t' ∧ (staged a w t → staged a w' t').
Proof.
  intros I. pose proof (inv_txn _ _ _ I) as Ht.
  pose proof (inv_crtcs _ _ _ I) as T.
  destruct (cstates t !! i) as [[q|]|] eqn:Hq.
  - rewrite (get_crtc_state_hit w a t i q Ht Hq). intros [= <- <-]. eauto.
  - assert (i < dev_num_crtc w)%nat as Hi.
    { rewrite <- (ti_slot_len _ _ _ _ _ T). by eapply lookup_lt_Some. }
    destruct (Inv_live_crtc a w t i I Hi) as (pl & l & live & Hpl & Hl & Hlive).
    destruct (decide (head (kmalloc_script w) = Some false)) as [E|E].
    + destruct (kmalloc_script w) as [|[] s] eqn:E'; try done.
      by rewrite (get_crtc_state_oom w a t i pl l live s).
    + rewrite (get_crtc_state_miss w a t i pl l live); try done.
      * intros [= <- <-]. eexists. by apply Inv_staged_crtc.
      * apply lookup_lt_is_Some_2. by rewrite (ti_mark_len _ _ _ _ _ T).
  - unfold drm_atomic_helper_get_crtc_state. unfold_ops. by rewrite Ht, Hq.
Qed.

(** *** Steps that keep the invariant *)

Lemma Inv_set_hw a w t h e : Inv a w t → Inv a (set_hw h e w) t.
Proof. intros []. by split. Qed.

Lemma Inv_unreferenced a w t fb : Inv a w t → Inv a (unreferenced fb w) t.
Proof. intros []. destruct fb; by split. Qed.

Lemma Inv_allocated a w t : Inv a w t → Inv a (allocated w) t.
Proof.
  intros []. split; try done; wsimpl.
  - intros q Hq. apply inv_pbrk0 in Hq. lia.
  - intros q Hq. apply inv_cbrk0 in Hq. lia.
Qed.

Lemma Inv_set_alloc a w t s : Inv a w t → Inv a (set_alloc (brk w) s w) t.
Proof. intros []. by split. Qed.

Lemma frame_refl Mp Mc w t : frame Mp Mc w t w t.
Proof. by split. Qed.

Lemma frame_trans Mp1 Mc1 Mp2 Mc2 (Mp Mc : nat → Prop) w0 t0 w1 t1 w2 t2 :
  frame Mp1 Mc1 w0 t0 w1 t1 → frame Mp2 Mc2 w1 t1 w2 t2 →
  (∀ j, Mp1 j ∨ Mp2 j → Mp j) → (∀ j, Mc1 j ∨ Mc2 j → Mc j) →
  frame Mp Mc w0 t0 w2 t2.
Proof.
  intros [] [] Hp Hc. split; try congruence.
  - intros j Hj. rewrite fr_dev_planes1, fr_dev_planes0; naive_solver.
  - intros j Hj. rewrite fr_pstates1, fr_pstates0; naive_solver.
  - intros j Hj. rewrite fr_dev_crtcs1, fr_dev_crtcs0; naive_solver.
  - intros j Hj. rewrite fr_cstates1, fr_cstates0; naive_solver.
Qed.

Lemma frame_set_hw Mp Mc w t h e : frame Mp Mc w t (set_hw h e w) t.
Proof. by split. Qed.

Lemma frame_unreferenced Mp Mc w0 t0 w t fb :
  frame Mp Mc w0 t0 w t → frame Mp Mc w0 t0 (unreferenced fb w) t.
Proof. intros []. destruct fb; by split. Qed.

(** *** Commit of one plane *)

Lemma swap_plane_state_run w a t i q pl :
  helper_mem w !! a = Some t → pstates t !! i = Some q →
  dev_planes w !! i = Some pl →
  swap_plane_state i (Some a) w
  = Ok (tt, swapped_plane a t i (plane_state pl) q w).
Proof. intros Ht Hq Hpl. unfold swap_plane_state. unfold_ops. by run. Qed.

Lemma Inv_swapped_plane a w t i q pl :
  Inv a w t → pstates t !! i = Some (Some q) → dev_planes w !! i = Some pl →
  Inv a (swapped_plane a t i (plane_state pl) (Some q) w)
        (swap_plane_txn t i (plane_state pl)).
Proof.
  intros I Hq Hpl. split; wsimpl; try apply I.
  - apply lookup_insert_eq.
  - rewrite list_fmap_insert. simpl.
    apply table_inv_swap; [apply I | | done].
    by rewrite list_lookup_fmap, Hpl.
Qed.

Lemma frame_swapped_plane a w t i l q :
  frame (λ j, j = i) (λ _, False) w t (swapped_plane a t i l q w) (swap_plane_txn t i l).
Proof.
  split; wsimpl; try done.
  - intros j Hj. by rewrite list_lookup_insert_ne by done.
  - intros j Hj. simpl. by rewrite list_lookup_insert_ne by done.
Qed.

(** The three ways out of [drm_atomic_helper_commit_plane_state]. *)
Lemma commit_plane_update_ok w a t i q ps c fb h pl l live slot :
  pstate_mem w !! q = Some ps → ps_crtc ps = Some c → ps_fb ps = Some fb →
  update_plane D (hw w) i c fb (geometry ps) = (0, h) →
  dev_planes w !! i = Some pl → plane_state pl = Some l →
  pstate_mem w !! l = Some live →
  ps_state ps = Some a → helper_mem w !! a = Some t →
  pstates t !! i = Some slot →
  drm_atomic_helper_commit_plane_state i (Some q) w
  = Ok (0, unreferenced (ps_fb live)
             (swapped_plane a t i (Some l) slot
                (set_hw h (EvUpdatePlane i c fb (geometry ps) 0) w))).
Proof.
  intros Hps Hc Hfb Hup Hpl Hl Hlive Hst Ht Hslot.
  unfold drm_atomic_helper_commit_plane_state, commit_plane_out, call_update_plane,
    swap_plane_state.
  unfold_ops. run. rewrite Hup. run. by destruct (ps_fb live).
Qed.

Lemma commit_plane_update_fail w i q ps c fb rc h :
  pstate_mem w !! q = Some ps → ps_crtc ps = Some c → ps_fb ps = Some fb →
  update_plane D (hw w) i c fb (geometry ps) = (rc, h) → rc ≠ 0 →
  drm_atomic_helper_commit_plane_state i (Some q) w
  = Ok (rc, unreferenced (Some fb)
              (set_hw h (EvUpdatePlane i c fb (geometry ps) rc) w)).
Proof.
  intros Hps Hc Hfb Hup Hrc.
  unfold drm_atomic_helper_commit_plane_state, commit_plane_out, call_update_plane.
  unfold_ops. run. rewrite Hup. by run.
Qed.

Lemma commit_plane_disable w a t i q ps rc h pl l live slot :
  pstate_mem w !! q = Some ps → ps_crtc ps = None ∨ ps_fb ps = None →
  disable_plane D (hw w) i = (rc, h) →
  dev_planes w !! i = Some pl → plane_state pl = Some l →
  pstate_mem w !! l = Some live →
  ps_state ps = Some a → helper_mem w !! a = Some t →
  pstates t !! i = Some slot →
  drm_atomic_helper_commit_plane_state i (Some q) w
  = Ok (0, unreferenced (ps_fb live) (unreferenced (ps_fb ps)
             (swapped_plane a t i (Some l) slot
                (set_hw h (EvDisablePlane i rc) w)))).
Proof.
  intros Hps Hc Hdis Hpl Hl Hlive Hst Ht Hslot.
  unfold drm_atomic_helper_commit_plane_state, commit_plane_out, call_disable_plane,
    swap_plane_state.
  unfold_ops.
  destruct Hc as [Hc|Hc]; run.
  - rewrite Hdis. run. by destruct (ps_fb ps), (ps_fb live).
  - destruct (ps_crtc ps); run; rewrite Hdis; run; by destruct (ps_fb live).
Qed.

(** With the invariant, committing the staged block of plane [i] keeps the
    invariant and touches plane [i] only; it can fault only on a block
    whose back-pointer is [NULL]. *)
Lemma commit_plane_state_outcome a w t i q :
  Inv a w t → pstates t !! i = Some (Some q) →
  outcome (drm_atomic_helper_commit_plane_state i (Some q) w)
    (λ _ w', ∃ t', Inv a w' t' ∧ frame (λ j, j = i) (λ _, False) w t w' t')
    (∃ ps, pstate_mem w !! q = Some ps ∧ ps_state ps = None).
Proof.
  intros I Hq. pose proof (inv_txn _ _ _ I) as Ht.
  pose proof (inv_planes _ _ _ I) as T.
  destruct (ti_slot_valid _ _ _ _ _ T i q Hq) as [ps Hps].
  assert (i < dev_num_plane w)%nat as Hi.
  { rewrite <- (ti_slot_len _ _ _ _ _ T). by eapply lookup_lt_Some. }
  destruct (Inv_live_plane a w t i I Hi) as (pl & l & live & Hpl & Hl & Hlive).
  assert (∀ h e, Inv a (swapped_plane a t i (Some l) (Some q) (set_hw h e w))
                   (swap_plane_txn t i (Some l))) as Hswap.
  { intros h e. rewrite <- Hl.
    apply (Inv_swapped_plane a (set_hw h e w) t i q pl); [|done..].
    by apply Inv_set_hw. }
  assert (∀ h e, frame (λ j, j = i) (λ _, False) w t
            (swapped_plane a t i (Some l) (Some q) (set_hw h e w))
            (swap_plane_txn t i (Some l))) as Hframe.
  { intros h e. eapply frame_trans;
      [apply (frame_set_hw (λ _, False) (λ _, False) w t h e)
      |apply frame_swapped_plane | by intros j [[]|?] | by intros j [[]|[]]]. }
  destruct (ps_crtc ps) as [c|] eqn:Hc; [destruct (ps_fb ps) as [fb|] eqn:Hfb|].
  - destruct (update_plane D (hw w) i c fb (geometry ps)) as [rc h] eqn:Hup.
    destruct (decide (rc = 0)) as [->|Hrc].
    + destruct (inv_pback _ _ _ I q ps Hps) as [Hst|Hst].
      * unfold drm_atomic_helper_commit_plane_state, commit_plane_out, call_update_plane,
          swap_plane_state.
        unfold_ops. run. rewrite Hup. run. simpl. eauto.
      * rewrite (commit_plane_update_ok w a t i q ps c fb h pl l live (Some q))
          by done.
        cbn [outcome]. eexists. split; [by apply Inv_unreferenced|].
        by apply frame_unreferenced.
    + rewrite (commit_plane_update_fail w i q ps c fb rc h) by done.
      cbn [outcome]. exists t. split; [by apply Inv_unreferenced, Inv_set_hw|].
      apply frame_unreferenced, frame_set_hw.
  - destruct (disable_plane D (hw w) i) as [rc h] eqn:Hdis.
    destruct (inv_pback _ _ _ I q ps Hps) as [Hst|Hst].
    + unfold drm_atomic_helper_commit_plane_state, commit_plane_out, call_disable_plane,
        swap_plane_state.
      unfold_ops. run. rewrite Hdis. run. simpl. eauto.
    + rewrite (commit_plane_disable w a t i q ps rc h pl l live (Some q))
        by auto.
      cbn [outcome]. eexists. split; [by do 2 apply Inv_unreferenced|].
      by do 2 apply frame_unreferenced.
  - destruct (disable_plane D (hw w) i) as [rc h] eqn:Hdis.
    destruct (inv_pback _ _ _ I q ps Hps) as [Hst|Hst].
    + unfold drm_atomic_helper_commit_plane_state, commit_plane_out, call_disable_plane,
        swap_plane_state.
      unfold_ops. run. rewrite Hdis. run. simpl. eauto.
    + rewrite (commit_plane_disable w a t i q ps rc h pl l live (Some q))
        by auto.
      cbn [outcome]. eexists. split; [by do 2 apply Inv_unreferenced|].
      by do 2 apply frame_unreferenced.
Qed.

(** *** Commit of one crtc *)

Lemma swap_crtc_state_run w a t i q c :
  helper_mem w !! a = Some t → cstates t !! i = Some q →
  dev_crtcs w !! i = Some c →
  swap_crtc_state i (Some a) w = Ok (tt, swapped_crtc a t i c q w).
Proof. intros Ht Hq Hc. unfold swap_crtc_state. unfold_ops. by run. Qed.

Lemma Inv_swapped_crtc a w t i q c :
  Inv a w t → cstates t !! i = Some (Some q) → dev_crtcs w !! i = Some c →
  Inv a (swapped_crtc a t i c (Some q) w) (swap_crtc_txn t i (crtc_state c)).
Proof.
  intros I Hq Hc. split; wsimpl; try apply I.
  - apply lookup_insert_eq.
  - rewrite list_fmap_insert. simpl.
    apply table_inv_swap; [apply I | | done].
    by rewrite list_lookup_fmap, Hc.
Qed.

Lemma frame_swapped_crtc a w t i c q :
  frame (λ _, False) (λ j, j = i) w t (swapped_crtc a t i c q w)
    (swap_crtc_txn t i (crtc_state c)).
Proof.
  split; wsimpl; try done.
  - intros j Hj. by rewrite list_lookup_insert_ne by done.
  - intros j Hj. simpl. by rewrite list_lookup_insert_ne by done.
Qed.

(** Neither branch applies: the staged image is the live one. *)
Lemma commit_crtc_noop w i q cs c l live :
  cstate_mem w !! q = Some cs → cs_set_config cs = false →
  dev_crtcs w !! i = Some c → crtc_state c = Some l →
  cstate_mem w !! l = Some live → cs_fb live = cs_fb cs →
  drm_atomic_helper_commit_crtc_state i (Some q) w = Ok (- EINVAL, w).
Proof.
  intros Hcs Hsc Hc Hl Hlive Hfb.
  unfold drm_atomic_helper_commit_crtc_state, commit_crtc_out. unfold_ops.
  run. destruct (cs_fb cs) as [fb|]; by run.
Qed.

(** Page flip with nothing bound to the crtc. *)
Lemma commit_crtc_flip_unbound w i q cs c l live fb :
  cstate_mem w !! q = Some cs → cs_set_config cs = false →
  dev_crtcs w !! i = Some c → crtc_state c = Some l →
  cstate_mem w !! l = Some live →
  cs_fb cs = Some fb → cs_fb live ≠ Some fb →
  crtc_fb D (hw w) i = None →
  drm_atomic_helper_commit_crtc_state i (Some q) w = Ok (- EBUSY, w).
Proof.
  intros Hcs Hsc Hc Hl Hlive Hfb Hne Hb.
  unfold drm_atomic_helper_commit_crtc_state, commit_crtc_out. unfold_ops.
  by run.
Qed.

(** Page flip on a crtc whose driver has no [page_flip]. *)
Lemma commit_crtc_flip_unsupported w i q cs c l live fb bound :
  cstate_mem w !! q = Some cs → cs_set_config cs = false →
  dev_crtcs w !! i = Some c → crtc_state c = Some l →
  cstate_mem w !! l = Some live →
  cs_fb cs = Some fb → cs_fb live ≠ Some fb →
  crtc_fb D (hw w) i = Some bound → crtc_has_page_flip c = false →
  drm_atomic_helper_commit_crtc_state i (Some q) w = Ok (- EINVAL, w).
Proof.
  intros Hcs Hsc Hc Hl Hlive Hfb Hne Hb Hpf.
  unfold drm_atomic_helper_commit_crtc_state, commit_crtc_out. unfold_ops.
  by run.
Qed.

(** Page flip refused by the driver. *)
Lemma commit_crtc_flip_fail w p t i q cs c l live fb bound rc h :
  cstate_mem w !! q = Some cs → cs_set_config cs = false →
  dev_crtcs w !! i = Some c → crtc_state c = Some l →
  cstate_mem w !! l = Some live →
  cs_fb cs = Some fb → cs_fb live ≠ Some fb →
  crtc_fb D (hw w) i = Some bound → crtc_has_page_flip c = true →
  cs_state cs = Some p → helper_mem w !! p = Some t →
  page_flip D (hw w) i fb (cs_event cs) (flags t) = (rc, h) → rc ≠ 0 →
  drm_atomic_helper_commit_crtc_state i (Some q) w
  = Ok (rc, unreferenced (Some fb)
              (set_hw h (EvPageFlip i fb (cs_event cs) (flags t) rc) w)).
Proof.
  intros Hcs Hsc Hc Hl Hlive Hfb Hne Hb Hpf Hst Ht Hflip Hrc.
  unfold drm_atomic_helper_commit_crtc_state, commit_crtc_out, call_page_flip.
  unfold_ops. run. rewrite Hflip. by run.
Qed.

(** Page flip done. *)
Lemma commit_crtc_flip_ok w a t i q cs c l live fb bound h slot :
  cstate_mem w !! q = Some cs → cs_set_config cs = false →
  dev_crtcs w !! i = Some c → crtc_state c = Some l →
  cstate_mem w !! l = Some live →
  cs_fb cs = Some fb → cs_fb live ≠ Some fb →
  crtc_fb D (hw w) i = Some bound → crtc_has_page_flip c = true →
  cs_state cs = Some a → helper_mem w !! a = Some t →
  cstates t !! i = Some slot →
  page_flip D (hw w) i fb (cs_event cs) (flags t) = (0, h) →
  drm_atomic_helper_commit_crtc_state i (Some q) w
  = Ok (0, unreferenced (Some bound)
             (swapped_crtc a t i c slot
                (set_hw h (EvPageFlip i fb (cs_event cs) (flags t) 0) w))).
Proof.
  intros Hcs Hsc Hc Hl Hlive Hfb Hne Hb Hpf Hst Ht Hslot Hflip.
  unfold drm_atomic_helper_commit_crtc_state, commit_crtc_out, call_page_flip,
    swap_crtc_state.
  unfold_ops. run. rewrite Hflip. run.
  unfold unreferenced, swapped_crtc, swap_crtc_txn. by rewrite Hpf, Hl.
Qed.

(** Disable: the staged image is [NULL], the live one is not. *)
Lemma commit_crtc_disable_ok w a t i q cs c l live old h slot :
  cstate_mem w !! q = Some cs → cs_set_config cs = false →
  dev_crtcs w !! i = Some c → crtc_state c = Some l →
  cstate_mem w !! l = Some live →
  cs_fb cs = None → cs_fb live = Some old →
  cs_state cs = Some a → helper_mem w !! a = Some t →
  cstates t !! i = Some slot →
  mode_set_config_internal D (hw w) (disable_set i) = (0, h) →
  drm_atomic_helper_commit_crtc_state i (Some q) w
  = Ok (0, unreferenced (Some old)
             (swapped_crtc a t i c slot
                (set_hw h (EvSetConfig (disable_set i) 0) w))).
Proof.
  intros Hcs Hsc Hc Hl Hlive Hfb Hold Hst Ht Hslot Hset.
  unfold drm_atomic_helper_commit_crtc_state, commit_crtc_out,
    call_mode_set_config_internal, swap_crtc_state.
  unfold_ops. run. rewrite Hset. run.
  unfold unreferenced, swapped_crtc, swap_crtc_txn. by rewrite Hl.
Qed.

Lemma commit_crtc_disable_fail w i q cs c l live old rc h :
  cstate_mem w !! q = Some cs → cs_set_config cs = false →
  dev_crtcs w !! i = Some c → crtc_state c = Some l →
  cstate_mem w !! l = Some live →
  cs_fb cs = None → cs_fb live = Some old →
  mode_set_config_internal D (hw w) (disable_set i) = (rc, h) → rc ≠ 0 →
  drm_atomic_helper_commit_crtc_state i (Some q) w
  = Ok (rc, unreferenced (Some old)
              (set_hw h (EvSetConfig (disable_set i) rc) w)).
Proof.
  intros Hcs Hsc Hc Hl Hlive Hfb Hold Hset Hrc.
  unfold drm_atomic_helper_commit_crtc_state, commit_crtc_out,
    call_mode_set_config_internal.
  unfold_ops. run. rewrite Hset. by run.
Qed.

(** Full reconfiguration. *)
Lemma get_connector_set_run ids w :
  ∃ conn w1, get_connector_set ids w = Ok (conn, w1) ∧
    (w1 = allocated w ∨ ∃ s, w1 = set_alloc (brk w) s w).
Proof.
  unfold get_connector_set, kzalloc, allocated. unfold_ops.
  destruct (kmalloc_script w) as [|[] s] eqn:E; simpl;
    do 2 eexists; (split; [done|]); eauto.
Qed.

Lemma set_config_fail w w1 i q cs conn rc h :
  cstate_mem w !! q = Some cs →
  get_connector_set (cs_connector_ids cs) w = Ok (conn, w1) →
  mode_set_config_internal D (hw w1) (config_set i cs conn) = (rc, h) →
  rc ≠ 0 →
  set_config i (Some q) w
  = Ok (rc, unreferenced (cs_fb cs)
              (set_hw h (EvSetConfig (config_set i cs conn) rc) w1)).
Proof.
  intros Hcs Hconn Hset Hrc.
  unfold set_config, call_mode_set_config_internal. unfold_ops.
  run. rewrite Hset. run. by destruct (cs_fb cs).
Qed.

Lemma set_config_ok w w1 a t i q cs conn h c slot :
  cstate_mem w !! q = Some cs →
  get_connector_set (cs_connector_ids cs) w = Ok (conn, w1) →
  mode_set_config_internal D (hw w1) (config_set i cs conn) = (0, h) →
  cs_state cs = Some a → helper_mem w1 !! a = Some t →
  cstates t !! i = Some slot → dev_crtcs w1 !! i = Some c →
  set_config i (Some q) w
  = Ok (0, unreferenced (cs_fb cs)
             (swapped_crtc a t i c slot
                (set_hw h (EvSetConfig (config_set i cs conn) 0) w1))).
Proof.
  intros Hcs Hconn Hset Hst Ht Hslot Hc.
  unfold set_config, call_mode_set_config_internal, swap_crtc_state.
  unfold_ops. run. rewrite Hset. run. by destruct (cs_fb cs).
Qed.

Lemma commit_crtc_set_config w i q cs :
  cstate_mem w !! q = Some cs → cs_set_config cs = true →
  drm_atomic_helper_commit_crtc_state i (Some q) w = set_config i (Some q) w.
Proof.
  intros Hcs Hsc. unfold drm_atomic_helper_commit_crtc_state at 1.
  unfold_ops. by run.
Qed.

(** With the invariant, committing the staged block of crtc [i] keeps the
    invariant and touches crtc [i] only; it can fault only on a block whose
    back-pointer is [NULL]. *)
Lemma commit_crtc_state_outcome a w t i q :
  Inv a w t → cstates t !! i = Some (Some q) →
  outcome (drm_atomic_helper_commit_crtc_state i (Some q) w)
    (λ _ w', ∃ t', Inv a w' t' ∧ frame (λ _, False) (λ j, j = i) w t w' t')
    (∃ cs, cstate_mem w !! q = Some cs ∧ cs_state cs = None).
Proof.
  intros I Hq. pose proof (inv_txn _ _ _ I) as Ht.
  pose proof (inv_crtcs _ _ _ I) as T.
  destruct (ti_slot_valid _ _ _ _ _ T i q Hq) as [cs Hcs].
  assert (i < dev_num_crtc w)%nat as Hi.
  { rewrite <- (ti_slot_len _ _ _ _ _ T). by eapply lookup_lt_Some. }
  destruct (Inv_live_crtc a w t i I Hi) as (c & l & live & Hc & Hl & Hlive).
  assert (∀ w1, Inv a w1 t → frame (λ _, False) (λ _, False) w t w1 t →
     dev_crtcs w1 = dev_crtcs w →
     ∀ fb h e,
       Inv a (unreferenced fb (swapped_crtc a t i c (Some q) (set_hw h e w1)))
         (swap_crtc_txn t i (crtc_state c)) ∧
       frame (λ _, False) (λ j, j = i) w t
         (unreferenced fb (swapped_crtc a t i c (Some q) (set_hw h e w1)))
         (swap_crtc_txn t i (crtc_state c))) as Hswap.
  { intros w1 I1 F1 E1 fb h e. split.
    - apply Inv_unreferenced. apply Inv_swapped_crtc.
      + by apply Inv_set_hw.
      + done.
      + wsimpl. by rewrite E1.
    - apply frame_unreferenced.
      eapply (frame_trans _ _ (λ _, False) (λ j, j = i));
        [exact F1 | | by intros j [[]|[]] | by intros j [[]|?]].
      eapply frame_trans;
        [apply (frame_set_hw (λ _, False) (λ _, False) w1 t h e)
        |apply frame_swapped_crtc | by intros j [[]|[]] | by intros j [[]|?]]. }
  assert (∀ w1, Inv a w1 t → frame (λ _, False) (λ _, False) w t w1 t →
     ∀ fb h e,
       Inv a (unreferenced fb (set_hw h e w1)) t ∧
       frame (λ _, False) (λ j, j = i) w t (unreferenced fb (set_hw h e w1)) t)
    as Hkeep.
  { intros w1 I1 F1 fb h e. split.
    - by apply Inv_unreferenced, Inv_set_hw.
    - apply frame_unreferenced. eapply frame_trans;
        [exact F1 | apply (frame_set_hw (λ _, False) (λ j, j = i))
        | by intros j [[]|[]] | by intros j [[]|?]]. }
  pose proof (frame_refl (λ _, False) (λ _, False) w t) as F0.
  destruct (cs_set_config cs) eqn:Hsc.
  - (* set_config *)
    rewrite (commit_crtc_set_config w i q cs Hcs Hsc).
    destruct (get_connector_set_run (cs_connector_ids cs) w)
      as (conn & w1 & Hconn & Hw1).
    assert (Inv a w1 t ∧ frame (λ _, False) (λ _, False) w t w1 t ∧
            dev_crtcs w1 = dev_crtcs w ∧ helper_mem w1 = helper_mem w)
      as (I1 & F1 & E1 & E2).
    { destruct Hw1 as [->|[s ->]].
      - split; [by apply Inv_allocated | by repeat split].
      - split; [by apply Inv_set_alloc | by repeat split]. }
    destruct (mode_set_config_internal D (hw w1) (config_set i cs conn))
      as [rc h] eqn:Hset.
    destruct (decide (rc = 0)) as [->|Hrc].
    + destruct (inv_cback _ _ _ I q cs Hcs) as [Hst|Hst].
      * unfold set_config, call_mode_set_config_internal, swap_crtc_state.
        unfold_ops. run. rewrite Hset. run. simpl. eauto.
      * rewrite (set_config_ok w w1 a t i q cs conn h c (Some q));
          try done; [|by rewrite E2|by rewrite E1].
        cbn [outcome]. eexists. by apply Hswap.
    + rewrite (set_config_fail w w1 i q cs conn rc h) by done.
      cbn [outcome]. exists t. by apply Hkeep.
  - destruct (cs_fb cs) as [fb|] eqn:Hfb.
    + destruct (decide (cs_fb live = Some fb)) as [Heq|Hne].
      { rewrite (commit_crtc_noop w i q cs c l live) by congruence.
        cbn [outcome]. exists t. split; [done | by split]. }
      destruct (crtc_fb D (hw w) i) as [bound|] eqn:Hb.
      2:{ rewrite (commit_crtc_flip_unbound w i q cs c l live fb) by done.
          cbn [outcome]. exists t. split; [done | by split]. }
      destruct (crtc_has_page_flip c) eqn:Hpf.
      2:{ rewrite (commit_crtc_flip_unsupported w i q cs c l live fb bound)
            by done.
          cbn [outcome]. exists t. split; [done | by split]. }
      destruct (inv_cback _ _ _ I q cs Hcs) as [Hst|Hst].
      * unfold drm_atomic_helper_commit_crtc_state. unfold_ops. run.
        simpl. eauto.
      * destruct (page_flip D (hw w) i fb (cs_event cs) (flags t))
          as [rc h] eqn:Hflip.
        destruct (decide (rc = 0)) as [->|Hrc].
        -- rewrite (commit_crtc_flip_ok w a t i q cs c l live fb bound h (Some q))
             by done.
           cbn [outcome]. eexists. by apply Hswap.
        -- rewrite (commit_crtc_flip_fail w a t i q cs c l live fb bound rc h)
             by done.
           cbn [outcome]. exists t. by apply Hkeep.
    + destruct (cs_fb live) as [old|] eqn:Hold.
      2:{ rewrite (commit_crtc_noop w i q cs c l live) by congruence.
          cbn [outcome]. exists t. split; [done | by split]. }
      destruct (mode_set_config_internal D (hw w) (disable_set i))
        as [rc h] eqn:Hset.
      destruct (decide (rc = 0)) as [->|Hrc].
      * destruct (inv_cback _ _ _ I q cs Hcs) as [Hst|Hst].
        -- unfold drm_atomic_helper_commit_crtc_state,
             call_mode_set_config_internal, swap_crtc_state.
           unfold_ops. run. rewrite Hset. run. simpl. eauto.
        -- rewrite (commit_crtc_disable_ok w a t i q cs c l live old h (Some q))
             by done.
           cbn [outcome]. eexists. by apply Hswap.
      * rewrite (commit_crtc_disable_fail w i q cs c l live old rc h) by done.
        cbn [outcome]. exists t. by apply Hkeep.
Qed.

(** *** The check pass *)

Lemma Inv_logged a w t h evs : Inv a w t → Inv a (logged h evs w) t.
Proof. intros []. by split. Qed.

Lemma logged_logged h1 e1 h2 e2 w :
  logged h2 e2 (logged h1 e1 w) = logged h2 (e1 ++ e2) w.
Proof. unfold logged; simpl. by rewrite app_assoc. Qed.

Lemma logged_nil w : logged (hw w) [] w = w.
Proof. destruct w; unfold logged; simpl. by rewrite app_nil_r. Qed.

Lemma Inv_touched a w t i p :
  Inv a w t → planes t !! i = Some (Some p) →
  p = i ∧ ∃ q ps pl, pstates t !! i = Some (Some q) ∧
                     pstate_mem w !! q = Some ps ∧ dev_planes w !! i = Some pl.
Proof.
  intros I Hp. pose proof (inv_planes _ _ _ I) as T.
  split; [by eapply (ti_tag _ _ _ _ _ T)|].
  destruct (proj2 (table_slot_marker _ _ _ _ _ i T)) as [q Hq]; [eauto|].
  destruct (ti_slot_valid _ _ _ _ _ T i q Hq) as [ps Hps].
  assert (i < dev_num_plane w)%nat as Hi.
  { rewrite <- (ti_slot_len _ _ _ _ _ T). by eapply lookup_lt_Some. }
  destruct (Inv_live_plane a w t i I Hi) as (pl & _ & _ & Hpl & _).
  eauto 10.
Qed.

Lemma check_body_untouched a w t i :
  helper_mem w !! a = Some t → planes t !! i = Some None →
  check_body (Some a) i w = Ok (None, w).
Proof. intros Ht Hp. unfold check_body. unfold_ops. by run. Qed.

Lemma check_body_touched a w t i q ps pl :
  helper_mem w !! a = Some t → planes t !! i = Some (Some i) →
  pstates t !! i = Some (Some q) → pstate_mem w !! q = Some ps →
  dev_planes w !! i = Some pl →
  check_body (Some a) i w
  = let '(rc, h) := check_plane_state D (hw w) i ps in
    Ok (Some rc, logged h [EvCheckPlane i ps rc] w).
Proof.
  intros Ht Hp Hq Hps Hpl.
  unfold check_body, drm_atomic_check_plane_state, call_check_plane_state.
  unfold_ops. run. by destruct (check_plane_state D (hw w) i ps).
Qed.

Lemma check_loop_run a t m : ∀ k ret w,
  Inv a w t → (k + m ≤ dev_num_plane w)%nat →
  for_each (seq k m) (check_body (Some a)) ret w
  = let '(rc, h, evs) :=
      validate_spec (omap (touched_plane w t) (seq k m)) ret (hw w) in
    Ok (rc, logged h evs w).
Proof.
  induction m as [|m IH]; intros k ret w I Hk.
  - simpl. by rewrite logged_nil.
  - pose proof (inv_txn _ _ _ I) as Ht.
    pose proof (inv_planes _ _ _ I) as T.
    destruct (lookup_lt_is_Some_2 (planes t) k) as [[p|] Hp].
    { rewrite (ti_mark_len _ _ _ _ _ T). lia. }
    + destruct (Inv_touched a w t k p I Hp) as (-> & q & ps & pl & Hq & Hps & Hpl).
      cbn [seq for_each omap list_omap]. unfold mbind at 1, M_bind at 1.
      rewrite (check_body_touched a w t k q ps pl) by done.
      unfold touched_plane at 1. rewrite Hp, Hq, Hps. cbn [mbind option_bind].
      cbn [validate_spec].
      destruct (check_plane_state D (hw w) k ps) as [rc h].
      destruct (decide (rc = 0)) as [->|Hrc]; [|done].
      rewrite (IH (S k) 0 (logged h [EvCheckPlane k ps 0] w));
        [|by apply Inv_logged | simpl; lia].
      change (hw (logged h [EvCheckPlane k ps 0] w)) with h.
      change (touched_plane (logged h [EvCheckPlane k ps 0] w) t)
        with (touched_plane w t).
      destruct (validate_spec _ 0 h) as [[r h''] evs].
      by rewrite logged_logged.
    + cbn [seq for_each omap list_omap]. unfold mbind at 1, M_bind at 1.
      rewrite (check_body_untouched a w t k) by done.
      unfold touched_plane at 1. rewrite Hp.
      apply IH; [done | lia].
Qed.

(** What [validate_spec] says about the calls it makes. *)
Lemma validate_spec_calls l : ∀ (h : HW D) rc h' evs,
  validate_spec l 0 h = (rc, h', evs) →
  check_target <$> evs = Some <$> take (length evs) l ∧
  (rc = 0 → length evs = length l ∧ Forall (λ e, event_rc e = 0) evs) ∧
  (rc ≠ 0 → ∃ evs0 e, evs = evs0 ++ [e] ∧
              Forall (λ e, event_rc e = 0) evs0 ∧ event_rc e = rc).
Proof.
  induction l as [|[i ps] l IH]; intros h rc h' evs; simpl.
  - intros [= <- <- <-]. repeat split; done.
  - destruct (check_plane_state D h i ps) as [rc1 h1].
    destruct (decide (rc1 = 0)) as [->|Hrc].
    + destruct (validate_spec l 0 h1) as [[r h''] evs1] eqn:E.
      intros [= <- <- <-]. destruct (IH _ _ _ _ E) as (H1 & H2 & H3).
      split; [|split].
      * rewrite fmap_cons. cbn [check_target length take].
        by rewrite fmap_cons, H1.
      * intros Hr. destruct (H2 Hr) as [Hl Hf]. simpl. split; [by rewrite Hl|].
        by constructor.
      * intros Hr. destruct (H3 Hr) as (evs0 & e & -> & Hf & He).
        exists (EvCheckPlane i ps 0 :: evs0), e. split; [done|].
        split; [by constructor | done].
    + intros [= <- <- <-]. split; [done|]. split; [done|].
      intros _. exists [], (EvCheckPlane i ps rc1). by repeat split.
Qed.

(** *** The commit pass *)

Lemma frame_mono (Mp Mc Mp' Mc' : nat → Prop) w t w' t' :
  frame Mp Mc w t w' t' → (∀ j, Mp j → Mp' j) → (∀ j, Mc j → Mc' j) →
  frame Mp' Mc' w t w' t'.
Proof.
  intros F Hp Hc.
  eapply (frame_trans Mp Mc (λ _, False) (λ _, False));
    [exact F | apply frame_refl | |]; intros j [?|[]]; auto.
Qed.

Lemma commit_plane_body_outcome a w t i :
  Inv a w t → (i < dev_num_plane w)%nat →
  outcome (commit_plane_body (Some a) i w)
    (λ _ w', ∃ t', Inv a w' t' ∧
       frame (λ j, j = i ∧ planes t !! j ≠ Some None) (λ _, False) w t w' t')
    (∃ q ps, pstates t !! i = Some (Some q) ∧ pstate_mem w !! q = Some ps ∧
             ps_state ps = None).
Proof.
  intros I Hi. pose proof (inv_txn _ _ _ I) as Ht.
  pose proof (inv_planes _ _ _ I) as T.
  destruct (lookup_lt_is_Some_2 (planes t) i) as [[p|] Hp].
  { by rewrite (ti_mark_len _ _ _ _ _ T). }
  - destruct (Inv_touched a w t i p I Hp) as (-> & q & ps & pl & Hq & Hps & Hpl).
    unfold commit_plane_body, drm_atomic_commit_plane_state.
    unfold_ops. run.
    pose proof (commit_plane_state_outcome a w t i q I Hq) as Hc.
    destruct (drm_atomic_helper_commit_plane_state i (Some q) w)
      as [[rc w']|e]; simpl in *.
    + destruct Hc as (t' & I' & F). exists t'. split; [done|].
      eapply frame_mono; [exact F | | done].
      intros j ->. split; [done|]. by rewrite Hp.
    + destruct Hc as (ps' & Hps' & Hst). eauto.
  - unfold commit_plane_body. unfold_ops. run. simpl.
    exists t. split; [done | apply frame_refl].
Qed.

Lemma commit_crtc_body_outcome a w t i :
  Inv a w t → (i < dev_num_crtc w)%nat →
  outcome (commit_crtc_body (Some a) i w)
    (λ _ w', ∃ t', Inv a w' t' ∧
       frame (λ _, False) (λ j, j = i ∧ crtcs t !! j ≠ Some None) w t w' t')
    (∃ q cs, cstates t !! i = Some (Some q) ∧ cstate_mem w !! q = Some cs ∧
             cs_state cs = None).
Proof.
  intros I Hi. pose proof (inv_txn _ _ _ I) as Ht.
  pose proof (inv_crtcs _ _ _ I) as T.
  destruct (lookup_lt_is_Some_2 (crtcs t) i) as [[p|] Hp].
  { by rewrite (ti_mark_len _ _ _ _ _ T). }
  - assert (p = i) as -> by (by eapply (ti_tag _ _ _ _ _ T)).
    destruct (proj2 (table_slot_marker _ _ _ _ _ i T)) as [q Hq]; [eauto|].
    destruct (Inv_live_crtc a w t i I Hi) as (c & _ & _ & Hc & _).
    unfold commit_crtc_body, drm_atomic_commit_crtc_state.
    unfold_ops. run.
    pose proof (commit_crtc_state_outcome a w t i q I Hq) as Ho.
    destruct (drm_atomic_helper_commit_crtc_state i (Some q) w)
      as [[rc w']|e]; simpl in *.
    + destruct Ho as (t' & I' & F). exists t'. split; [done|].
      eapply frame_mono; [exact F | done |].
      intros j ->. split; [done|]. by rewrite Hp.
    + destruct Ho as (cs' & Hcs' & Hst). eauto.
  - unfold commit_crtc_body. unfold_ops. run. simpl.
    exists t. split; [done | apply frame_refl].
Qed.

Lemma Inv_num_plane a w0 t0 w t Mp Mc :
  Inv a w0 t0 → Inv a w t → frame Mp Mc w0 t0 w t →
  dev_num_plane w = dev_num_plane w0 ∧ dev_num_crtc w = dev_num_crtc w0.
Proof.
  intros I0 I F.
  rewrite <- (ti_mark_len _ _ _ _ _ (inv_planes _ _ _ I)).
  rewrite <- (ti_mark_len _ _ _ _ _ (inv_planes _ _ _ I0)).
  rewrite <- (ti_mark_len _ _ _ _ _ (inv_crtcs _ _ _ I)).
  rewrite <- (ti_mark_len _ _ _ _ _ (inv_crtcs _ _ _ I0)).
  by rewrite (fr_planes _ _ _ _ _ _ F), (fr_crtcs _ _ _ _ _ _ F).
Qed.

Lemma plane_pass_step a w0 t0 i w :
  Inv a w0 t0 → (i < dev_num_plane w0)%nat → plane_pass a w0 t0 i w →
  outcome (commit_plane_body (Some a) i w)
    (λ _ w', plane_pass a w0 t0 (S i) w') (¬ staged a w0 t0).
Proof.
  intros I0 Hi (t & I & F).
  destruct (Inv_num_plane a w0 t0 w t _ _ I0 I F) as [Hn _].
  eapply outcome_weaken;
    [apply (commit_plane_body_outcome a w t i I); lia | |].
  - intros _ w' (t' & I' & F'). exists t'. split; [done|].
    eapply frame_trans; [exact F | exact F' | | side].
    intros j [[Hj Ht]|[-> Ht]]; (split; [lia|]).
    + done.
    + by rewrite <- (fr_planes _ _ _ _ _ _ F).
  - intros (q & ps & Hq & Hps & Hst) [Sp _].
    rewrite (fr_pstates _ _ _ _ _ _ F) in Hq by lia.
    rewrite (fr_pmem _ _ _ _ _ _ F) in Hps.
    specialize (Sp i q ps Hq Hps). congruence.
Qed.

Lemma crtc_pass_step a w0 t0 i w :
  Inv a w0 t0 → (i < dev_num_crtc w0)%nat → crtc_pass a w0 t0 i w →
  outcome (commit_crtc_body (Some a) i w)
    (λ _ w', crtc_pass a w0 t0 (S i) w') (¬ staged a w0 t0).
Proof.
  intros I0 Hi (t & I & F).
  destruct (Inv_num_plane a w0 t0 w t _ _ I0 I F) as [_ Hn].
  eapply outcome_weaken;
    [apply (commit_crtc_body_outcome a w t i I); lia | |].
  - intros _ w' (t' & I' & F'). exists t'. split; [done|].
    eapply frame_trans; [exact F | exact F' | side |].
    intros j [[Hj Ht]|[-> Ht]]; (split; [lia|]).
    + done.
    + by rewrite <- (fr_crtcs _ _ _ _ _ _ F).
  - intros (q & cs & Hq & Hcs & Hst) [_ Sc].
    rewrite (fr_cstates _ _ _ _ _ _ F) in Hq by lia.
    rewrite (fr_cmem _ _ _ _ _ _ F) in Hcs.
    specialize (Sc i q cs Hq Hcs). congruence.
Qed.

(** The plane loop of a commit. *)
Lemma commit_plane_loop_outcome a w t :
  Inv a w t →
  outcome (for_each (seq 0 (dev_num_plane w)) (commit_plane_body (Some a)) 0 w)
    (λ _ w1, crtc_pass a w t 0 w1) (¬ staged a w t).
Proof.
  intros I. eapply outcome_weaken.
  { apply (for_each_seq (plane_pass a w t) (λ i _ w', plane_pass a w t (S i) w')
             (¬ staged a w t) _ (dev_num_plane w) 0%nat 0 w).
    - intros i w1 Hi HI.
      eapply outcome_weaken; [apply plane_pass_step; [done|lia|done] | |done].
      intros [rc|] w2 H2; [|done]. by destruct (decide (rc = 0)).
    - exists t. split; [done | apply frame_refl]. }
  - intros ret w1 H1.
    assert (∃ j, plane_pass a w t j w1) as (j & t1 & I1 & F1).
    { destruct H1 as [[? _]|(i & _ & _ & ?)]; eauto. }
    exists t1. split; [done|]. eapply frame_mono; [exact F1| |]; side.
  - done.
Qed.

(** The planes and crtcs a commit may have swapped are the touched ones;
    it faults only when some staged block has lost its back-pointer. *)
Lemma commit_outcome a w t :
  Inv a w t →
  outcome (drm_atomic_helper_commit (Some a) w)
    (λ _ w', ∃ t', Inv a w' t' ∧
       frame (λ x, planes t !! x ≠ Some None) (λ x, crtcs t !! x ≠ Some None)
             w t w' t')
    (¬ staged a w t).
Proof.
  intros I. unfold drm_atomic_helper_commit.
  unfold mbind at 1, M_bind at 1. unfold gets at 1.
  unfold mbind at 1, M_bind at 1. unfold gets at 1.
  eapply outcome_bind; [apply (commit_plane_loop_outcome a w t I)|].
  intros ret w1 HP. eapply outcome_weaken.
  { apply (for_each_seq (crtc_pass a w t) (λ i _ w', crtc_pass a w t (S i) w')
             (¬ staged a w t) _ (dev_num_crtc w) 0%nat ret w1).
    - intros i w2 Hi HI.
      eapply outcome_weaken; [apply crtc_pass_step; [done|lia|done] | |done].
      intros [rc|] w3 H3; [|done]. by destruct (decide (rc = 0)).
    - done. }
  - intros rc w2 H2.
    assert (∃ j, crtc_pass a w t j w2) as (j & t2 & I2 & F2).
    { destruct H2 as [[? _]|(i & _ & _ & ?)]; eauto. }
    exists t2. split; [done|]. eapply frame_mono; [exact F2| |]; side.
  - done.
Qed.

(** *** The teardown *)

Lemma end_pass_start a w t : Inv a w t → end_pass w t w.
Proof.
  intros I. split; try done.
  - intros k pl l Hk Hl.
    destruct (ti_live_valid _ _ _ _ _ (inv_planes _ _ _ I) k (Some l))
      as (l' & [= <-] & Hv); [|done].
    by rewrite list_lookup_fmap, Hk, <- Hl.
  - intros k c l Hk Hl.
    destruct (ti_live_valid _ _ _ _ _ (inv_crtcs _ _ _ I) k (Some l))
      as (l' & [= <-] & Hv); [|done].
    by rewrite list_lookup_fmap, Hk, <- Hl.
Qed.

Lemma end_plane_body_outcome a w0 t w i :
  Inv a w0 t → end_pass w0 t w → (i < dev_num_plane w0)%nat →
  outcome (end_plane_body (Some a) i w) (λ _ w', end_pass w0 t w') False.
Proof.
  intros I E Hi. pose proof (inv_planes _ _ _ I) as T.
  assert (helper_mem w !! a = Some t) as Ht.
  { rewrite (ep_helper _ _ _ E). apply I. }
  destruct (lookup_lt_is_Some_2 (pstates t) i) as [[q|] Hq].
  { by rewrite (ti_slot_len _ _ _ _ _ T). }
  - destruct (proj1 (table_slot_marker _ _ _ _ _ i T)) as [p Hp]; [eauto|].
    destruct (Inv_live_plane a w0 t i I Hi) as (pl & l & live0 & Hpl & Hl & _).
    destruct (ep_plive _ _ _ E i pl l Hpl Hl) as [live Hlive].
    assert (p = i) as -> by (by eapply (ti_tag _ _ _ _ _ T)).
    assert (dev_planes w !! i = Some pl) as Hpl'.
    { by rewrite (ep_planes _ _ _ E). }
    unfold end_plane_body. unfold_ops. run. simpl.
    assert (∀ k pk lk, dev_planes w0 !! k = Some pk → plane_state pk = Some lk →
              lk ≠ q) as Hsep.
    { intros k pk lk Hk Hlk ->.
      eapply (ti_sep_ls _ _ _ _ _ T k i q); [|done].
      by rewrite list_lookup_fmap, Hk, <- Hlk. }
    destruct E. split; wsimpl; try done.
    + intros k pk lk Hk Hlk.
      rewrite lookup_delete_ne by (symmetry; by eapply Hsep).
      destruct (decide (l = lk)) as [<-|Hne].
      * rewrite lookup_insert_eq. eauto.
      * rewrite lookup_insert_ne by done. eauto.
    + intros k pk lk Hk Hlk Hun.
      rewrite lookup_delete_ne by (symmetry; by eapply Hsep).
      rewrite lookup_insert_ne; [eauto|].
      intros <-. assert (i = k) as <-; [|congruence].
      eapply (ti_sep_ll _ _ _ _ _ T i k l).
      * by rewrite list_lookup_fmap, Hpl, <- Hl.
      * by rewrite list_lookup_fmap, Hk, <- Hlk.
  - unfold end_plane_body. unfold_ops. run. done.
Qed.

Lemma end_crtc_body_outcome a w0 t w i :
  Inv a w0 t → end_pass w0 t w → (i < dev_num_crtc w0)%nat →
  outcome (end_crtc_body (Some a) i w) (λ _ w', end_pass w0 t w') False.
Proof.
  intros I E Hi. pose proof (inv_crtcs _ _ _ I) as T.
  assert (helper_mem w !! a = Some t) as Ht.
  { rewrite (ep_helper _ _ _ E). apply I. }
  destruct (lookup_lt_is_Some_2 (cstates t) i) as [[q|] Hq].
  { by rewrite (ti_slot_len _ _ _ _ _ T). }
  - destruct (proj1 (table_slot_marker _ _ _ _ _ i T)) as [p Hp]; [eauto|].
    destruct (Inv_live_crtc a w0 t i I Hi) as (c & l & live0 & Hc & Hl & _).
    destruct (ep_clive _ _ _ E i c l Hc Hl) as [live Hlive].
    assert (p = i) as -> by (by eapply (ti_tag _ _ _ _ _ T)).
    assert (dev_crtcs w !! i = Some c) as Hc'.
    { by rewrite (ep_crtcs _ _ _ E). }
    unfold end_crtc_body. unfold_ops. run. simpl.
    assert (∀ k ck lk, dev_crtcs w0 !! k = Some ck → crtc_state ck = Some lk →
              lk ≠ q) as Hsep.
    { intros k ck lk Hk Hlk ->.
      eapply (ti_sep_ls _ _ _ _ _ T k i q); [|done].
      by rewrite list_lookup_fmap, Hk, <- Hlk. }
    destruct E. split; wsimpl; try done.
    + intros k ck lk Hk Hlk.
      rewrite lookup_delete_ne by (symmetry; by eapply Hsep).
      destruct (decide (l = lk)) as [<-|Hne].
      * rewrite lookup_insert_eq. eauto.
      * rewrite lookup_insert_ne by done. eauto.
    + intros k ck lk Hk Hlk Hun.
      rewrite lookup_delete_ne by (symmetry; by eapply Hsep).
      rewrite lookup_insert_ne; [eauto|].
      intros <-. assert (i = k) as <-; [|congruence].
      eapply (ti_sep_ll _ _ _ _ _ T i k l).
      * by rewrite list_lookup_fmap, Hc, <- Hl.
      * by rewrite list_lookup_fmap, Hk, <- Hlk.
  - unfold end_crtc_body. unfold_ops. run. done.
Qed.

Lemma end_pass_unstaged_kept w0 t w :
  end_pass w0 t w → unstaged_kept t w0 w.
Proof.
  intros E. split; intros i Hi.
  - unfold plane_live. rewrite (ep_planes _ _ _ E).
    destruct (dev_planes w0 !! i) as [pl|] eqn:Hpl; [|done]. simpl.
    destruct (plane_state pl) as [l|] eqn:Hl; [|done]. simpl.
    by rewrite (ep_pkeep _ _ _ E i pl l).
  - unfold crtc_live. rewrite (ep_crtcs _ _ _ E).
    destruct (dev_crtcs w0 !! i) as [c|] eqn:Hc; [|done]. simpl.
    destruct (crtc_state c) as [l|] eqn:Hl; [|done]. simpl.
    by rewrite (ep_ckeep _ _ _ E i c l).
Qed.

(** [drm_atomic_helper_end] runs to its end on every transaction that
    satisfies the invariant, and leaves the unstaged objects alone. *)
Lemma end_outcome a w t :
  Inv a w t →
  outcome (drm_atomic_helper_end (Some a) w) (λ _ w', unstaged_kept t w w') False.
Proof.
  intros I. unfold drm_atomic_helper_end.
  unfold mbind at 1, M_bind at 1. unfold gets at 1.
  unfold mbind at 1, M_bind at 1. unfold gets at 1.
  eapply outcome_bind.
  { apply (for_all_seq (λ _, end_pass w t) False _ (dev_num_plane w) 0%nat w).
    - intros i w1 Hi E. apply (end_plane_body_outcome a w t w1 i); [done..|lia].
    - by eapply end_pass_start. }
  intros [] w1 E1. eapply outcome_bind.
  { apply (for_all_seq (λ _, end_pass w t) False _ (dev_num_crtc w) 0%nat w1).
    - intros i w2 Hi E. apply (end_crtc_body_outcome a w t w2 i); [done..|lia].
    - done. }
  intros [] w2 E2. unfold_ops. simpl.
  destruct (end_pass_unstaged_kept _ _ _ E2) as [P C].
  split; intros i Hi; [exact (P i Hi) | exact (C i Hi)].
Qed.

Lemma frame_unstaged_kept (Mp Mc : nat → Prop) w t w' t' :
  frame Mp Mc w t w' t' →
  (∀ x, Mp x → planes t !! x ≠ Some None) →
  (∀ x, Mc x → crtcs t !! x ≠ Some None) →
  unstaged_kept t w w'.
Proof.
  intros F Hp Hc. split; intros i Hi.
  - unfold plane_live.
    rewrite (fr_dev_planes _ _ _ _ _ _ F), (fr_pmem _ _ _ _ _ _ F); [done|].
    intros HM. by apply Hp in HM.
  - unfold crtc_live.
    rewrite (fr_dev_crtcs _ _ _ _ _ _ F), (fr_cmem _ _ _ _ _ _ F); [done|].
    intros HM. by apply Hc in HM.
Qed.

Lemma unstaged_kept_trans t w0 w1 w2 :
  unstaged_kept t w0 w1 → unstaged_kept t w1 w2 → unstaged_kept t w0 w2.
Proof.
  intros [P1 C1] [P2 C2]. split; intros i Hi.
  - by rewrite P2, P1.
  - by rewrite C2, C1.
Qed.

(** *** Every reachable state satisfies the invariant *)

Lemma Inv_store_pstate a w t q ps ps' :
  Inv a w t → pstate_mem w !! q = Some ps → ps_state ps' = ps_state ps →
  Inv a (set_pstate_mem (<[q := ps']>) w) t ∧
  (staged a w t → staged a (set_pstate_mem (<[q := ps']>) w) t).
Proof.
  intros I Hq Hst.
  assert (∀ x, valid_pstate w x ↔ valid_pstate (set_pstate_mem (<[q := ps']>) w) x)
    as Hv.
  { intros x. unfold valid_pstate. wsimpl.
    destruct (decide (q = x)) as [<-|Hne].
    - rewrite lookup_insert_eq, Hq. split; eauto.
    - by rewrite lookup_insert_ne. }
  split; [split|]; wsimpl; try apply I.
  - eapply table_inv_valid; [|apply I]. intros x. apply Hv.
  - intros x y. destruct (decide (q = x)) as [<-|Hne].
    + rewrite lookup_insert_eq. intros [= <-]. rewrite Hst.
      by apply (inv_pback _ _ _ I q).
    + rewrite lookup_insert_ne by done. apply I.
  - intros x Hx. apply (inv_pbrk _ _ _ I), Hv, Hx.
  - intros [Sp Sc]. split; [|exact Sc]. wsimpl. intros j x y Hj.
    destruct (decide (q = x)) as [<-|Hne].
    + rewrite lookup_insert_eq. intros [= <-]. rewrite Hst. by eapply Sp.
    + rewrite lookup_insert_ne by done. by eapply Sp.
Qed.

Lemma Inv_store_cstate a w t q cs cs' :
  Inv a w t → cstate_mem w !! q = Some cs → cs_state cs' = cs_state cs →
  Inv a (set_cstate_mem (<[q := cs']>) w) t ∧
  (staged a w t → staged a (set_cstate_mem (<[q := cs']>) w) t).
Proof.
  intros I Hq Hst.
  assert (∀ x, valid_cstate w x ↔ valid_cstate (set_cstate_mem (<[q := cs']>) w) x)
    as Hv.
  { intros x. unfold valid_cstate. wsimpl.
    destruct (decide (q = x)) as [<-|Hne].
    - rewrite lookup_insert_eq, Hq. split; eauto.
    - by rewrite lookup_insert_ne. }
  split; [split|]; wsimpl; try apply I.
  - eapply table_inv_valid; [|apply I]. intros x. apply Hv.
  - intros x y. destruct (decide (q = x)) as [<-|Hne].
    + rewrite lookup_insert_eq. intros [= <-]. rewrite Hst.
      by apply (inv_cback _ _ _ I q).
    + rewrite lookup_insert_ne by done. apply I.
  - intros x Hx. apply (inv_cbrk _ _ _ I), Hv, Hx.
  - intros [Sp Sc]. split; [exact Sp|]. wsimpl. intros j x y Hj.
    destruct (decide (q = x)) as [<-|Hne].
    + rewrite lookup_insert_eq. intros [= <-]. rewrite Hst. by eapply Sc.
    + rewrite lookup_insert_ne by done. by eapply Sc.
Qed.

Lemma Inv_set_fb_refcount a w t f : Inv a w t → Inv a (set_fb_refcount f w) t.
Proof. intros []. by split. Qed.

Lemma set_event_Inv a w t obj ev rc w' :
  Inv a w t →
  drm_atomic_helper_set_event (Some a) obj ev w = Ok (rc, w') →
  ∃ t', Inv a w' t' ∧ (staged a w t → staged a w' t').
Proof.
  intros I. destruct obj as [crtc| |]; simpl.
  - unfold mbind at 1, M_bind at 1.
    destruct (drm_atomic_helper_get_crtc_state crtc (Some a) w)
      as [[p w1]|e] eqn:E; [|done].
    destruct (get_crtc_state_Inv a w t crtc p w1 I E) as (t1 & I1 & S1).
    unfold_ops. destruct p as [q|]; [|done].
    destruct (cstate_mem w1 !! q) as [cs|] eqn:Hcs; [|done].
    intros [= <- <-]. exists t1.
    destruct (Inv_store_cstate a w1 t1 q cs (with_cs_event cs ev) I1 Hcs eq_refl).
    split; auto.
  - intros [= <- <-]. eauto.
  - intros [= <- <-]. eauto.
Qed.

Lemma check_run a w t :
  Inv a w t →
  drm_atomic_helper_check (Some a) w
  = let '(rc, h, evs) := validate_spec (touched_planes w t) 0 (hw w) in
    Ok (rc, logged h evs w).
Proof.
  intros I. unfold drm_atomic_helper_check.
  unfold mbind at 1, M_bind at 1. unfold gets at 1.
  by rewrite (check_loop_run a t (dev_num_plane w) 0%nat 0 w I) by lia.
Qed.

Lemma check_Inv a w t rc w' :
  Inv a w t → drm_atomic_helper_check (Some a) w = Ok (rc, w') →
  Inv a w' t ∧ (staged a w t → staged a w' t).
Proof.
  intros I. rewrite (check_run a w t I).
  destruct (validate_spec _ 0 (hw w)) as [[r h] evs].
  intros [= <- <-]. split; [by apply Inv_logged | done].
Qed.

Lemma commit_Inv a w t rc w' :
  Inv a w t → drm_atomic_helper_commit (Some a) w = Ok (rc, w') →
  ∃ t', Inv a w' t'.
Proof.
  intros I E. pose proof (commit_outcome a w t I) as H.
  rewrite E in H. destruct H as (t' & I' & _). eauto.
Qed.

Lemma reachable_Inv a b w :
  reachable a b w → ∃ t, Inv a w t ∧ (b = false → staged a w t).
Proof.
  induction 1 as [w0 fl w Q E|b w i p w' _ (t & I & S) E
                 |b w i p w' _ (t & I & S) E
                 |b w obj ev rc w' _ (t & I & S) E
                 |b w t0 i q ps ps' refs _ (t & I & S) Ht Hq Hps Hst
                 |b w t0 i q cs cs' refs _ (t & I & S) Ht Hq Hcs Hst
                 |b w rc w' _ (t & I & S) E|b w rc w' _ (t & I & S) E].
  - destruct (begin_inversion fl w0 _ w E) as ([= ->] & -> & _).
    eexists. split; [|intros _]; apply (begin_Inv fl w0 Q).
  - destruct (get_plane_state_Inv a w t i p w' I E) as (t' & I' & S'). eauto.
  - destruct (get_crtc_state_Inv a w t i p w' I E) as (t' & I' & S'). eauto.
  - destruct (set_event_Inv a w t obj ev rc w' I E) as (t' & I' & S'). eauto.
  - exists t. destruct (Inv_store_pstate a w t q ps ps' I Hps Hst) as [I' S'].
    split; [by apply Inv_set_fb_refcount | intros Hb; apply S', S, Hb].
  - exists t. destruct (Inv_store_cstate a w t q cs cs' I Hcs Hst) as [I' S'].
    split; [by apply Inv_set_fb_refcount | intros Hb; apply S', S, Hb].
  - exists t. destruct (check_Inv a w t rc w' I E) as [I' S']. eauto.
  - destruct (commit_Inv a w t rc w' I E) as (t' & I'). by exists t'.
Qed.

(** *** A staged crtc with nothing to do *)

Lemma commit_crtc_body_noop a w0 t0 c w :
  Inv a w0 t0 → noop_touch w0 t0 c → crtc_pass a w0 t0 c w →
  commit_crtc_body (Some a) c w = Ok (Some (- EINVAL), w).
Proof.
  intros I0 (q & cs & pl & l & live & Hq & Hcs & Hsc & Hpl & Hl & Hlive & Hfb)
    (t & I & F).
  pose proof (inv_txn _ _ _ I) as Ht.
  destruct (proj1 (table_slot_marker _ _ _ _ _ c (inv_crtcs _ _ _ I0)))
    as [p Hp]; [eauto|].
  assert (p = c) as -> by (by eapply (ti_tag _ _ _ _ _ (inv_crtcs _ _ _ I0))).
  rewrite <- (fr_crtcs _ _ _ _ _ _ F) in Hp.
  rewrite <- (fr_cstates _ _ _ _ _ _ F c) in Hq by lia.
  rewrite <- (fr_dev_crtcs _ _ _ _ _ _ F c) in Hpl by lia.
  rewrite <- (fr_cmem _ _ _ _ _ _ F) in Hcs, Hlive.
  unfold commit_crtc_body, drm_atomic_commit_crtc_state.
  unfold_ops. run.
  by rewrite (commit_crtc_noop w c q cs pl l live).
Qed.

Lemma commit_noop_fails a w t c :
  Inv a w t → staged a w t → noop_touch w t c →
  ∃ rc w', drm_atomic_helper_commit (Some a) w = Ok (rc, w') ∧ rc ≠ 0.
Proof.
  intros I St N. apply outcome_ok.
  unfold drm_atomic_helper_commit.
  unfold mbind at 1, M_bind at 1. unfold gets at 1.
  unfold mbind at 1, M_bind at 1. unfold gets at 1.
  eapply outcome_bind.
  { eapply outcome_weaken; [apply (commit_plane_loop_outcome a w t I) | |].
    - intros ret w1 H1. exact H1.
    - intros HS. by apply HS. }
  intros ret w1 H1. simpl in H1.
  assert (c < dev_num_crtc w)%nat as Hc.
  { destruct N as (q & ? & ? & ? & ? & Hq & _).
    rewrite <- (ti_slot_len _ _ _ _ _ (inv_crtcs _ _ _ I)).
    by eapply lookup_lt_Some. }
  eapply outcome_weaken.
  { apply (for_each_seq (λ j w', (j ≤ c)%nat ∧ crtc_pass a w t j w')
             (λ _ _ _, True) (¬ staged a w t) _ (dev_num_crtc w) 0%nat ret w1).
    - intros i w2 Hi [Hle HP].
      destruct (decide (i = c)) as [->|Hne].
      + rewrite (commit_crtc_body_noop a w t c w2) by done. cbn [outcome].
        by rewrite decide_False by (unfold EINVAL; lia).
      + eapply outcome_weaken; [apply crtc_pass_step; [done|lia|done] | |done].
        intros r w3 H3.
        assert ((S i ≤ c)%nat ∧ crtc_pass a w t (S i) w3) by (split; [lia|done]).
        destruct r as [rc|]; [|done]. by destruct (decide (rc = 0)).
    - split; [lia | done]. }
  - intros rc w2 [[[Hle _] _]|(i & _ & Hrc & _)]; [lia | done].
  - intros HS. by apply HS.
Qed.

(** *** Staging keeps what is staged *)

Lemma run_stage_keeps a w t op p w' :
  Inv a w t → run_stage (Some a) op w = Ok (p, w') →
  ∃ t', Inv a w' t' ∧
    (∀ i q, pstates t !! i = Some (Some q) → pstates t' !! i = Some (Some q)) ∧
    (∀ i q, cstates t !! i = Some (Some q) → cstates t' !! i = Some (Some q)).
Proof.
  intros I. pose proof (inv_txn _ _ _ I) as Ht. destruct op as [j|j]; simpl.
  - pose proof (inv_planes _ _ _ I) as T.
    destruct (pstates t !! j) as [[q|]|] eqn:Hq.
    + rewrite (get_plane_state_hit w a t j q Ht Hq). intros [= <- <-]. eauto.
    + assert (j < dev_num_plane w)%nat as Hj.
      { rewrite <- (ti_slot_len _ _ _ _ _ T). by eapply lookup_lt_Some. }
      destruct (Inv_live_plane a w t j I Hj) as (pl & l & live & Hpl & Hl & Hlive).
      destruct (decide (head (kmalloc_script w) = Some false)) as [E|E].
      * destruct (kmalloc_script w) as [|[] s] eqn:E'; try done.
        by rewrite (get_plane_state_oom w a t j pl l live s).
      * rewrite (get_plane_state_miss w a t j pl l live); try done.
        2:{ apply lookup_lt_is_Some_2. by rewrite (ti_mark_len _ _ _ _ _ T). }
        intros [= <- <-]. eexists. split; [by apply Inv_staged_plane|].
        split; [|done]. intros i q Hi. simpl.
        rewrite list_lookup_insert_ne; [done | congruence].
    + unfold drm_atomic_helper_get_plane_state. unfold_ops. by rewrite Ht, Hq.
  - pose proof (inv_crtcs _ _ _ I) as T.
    destruct (cstates t !! j) as [[q|]|] eqn:Hq.
    + rewrite (get_crtc_state_hit w a t j q Ht Hq). intros [= <- <-]. eauto.
    + assert (j < dev_num_crtc w)%nat as Hj.
      { rewrite <- (ti_slot_len _ _ _ _ _ T). by eapply lookup_lt_Some. }
      destruct (Inv_live_crtc a w t j I Hj) as (pl & l & live & Hpl & Hl & Hlive).
      destruct (decide (head (kmalloc_script w) = Some false)) as [E|E].
      * destruct (kmalloc_script w) as [|[] s] eqn:E'; try done.
        by rewrite (get_crtc_state_oom w a t j pl l live s).
      * rewrite (get_crtc_state_miss w a t j pl l live); try done.
        2:{ apply lookup_lt_is_Some_2. by rewrite (ti_mark_len _ _ _ _ _ T). }
        intros [= <- <-]. eexists. split; [by apply Inv_staged_crtc|].
        split; [done|]. intros i q Hi. simpl.
        rewrite list_lookup_insert_ne; [done | congruence].
    + unfold drm_atomic_helper_get_crtc_state. unfold_ops. by rewrite Ht, Hq.
Qed.

Lemma run_stages_keeps a ops : ∀ w t w',
  Inv a w t → run_stages (Some a) ops w = Ok (tt, w') →
  ∃ t', Inv a w' t' ∧
    (∀ i q, pstates t !! i = Some (Some q) → pstates t' !! i = Some (Some q)) ∧
    (∀ i q, cstates t !! i = Some (Some q) → cstates t' !! i = Some (Some q)).
Proof.
  induction ops as [|op ops IH]; intros w t w' I; simpl.
  - intros [= <-]. eauto.
  - unfold mbind, M_bind.
    destruct (run_stage (Some a) op w) as [[p w1]|e] eqn:E; [|done].
    destruct (run_stage_keeps a w t op p w1 I E) as (t1 & I1 & P1 & C1).
    intros E'. destruct (IH w1 t1 w' I1 E') as (t' & I' & P' & C').
    exists t'. split; [done|]. split; eauto.
Qed.

End Run.

(** * The claims *)

Section Claims.
Context {D : drm_driver}.
Implicit Types (w : @world D) (t : drm_atomic_helper_state).

Lemma reachable_txn a b w t :
  reachable a b w → helper_mem w !! a = Some t →
  Inv a w t ∧ (b = false → staged a w t).
Proof.
  intros R Ht. destruct (reachable_Inv a b w R) as (t' & I & S).
  pose proof (inv_txn _ _ _ I) as Ht'. rewrite Ht in Ht'.
  injection Ht' as ->. done.
Qed.

(** C3: [drm_atomic_helper_check] calls the plane check hook on the staged
    block of every touched plane, in the order of the plane ids, stops at
    the first call that fails and returns its code, returns 0 when every
    call succeeds or no plane is touched, and calls nothing else: no check
    on a crtc.  It changes nothing but the driver state and the call log. *)
Theorem check_walks_touched_planes a b w t :
  reachable a b w → helper_mem w !! a = Some t →
  (∀ i, is_Some (touched_plane w t i) ↔ ∃ p, planes t !! i = Some (Some p)) ∧
  ∃ rc h evs,
    drm_atomic_helper_check (Some a) w = Ok (rc, logged h evs w) ∧
    validate_spec (touched_planes w t) 0 (hw w) = (rc, h, evs) ∧
    check_target <$> evs = Some <$> take (length evs) (touched_planes w t) ∧
    (rc = 0 → length evs = length (touched_planes w t) ∧
              Forall (λ e, event_rc e = 0) evs) ∧
    (rc ≠ 0 → ∃ evs0 e, evs = evs0 ++ [e] ∧
                Forall (λ e, event_rc e = 0) evs0 ∧ event_rc e = rc).
Proof.
  intros R Ht. destruct (reachable_txn a b w t R Ht) as [I _]. split.
  - intros i. split.
    + intros [x Hx]. unfold touched_plane in Hx.
      destruct (planes t !! i) as [[p|]|]; [eauto | done..].
    + intros [p Hp].
      destruct (Inv_touched a w t i p I Hp) as (-> & q & ps & pl & Hq & Hps & _).
      unfold touched_plane. rewrite Hp, Hq, Hps. simpl. eauto.
  - rewrite (check_run a w t I).
    destruct (validate_spec (touched_planes w t) 0 (hw w)) as [[rc h] evs] eqn:E.
    exists rc, h, evs. split; [done|]. split; [done|].
    by apply (validate_spec_calls _ _ _ _ _ E).
Qed.

(** C4: a page flip (no full reconfiguration asked, a staged image that
    differs from the live one) on a crtc that has no image bound returns
    -EBUSY and leaves the whole world as it was: no swap, no call to the
    driver, no reference dropped. *)
Theorem page_flip_unbound_is_refused w i q cs c l live fb :
  cstate_mem w !! q = Some cs → cs_set_config cs = false →
  dev_crtcs w !! i = Some c → crtc_state c = Some l →
  cstate_mem w !! l = Some live →
  cs_fb cs = Some fb → cs_fb live ≠ Some fb →
  crtc_fb D (hw w) i = None →
  drm_atomic_helper_commit_crtc_state i (Some q) w = Ok (- EBUSY, w) ∧
  - EBUSY ≠ 0.
Proof.
  intros. split; [by eapply commit_crtc_flip_unbound | done].
Qed.

(** C5: when the driver's [page_flip] returns an error, the commit returns
    that error, swaps nothing (the crtc, the transaction and the state
    blocks are as before, so the live state keeps its image), and drops
    exactly one reference, that of the image it tried to flip to; if
    staging had taken that reference, every count is back to what it was
    before. *)
Theorem failed_page_flip_releases_new_image
    w p t i q cs c l live fb bound rc h :
  cstate_mem w !! q = Some cs → cs_set_config cs = false →
  dev_crtcs w !! i = Some c → crtc_state c = Some l →
  cstate_mem w !! l = Some live →
  cs_fb cs = Some fb → cs_fb live ≠ Some fb →
  crtc_fb D (hw w) i = Some bound → crtc_has_page_flip c = true →
  cs_state cs = Some p → helper_mem w !! p = Some t →
  page_flip D (hw w) i fb (cs_event cs) (flags t) = (rc, h) → rc ≠ 0 →
  ∃ w', drm_atomic_helper_commit_crtc_state i (Some q) w = Ok (rc, w') ∧
    dev_crtcs w' = dev_crtcs w ∧ helper_mem w' = helper_mem w ∧
    cstate_mem w' = cstate_mem w ∧ crtc_live w' i = Some (c, live) ∧
    fb_refcount w' = alter Z.pred fb (fb_refcount w) ∧
    (∀ f, f ≠ fb → fb_refcount w' !! f = fb_refcount w !! f) ∧
    (∀ refs, fb_refcount w = alter Z.succ fb refs → fb_refcount w' = refs).
Proof.
  intros Hcs Hsc Hc Hl Hlive Hfb Hne Hb Hpf Hst Ht Hflip Hrc.
  eexists. split.
  { by apply (commit_crtc_flip_fail w p t i q cs c l live fb bound rc h). }
  unfold unreferenced. wsimpl. repeat split; try done.
  - unfold crtc_live. wsimpl. rewrite Hc. simpl. rewrite Hl. simpl.
    by rewrite Hlive.
  - intros f Hf. by rewrite lookup_alter_ne.
  - intros refs ->. apply map_eq. intros f. rewrite !lookup_alter.
    destruct (decide (fb = f)) as [<-|Hf]; [|done].
    rewrite decide_True by done.
    destruct (refs !! fb); simpl; [f_equal; lia | done].
Qed.


(** C7: staging gets or creates.  The first call for a plane or a crtc
    (empty slot, allocation succeeds) returns a block that was not
    allocated before, holding a copy of the live state with the
    back-pointer set to the transaction, and records the object and the
    block in the two arrays.  A call for an object whose slot is filled
    returns the block in the slot and leaves the whole world as it was,
    also after any further staging calls. *)
Theorem stage_gets_or_creates a b w t i :
  reachable a b w → helper_mem w !! a = Some t →
  (∀ pl l live,
     pstates t !! i = Some None → dev_planes w !! i = Some pl →
     plane_state pl = Some l → pstate_mem w !! l = Some live →
     head (kmalloc_script w) ≠ Some false →
     ∃ q w1 t1,
       drm_atomic_helper_get_plane_state i (Some a) w = Ok (Some q, w1) ∧
       pstate_mem w !! q = None ∧
       pstate_mem w1 !! q = Some (with_ps_state live (Some a)) ∧
       helper_mem w1 !! a = Some t1 ∧
       planes t1 !! i = Some (Some i) ∧ pstates t1 !! i = Some (Some q) ∧
       drm_atomic_helper_get_plane_state i (Some a) w1 = Ok (Some q, w1)) ∧
  (∀ q ops w2,
     pstates t !! i = Some (Some q) →
     run_stages (Some a) ops w = Ok (tt, w2) →
     drm_atomic_helper_get_plane_state i (Some a) w2 = Ok (Some q, w2)) ∧
  (∀ c l live,
     cstates t !! i = Some None → dev_crtcs w !! i = Some c →
     crtc_state c = Some l → cstate_mem w !! l = Some live →
     head (kmalloc_script w) ≠ Some false →
     ∃ q w1 t1,
       drm_atomic_helper_get_crtc_state i (Some a) w = Ok (Some q, w1) ∧
       cstate_mem w !! q = None ∧
       cstate_mem w1 !! q = Some (with_cs_state live (Some a)) ∧
       helper_mem w1 !! a = Some t1 ∧
       crtcs t1 !! i = Some (Some i) ∧ cstates t1 !! i = Some (Some q) ∧
       drm_atomic_helper_get_crtc_state i (Some a) w1 = Ok (Some q, w1)) ∧
  (∀ q ops w2,
     cstates t !! i = Some (Some q) →
     run_stages (Some a) ops w = Ok (tt, w2) →
     drm_atomic_helper_get_crtc_state i (Some a) w2 = Ok (Some q, w2)).
Proof.
  intros R Ht. destruct (reachable_txn a b w t R Ht) as [I _].
  split; [|split; [|split]].
  - intros pl l live Hq Hpl Hl Hlive Hk.
    pose proof (inv_planes _ _ _ I) as T.
    assert (i < length (pstates t))%nat as Hi by (by eapply lookup_lt_Some).
    exists (brk w), (staged_plane a t i live w), (stage_plane_txn t i (brk w)).
    split.
    { apply (get_plane_state_miss w a t i pl l live); try done.
      apply lookup_lt_is_Some_2.
      by rewrite (ti_mark_len _ _ _ _ _ T), <- (ti_slot_len _ _ _ _ _ T). }
    split.
    { destruct (pstate_mem w !! brk w) eqn:E; [|done].
      assert (valid_pstate w (brk w)) as Hv by (by eexists).
      apply (inv_pbrk _ _ _ I) in Hv. lia. }
    wsimpl. split; [apply lookup_insert_eq|].
    split; [apply lookup_insert_eq|]. simpl.
    split.
    { apply list_lookup_insert_eq.
      by rewrite (ti_mark_len _ _ _ _ _ T), <- (ti_slot_len _ _ _ _ _ T). }
    split; [by apply list_lookup_insert_eq|].
    apply (get_plane_state_hit _ a (stage_plane_txn t i (brk w)) i (brk w)).
    + wsimpl. apply lookup_insert_eq.
    + simpl. by apply list_lookup_insert_eq.
  - intros q ops w2 Hq E.
    destruct (run_stages_keeps a ops w t w2 I E) as (t2 & I2 & P2 & _).
    apply (get_plane_state_hit w2 a t2 i q); [apply I2 | by apply P2].
  - intros c l live Hq Hc Hl Hlive Hk.
    pose proof (inv_crtcs _ _ _ I) as T.
    assert (i < length (cstates t))%nat as Hi by (by eapply lookup_lt_Some).
    exists (brk w), (staged_crtc a t i live w), (stage_crtc_txn t i (brk w)).
    split.
    { apply (get_crtc_state_miss w a t i c l live); try done.
      apply lookup_lt_is_Some_2.
      by rewrite (ti_mark_len _ _ _ _ _ T), <- (ti_slot_len _ _ _ _ _ T). }
    split.
    { destruct (cstate_mem w !! brk w) eqn:E; [|done].
      assert (valid_cstate w (brk w)) as Hv by (by eexists).
      apply (inv_cbrk _ _ _ I) in Hv. lia. }
    wsimpl. split; [apply lookup_insert_eq|].
    split; [apply lookup_insert_eq|]. simpl.
    split.
    { apply list_lookup_insert_eq.
      by rewrite (ti_mark_len _ _ _ _ _ T), <- (ti_slot_len _ _ _ _ _ T). }
    split; [by apply list_lookup_insert_eq|].
    apply (get_crtc_state_hit _ a (stage_crtc_txn t i (brk w)) i (brk w)).
    + wsimpl. apply lookup_insert_eq.
    + simpl. by apply list_lookup_insert_eq.
  - intros q ops w2 Hq E.
    destruct (run_stages_keeps a ops w t w2 I E) as (t2 & I2 & _ & C2).
    apply (get_crtc_state_hit w2 a t2 i q); [apply I2 | by apply C2].
Qed.

(** C8: in every state reached through [begin], staging, edits of staged
    blocks, [check] and [commit], the transaction's arrays have the size
    of the device tables and, at every index, the slot is filled exactly
    when the marker is, for planes and for crtcs. *)
Theorem slot_filled_iff_marker_set a b w :
  reachable a b w →
  ∃ t, helper_mem w !! a = Some t ∧
    length (planes t) = dev_num_plane w ∧ length (pstates t) = dev_num_plane w ∧
    length (crtcs t) = dev_num_crtc w ∧ length (cstates t) = dev_num_crtc w ∧
    ∀ i,
      ((∃ q, pstates t !! i = Some (Some q)) ↔ (∃ p, planes t !! i = Some (Some p))) ∧
      ((∃ q, cstates t !! i = Some (Some q)) ↔ (∃ p, crtcs t !! i = Some (Some p))).
Proof.
  intros R. destruct (reachable_Inv a b w R) as (t & I & _).
  pose proof (inv_planes _ _ _ I) as Tp. pose proof (inv_crtcs _ _ _ I) as Tc.
  exists t. split; [apply I|].
  split; [apply Tp|]. split; [apply Tp|]. split; [apply Tc|]. split; [apply Tc|].
  intros i. split; by eapply table_slot_marker.
Qed.

(** C9: for a transaction on which no commit has run yet, [check] returns,
    [commit] after it returns, and [end] returns both right after [check]
    and after [commit], whatever the codes; in each of the worlds they
    leave, the live state (state pointer and state block) of every plane
    and crtc that was not staged is what it was. *)
Theorem unstaged_objects_are_kept a w t :
  reachable a false w → helper_mem w !! a = Some t →
  ∃ rc1 w1,
    drm_atomic_helper_check (Some a) w = Ok (rc1, w1) ∧ unstaged_kept t w w1 ∧
    (∃ w3, drm_atomic_helper_end (Some a) w1 = Ok (tt, w3) ∧
           unstaged_kept t w w3) ∧
    ∃ rc2 w2,
      drm_atomic_helper_commit (Some a) w1 = Ok (rc2, w2) ∧
      unstaged_kept t w w2 ∧
      ∃ w3, drm_atomic_helper_end (Some a) w2 = Ok (tt, w3) ∧
            unstaged_kept t w w3.
Proof.
  intros R Ht. destruct (reachable_txn a false w t R Ht) as [I S].
  specialize (S eq_refl).
  destruct (drm_atomic_helper_check (Some a) w) as [[rc1 w1]|e] eqn:E1.
  2:{ rewrite (check_run a w t I) in E1.
      by destruct (validate_spec _ 0 (hw w)) as [[??]?]. }
  destruct (check_Inv a w t rc1 w1 I E1) as [I1 S1]. specialize (S1 S).
  assert (unstaged_kept t w w1) as K1.
  { rewrite (check_run a w t I) in E1.
    destruct (validate_spec _ 0 (hw w)) as [[r h] evs].
    injection E1 as <- <-. by split. }
  exists rc1, w1. split; [done|]. split; [done|]. split.
  { destruct (outcome_ok _ _ (end_outcome a w1 t I1)) as ([] & w3 & E3 & K3).
    exists w3. split; [done|]. by eapply unstaged_kept_trans. }
  destruct (outcome_ok (drm_atomic_helper_commit (Some a) w1)
              (λ _ w', ∃ t', Inv a w' t' ∧
                 frame (λ x, planes t !! x ≠ Some None)
                       (λ x, crtcs t !! x ≠ Some None) w1 t w' t'))
    as (rc2 & w2 & E2 & t2 & I2 & F2).
  { eapply outcome_weaken; [apply (commit_outcome a w1 t I1) | done |].
    intros HS. by apply HS. }
  assert (unstaged_kept t w w2) as K2.
  { eapply unstaged_kept_trans; [exact K1|].
    by eapply frame_unstaged_kept. }
  exists rc2, w2. split; [done|]. split; [done|].
  destruct (outcome_ok _ _ (end_outcome a w2 t2 I2)) as ([] & w3 & E3 & K3).
  exists w3. split; [done|]. eapply unstaged_kept_trans; [exact K2|].
  destruct K3 as [P3 C3]. split; intros i Hi.
  - apply P3. by rewrite (fr_planes _ _ _ _ _ _ F2).
  - apply C3. by rewrite (fr_crtcs _ _ _ _ _ _ F2).
Qed.

(** C10: when a staged crtc asks for no full reconfiguration and its
    staged image is the live one, its commit returns -EINVAL and leaves the
    whole world as it was; and [drm_atomic_helper_commit] on a transaction
    with such a crtc returns a code other than 0. *)
Theorem noop_crtc_touch_fails_commit a w t c :
  reachable a false w → helper_mem w !! a = Some t → noop_touch w t c →
  (∀ q, cstates t !! c = Some (Some q) →
     drm_atomic_helper_commit_crtc_state c (Some q) w = Ok (- EINVAL, w)) ∧
  - EINVAL ≠ 0 ∧
  ∃ rc w', drm_atomic_helper_commit (Some a) w = Ok (rc, w') ∧ rc ≠ 0.
Proof.
  intros R Ht N. destruct (reachable_txn a false w t R Ht) as [I S].
  split; [|split; [done|]].
  - destruct N as (q & cs & pl & l & live & Hq & Hcs & Hsc & Hpl & Hl & Hlive & Hfb).
    intros q' Hq'. rewrite Hq in Hq'. injection Hq' as <-.
    by apply (commit_crtc_noop w c q cs pl l live).
  - by apply (commit_noop_fails a w t c I (S eq_refl) N).
Qed.

End Claims.

(** * The examples *)

Lemma demo_device_pstates q ps :
  pstate_mem demo_device !! q = Some ps →
  (q = 0%nat ∧ ps = idle_plane) ∨ (q = 1%nat ∧ ps = overlay_plane).
Proof.
  simpl. rewrite lookup_insert. case_decide as H1.
  - intros [= <-]. right. by subst.
  - rewrite lookup_singleton. case_decide as H0; [|done].
    intros [= <-]. left. by subst.
Qed.

Lemma demo_device_cstates q cs :
  cstate_mem demo_device !! q = Some cs → q = 2%nat ∧ cs = scanout_crtc.
Proof.
  simpl. rewrite lookup_singleton. case_decide as H0; [|done].
  intros [= <-]. by subst.
Qed.

Lemma demo_quiescent (dev : @world demo_driver) :
  dev_num_plane dev = dev_num_plane demo_device →
  dev_num_crtc dev = dev_num_crtc demo_device →
  dev_planes dev = dev_planes demo_device →
  dev_crtcs dev = dev_crtcs demo_device →
  pstate_mem dev = pstate_mem demo_device →
  cstate_mem dev = cstate_mem demo_device →
  brk dev = brk demo_device →
  quiescent dev.
Proof.
  intros E1 E2 E3 E4 E5 E6 E7.
  split; unfold valid_pstate, valid_cstate;
    rewrite ?E1, ?E2, ?E3, ?E4, ?E5, ?E6, ?E7.
  - done.
  - done.
  - intros [|[|i]] pl; simpl; intros [= <-]; eexists; (split; [done|]);
      vm_compute; eauto.
  - intros [|i] c; simpl; intros [= <-]; eexists; (split; [done|]);
      vm_compute; eauto.
  - intros [|[|i]] [|[|j]] pi pj q; simpl; try done;
      intros [= <-] [= <-]; simpl; congruence.
  - intros [|i] [|j] ci cj q; simpl; try done.
  - intros q ps [[_ ->]|[_ ->]]%demo_device_pstates; done.
  - intros q cs [_ ->]%demo_device_cstates. done.
  - intros q [ps [[-> _]|[-> _]]%demo_device_pstates]; simpl; lia.
  - intros q [cs [-> _]%demo_device_cstates]. simpl; lia.
Qed.

Lemma demo_begin_reachable fl (dev : @world demo_driver) :
  dev = demo_device ∨ dev = demo_device_unbound →
  reachable 3%nat false (exec (drm_atomic_helper_begin fl) dev).
Proof.
  intros [->| ->].
  - apply (reach_begin 3%nat demo_device fl);
      [by apply demo_quiescent | reflexivity].
  - apply (reach_begin 3%nat demo_device_unbound fl);
      [by apply demo_quiescent | reflexivity].
Qed.

Lemma demo_plane_txn_reachable fl width (dev : @world demo_driver) :
  dev = demo_device ∨ dev = demo_device_unbound →
  reachable 3%nat false (demo_plane_txn fl width dev).
Proof.
  intros Hdev. pose proof (demo_begin_reachable fl dev Hdev) as R.
  unfold demo_plane_txn.
  destruct Hdev as [->| ->];
    (eapply (reach_edit_plane 3%nat false _
            (mk_helper_state fl [Some 0%nat; None] [Some 4%nat; None] [None] [None])
            0%nat 4%nat (with_ps_state idle_plane (Some 3%nat)));
     [eapply (reach_get_plane_state 3%nat false _ 0%nat (Some 4%nat));
        [exact R | reflexivity]
     | reflexivity..]).
Qed.

Lemma demo_crtc_touch_reachable fl (dev : @world demo_driver) :
  dev = demo_device ∨ dev = demo_device_unbound →
  reachable 3%nat false (demo_crtc_touch fl dev).
Proof.
  intros Hdev. pose proof (demo_begin_reachable fl dev Hdev) as R.
  unfold demo_crtc_touch.
  destruct Hdev as [->| ->];
    (eapply (reach_get_crtc_state 3%nat false _ 0%nat (Some 4%nat));
     [exact R | reflexivity]).
Qed.

Lemma demo_crtc_flip_reachable fl (dev : @world demo_driver) :
  dev = demo_device ∨ dev = demo_device_unbound →
  reachable 3%nat false (demo_crtc_flip fl dev).
Proof.
  intros Hdev. unfold demo_crtc_flip.
  pose proof (demo_crtc_touch_reachable fl dev Hdev) as R.
  destruct Hdev as [->| ->];
    (eapply (reach_edit_crtc 3%nat false _
            (mk_helper_state fl [None; None] [None; None] [Some 0%nat] [Some 4%nat])
            0%nat 4%nat (with_cs_state scanout_crtc (Some 3%nat)));
     [exact R | reflexivity..]).
Qed.

Lemma demo_mixed_txn_reachable : reachable 3%nat false demo_mixed_txn.
Proof.
  unfold demo_mixed_txn.
  eapply (reach_edit_crtc 3%nat false _
            (mk_helper_state 0 [Some 0%nat; None] [Some 4%nat; None]
               [Some 0%nat] [Some 5%nat])
            0%nat 5%nat (with_cs_state scanout_crtc (Some 3%nat)));
    [|(vm_compute; reflexivity)..].
  eapply (reach_get_crtc_state 3%nat false (demo_plane_txn 0 0 demo_device)
            0%nat (Some 5%nat));
    [|(vm_compute; reflexivity)].
  apply demo_plane_txn_reachable. by left.
Qed.

(** C1, the code at a failing input: plane 0 is staged with a request that
    [update_plane] refuses and crtc 0 with a page flip.  The commit calls
    [update_plane], gets -EINVAL, goes on to the crtc pass, flips the crtc
    (its state pointer changes from block 2 to the staged block 5) and
    returns 0. *)
Theorem commit_goes_on_after_plane_failure :
  reachable 3%nat false demo_mixed_txn ∧
  ∃ w', drm_atomic_helper_commit (Some 3%nat) demo_mixed_txn = Ok (0, w') ∧
    events w' = [EvUpdatePlane 0 0 6%nat [0; 0; 0; 480; 0; 0; 640; 480] (- EINVAL);
                 EvPageFlip 0 6%nat None 0 0] ∧
    crtc_state <$> dev_crtcs demo_mixed_txn = [Some 2%nat] ∧
    crtc_state <$> dev_crtcs w' = [Some 5%nat] ∧
    crtc_live w' 0%nat ≠ crtc_live demo_mixed_txn 0%nat.
Proof.
  split; [apply demo_mixed_txn_reachable|].
  eexists. split; [vm_compute; reflexivity|].
  split; [(vm_compute; reflexivity)|]. split; [(vm_compute; reflexivity)|]. split; [(vm_compute; reflexivity)|].
  vm_compute. discriminate.
Qed.

(** C2, the code at a failing input: on a quiescent device whose next
    allocation fails, [drm_atomic_helper_begin] does not return [NULL] or
    an error; it stores through the [NULL] pointer. *)
Theorem begin_uses_failed_allocation :
  quiescent demo_device_oom ∧
  kmalloc_script demo_device_oom = [false] ∧
  drm_atomic_helper_begin 0 demo_device_oom = Oops NullDeref.
Proof.
  split; [by apply demo_quiescent|]. split; vm_compute; reflexivity.
Qed.

(** C3 on a transaction that stages plane 0 of the demo device. *)
Lemma check_walks_touched_planes_witness :
  reachable 3%nat false (demo_plane_txn 0 640 demo_device) ∧
  helper_mem (demo_plane_txn 0 640 demo_device) !! 3%nat
  = Some (mk_helper_state 0 [Some 0%nat; None] [Some 4%nat; None] [None] [None]) ∧
  ∃ rc h evs,
    drm_atomic_helper_check (Some 3%nat) (demo_plane_txn 0 640 demo_device)
    = Ok (rc, logged h evs (demo_plane_txn 0 640 demo_device)).
Proof.
  assert (reachable 3%nat false (demo_plane_txn 0 640 demo_device)) as R.
  { apply demo_plane_txn_reachable. by left. }
  split; [exact R|]. split; [(vm_compute; reflexivity)|].
  destruct (check_walks_touched_planes 3%nat false _ _ R eq_refl)
    as (_ & rc & h & evs & E & _).
  exists rc, h, evs. exact E.
Defined.

(** C4 on the demo device after an unplug, crtc 0 staged for a flip to
    image 6. *)
Lemma page_flip_unbound_is_refused_witness :
  drm_atomic_helper_commit_crtc_state 0 (Some 4%nat)
    (demo_crtc_flip 0 demo_device_unbound)
  = Ok (- EBUSY, demo_crtc_flip 0 demo_device_unbound) ∧ - EBUSY ≠ 0.
Proof.
  apply (page_flip_unbound_is_refused (demo_crtc_flip 0 demo_device_unbound)
           0%nat 4%nat (flip_to_6 (Some 3%nat))
           (mk_crtc (Some 2%nat) (Some 2%nat) true) 2%nat scanout_crtc 6%nat);
    [(vm_compute; reflexivity) | (vm_compute; reflexivity) | (vm_compute; reflexivity) | (vm_compute; reflexivity) | (vm_compute; reflexivity)
    | (vm_compute; reflexivity) | discriminate | (vm_compute; reflexivity)].
Defined.

(** C5 on the demo device: the transaction's flags have bit 0 set, so the
    driver refuses the flip to image 6; the counts end as they were before
    staging took its reference. *)
Lemma failed_page_flip_releases_new_image_witness :
  ∃ w', drm_atomic_helper_commit_crtc_state 0 (Some 4%nat)
          (demo_crtc_flip 1 demo_device) = Ok (- EBUSY, w') ∧
    fb_refcount (demo_crtc_flip 1 demo_device) = hold_6 (fb_refcount demo_device) ∧
    fb_refcount w' = fb_refcount demo_device.
Proof.
  destruct (failed_page_flip_releases_new_image (demo_crtc_flip 1 demo_device)
           3%nat (mk_helper_state 1 [None; None] [None; None] [Some 0%nat] [Some 4%nat])
           0%nat 4%nat (flip_to_6 (Some 3%nat))
           (mk_crtc (Some 2%nat) (Some 2%nat) true) 2%nat scanout_crtc 6%nat 5%nat
           (- EBUSY) [Some 5%nat])
    as (w' & E & _ & _ & _ & _ & _ & _ & Hback);
    [(vm_compute; reflexivity) | (vm_compute; reflexivity) | (vm_compute; reflexivity) | (vm_compute; reflexivity) | (vm_compute; reflexivity)
    | (vm_compute; reflexivity) | discriminate | (vm_compute; reflexivity) | (vm_compute; reflexivity) | (vm_compute; reflexivity)
    | (vm_compute; reflexivity) | (vm_compute; reflexivity) | discriminate |].
  exists w'. split; [exact E|]. split; [(vm_compute; reflexivity)|].
  apply Hback. (vm_compute; reflexivity).
Defined.



(** C7 on the demo device: plane 1 is staged for the first time, then
    again. *)
Lemma stage_gets_or_creates_witness :
  reachable 3%nat false (demo_plane_txn 0 640 demo_device) ∧
  ∃ q w1,
    drm_atomic_helper_get_plane_state 1 (Some 3%nat)
      (demo_plane_txn 0 640 demo_device) = Ok (Some q, w1) ∧
    drm_atomic_helper_get_plane_state 1 (Some 3%nat) w1 = Ok (Some q, w1).
Proof.
  assert (reachable 3%nat false (demo_plane_txn 0 640 demo_device)) as R.
  { apply demo_plane_txn_reachable. by left. }
  split; [exact R|].
  destruct (stage_gets_or_creates 3%nat false _ _ 1%nat R eq_refl) as (First & _).
  destruct (First (mk_plane (Some 1%nat) (Some 1%nat)) 1%nat overlay_plane)
    as (q & w1 & t1 & E & _ & _ & _ & _ & _ & Again);
    [(vm_compute; reflexivity) | (vm_compute; reflexivity) | (vm_compute; reflexivity) | (vm_compute; reflexivity) | discriminate |].
  exists q, w1. auto.
Defined.

Lemma demo_committed_reachable :
  reachable 3%nat true
    (exec (drm_atomic_helper_commit (Some 3%nat)) (demo_plane_txn 0 640 demo_device)).
Proof.
  eapply (reach_commit 3%nat false (demo_plane_txn 0 640 demo_device) 0).
  - apply demo_plane_txn_reachable. by left.
  - vm_compute. (vm_compute; reflexivity).
Qed.

(** C8 on the demo transaction after its commit. *)
Lemma slot_filled_iff_marker_set_witness :
  ∃ t, helper_mem (exec (drm_atomic_helper_commit (Some 3%nat))
                     (demo_plane_txn 0 640 demo_device)) !! 3%nat = Some t ∧
    ((∃ q, pstates t !! 0%nat = Some (Some q)) ↔
     (∃ p, planes t !! 0%nat = Some (Some p))).
Proof.
  destruct (slot_filled_iff_marker_set 3%nat true _ demo_committed_reachable)
    as (t & Ht & _ & _ & _ & _ & Hiff).
  exists t. split; [exact Ht | apply (Hiff 0%nat)].
Defined.

(** C9 on the demo transaction: plane 1 is not staged and is the same
    after check, commit and end. *)
Lemma unstaged_objects_are_kept_witness :
  reachable 3%nat false (demo_plane_txn 0 640 demo_device) ∧
  ∃ rc1 w1 rc2 w2 w3,
    drm_atomic_helper_check (Some 3%nat) (demo_plane_txn 0 640 demo_device)
    = Ok (rc1, w1) ∧
    drm_atomic_helper_commit (Some 3%nat) w1 = Ok (rc2, w2) ∧
    drm_atomic_helper_end (Some 3%nat) w2 = Ok (tt, w3) ∧
    plane_live w3 1%nat = plane_live (demo_plane_txn 0 640 demo_device) 1%nat.
Proof.
  assert (reachable 3%nat false (demo_plane_txn 0 640 demo_device)) as R.
  { apply demo_plane_txn_reachable. by left. }
  split; [exact R|].
  destruct (unstaged_objects_are_kept 3%nat _ _ R eq_refl)
    as (rc1 & w1 & E1 & _ & _ & rc2 & w2 & E2 & _ & w3 & E3 & K3).
  exists rc1, w1, rc2, w2, w3. repeat split; try assumption.
  apply (proj1 K3 1%nat). (vm_compute; reflexivity).
Defined.

(** C10 on the demo device: crtc 0 is staged and left as it is. *)
Lemma noop_crtc_touch_fails_commit_witness :
  reachable 3%nat false (demo_crtc_touch 0 demo_device) ∧
  drm_atomic_helper_commit_crtc_state 0 (Some 4%nat) (demo_crtc_touch 0 demo_device)
  = Ok (- EINVAL, demo_crtc_touch 0 demo_device) ∧
  ∃ rc w', drm_atomic_helper_commit (Some 3%nat) (demo_crtc_touch 0 demo_device)
           = Ok (rc, w') ∧ rc ≠ 0.
Proof.
  assert (reachable 3%nat false (demo_crtc_touch 0 demo_device)) as R.
  { apply demo_crtc_touch_reachable. by left. }
  split; [exact R|].
  destruct (noop_crtc_touch_fails_commit 3%nat (demo_crtc_touch 0 demo_device)
              (mk_helper_state 0 [None; None] [None; None] [Some 0%nat] [Some 4%nat])
              0%nat R eq_refl) as (One & _ & All).
  { exists 4%nat, (with_cs_state scanout_crtc (Some 3%nat)),
      (mk_crtc (Some 2%nat) (Some 2%nat) true), 2%nat, scanout_crtc.
    repeat split; vm_compute; reflexivity. }
  split; [apply One; (vm_compute; reflexivity) | exact All].
Defined.

(** * More of the file *)

Section More.
Context {D : drm_driver}.
Implicit Types (w : @world D) (t : drm_atomic_helper_state).

(** ** What one commit does to the tables *)

Lemma refs_dropped_refl (m : gmap fb_id Z) : refs_dropped m m.
Proof. intros f. destruct (m !! f); [lia | done]. Qed.

Lemma refs_dropped_trans (m0 m1 m2 : gmap fb_id Z) :
  refs_dropped m0 m1 → refs_dropped m1 m2 → refs_dropped m0 m2.
Proof.
  intros H1 H2 f. specialize (H1 f). specialize (H2 f).
  destruct (m0 !! f), (m1 !! f), (m2 !! f); try done. lia.
Qed.

Lemma refs_dropped_unref (m : gmap fb_id Z) fb :
  refs_dropped m (alter Z.pred fb m).
Proof.
  intros f. rewrite lookup_alter.
  destruct (decide (fb = f)) as [<-|Hf].
  - destruct (m !! fb); simpl; [lia | done].
  - destruct (m !! f); [lia | done].
Qed.

Lemma same_tables_refl w : same_tables w w.
Proof. split; try done. apply refs_dropped_refl. Qed.

Lemma same_tables_trans w0 w1 w2 :
  same_tables w0 w1 → same_tables w1 w2 → same_tables w0 w2.
Proof.
  intros [] []. split; try congruence; [lia|].
  by eapply refs_dropped_trans.
Qed.

Lemma same_tables_set_hw w h e : same_tables w (set_hw h e w).
Proof. split; try done. apply refs_dropped_refl. Qed.

Lemma same_tables_alloc w b s : (brk w ≤ b)%nat → same_tables w (set_alloc b s w).
Proof. intros Hb. split; try done. apply refs_dropped_refl. Qed.

Lemma same_tables_unreferenced w w' fb :
  same_tables w w' → same_tables w (unreferenced fb w').
Proof.
  intros []. destruct fb; split; try done. wsimpl.
  eapply refs_dropped_trans; [done | apply refs_dropped_unref].
Qed.

Lemma same_tables_swapped_plane a t i l q w w' :
  same_tables w w' →
  same_tables (swapped_plane a t i l q w) (swapped_plane a t i l q w').
Proof. intros []. split; wsimpl; try congruence; done. Qed.

Lemma same_tables_swapped_crtc a t i c q w w' :
  same_tables w w' →
  same_tables (swapped_crtc a t i c q w) (swapped_crtc a t i c q w').
Proof. intros []. split; wsimpl; try congruence; done. Qed.

Lemma Inv_same_tables a w w' t : Inv a w t → same_tables w w' → Inv a w' t.
Proof.
  intros I S. destruct S.
  split; unfold valid_pstate, valid_cstate;
    rewrite ?st_nplane0, ?st_ncrtc0, ?st_planes0, ?st_crtcs0, ?st_pmem0,
      ?st_cmem0, ?st_helper0; try apply I.
  - intros q Hq. apply (inv_pbrk _ _ _ I) in Hq. lia.
  - intros q Hq. apply (inv_cbrk _ _ _ I) in Hq. lia.
Qed.

(** A plane commit returns 0 exactly when it swapped: on another code the
    tables are as they were, on 0 the plane's state pointer and the slot
    have changed places. *)
Lemma commit_plane_state_shape a w t i q pl l :
  Inv a w t → pstates t !! i = Some (Some q) →
  dev_planes w !! i = Some pl → plane_state pl = Some l →
  outcome (drm_atomic_helper_commit_plane_state i (Some q) w)
    (λ rc w', (rc ≠ 0 ∧ same_tables w w') ∨
              (rc = 0 ∧ same_tables (swapped_plane a t i (Some l) (Some q) w) w'))
    True.
Proof.
  intros I Hq Hpl Hl. pose proof (inv_txn _ _ _ I) as Ht.
  pose proof (inv_planes _ _ _ I) as T.
  destruct (ti_slot_valid _ _ _ _ _ T i q Hq) as [ps Hps].
  destruct (ti_live_valid _ _ _ _ _ T i (Some l)) as (l' & [= <-] & [live Hlive]).
  { by rewrite list_lookup_fmap, Hpl, <- Hl. }
  assert (∀ fb1 fb2 h e,
            same_tables (swapped_plane a t i (Some l) (Some q) w)
              (unreferenced fb1 (unreferenced fb2
                 (swapped_plane a t i (Some l) (Some q) (set_hw h e w))))) as Hsw.
  { intros. do 2 apply same_tables_unreferenced.
    apply same_tables_swapped_plane, same_tables_set_hw. }
  destruct (ps_crtc ps) as [c|] eqn:Hc; [destruct (ps_fb ps) as [fb|] eqn:Hfb|].
  - destruct (update_plane D (hw w) i c fb (geometry ps)) as [rc h] eqn:Hup.
    destruct (decide (rc = 0)) as [->|Hrc].
    + destruct (inv_pback _ _ _ I q ps Hps) as [Hst|Hst].
      * unfold drm_atomic_helper_commit_plane_state, commit_plane_out,
          call_update_plane, swap_plane_state.
        unfold_ops. run. rewrite Hup. run. done.
      * rewrite (commit_plane_update_ok w a t i q ps c fb h pl l live (Some q))
          by done.
        cbn [outcome]. right. split; [done|]. apply (Hsw _ None).
    + rewrite (commit_plane_update_fail w i q ps c fb rc h) by done.
      cbn [outcome]. left. split; [done|].
      apply same_tables_unreferenced, same_tables_set_hw.
  - destruct (disable_plane D (hw w) i) as [rc h] eqn:Hdis.
    destruct (inv_pback _ _ _ I q ps Hps) as [Hst|Hst].
    + unfold drm_atomic_helper_commit_plane_state, commit_plane_out,
        call_disable_plane, swap_plane_state.
      unfold_ops. run. rewrite Hdis. run. done.
    + rewrite (commit_plane_disable w a t i q ps rc h pl l live (Some q))
        by auto.
      cbn [outcome]. right. split; [done|]. apply Hsw.
  - destruct (disable_plane D (hw w) i) as [rc h] eqn:Hdis.
    destruct (inv_pback _ _ _ I q ps Hps) as [Hst|Hst].
    + unfold drm_atomic_helper_commit_plane_state, commit_plane_out,
        call_disable_plane, swap_plane_state.
      unfold_ops. run. rewrite Hdis. run. done.
    + rewrite (commit_plane_disable w a t i q ps rc h pl l live (Some q))
        by auto.
      cbn [outcome]. right. split; [done|]. apply Hsw.
Qed.

(** The same for a crtc, in each of its branches. *)
Lemma commit_crtc_state_shape a w t i q c :
  Inv a w t → cstates t !! i = Some (Some q) → dev_crtcs w !! i = Some c →
  outcome (drm_atomic_helper_commit_crtc_state i (Some q) w)
    (λ rc w', (rc ≠ 0 ∧ same_tables w w') ∨
              (rc = 0 ∧ same_tables (swapped_crtc a t i c (Some q) w) w'))
    True.
Proof.
  intros I Hq Hc. pose proof (inv_txn _ _ _ I) as Ht.
  pose proof (inv_crtcs _ _ _ I) as T.
  destruct (ti_slot_valid _ _ _ _ _ T i q Hq) as [cs Hcs].
  destruct (ti_live_valid _ _ _ _ _ T i (crtc_state c)) as (l & Hl & [live Hlive]).
  { by rewrite list_lookup_fmap, Hc. }
  assert (∀ w1 fb h e, same_tables w w1 →
            same_tables (swapped_crtc a t i c (Some q) w)
              (unreferenced fb (swapped_crtc a t i c (Some q) (set_hw h e w1))))
    as Hsw.
  { intros w1 fb h e S1. apply same_tables_unreferenced.
    apply same_tables_swapped_crtc.
    eapply same_tables_trans; [exact S1 | apply same_tables_set_hw]. }
  assert (∀ w1 fb h e, same_tables w w1 →
            same_tables w (unreferenced fb (set_hw h e w1))) as Hkeep.
  { intros w1 fb h e S1. apply same_tables_unreferenced.
    eapply same_tables_trans; [exact S1 | apply same_tables_set_hw]. }
  assert (- EINVAL ≠ 0 ∧ - EBUSY ≠ 0) as [Hinval Hbusy] by done.
  pose proof (same_tables_refl w) as S0.
  destruct (cs_set_config cs) eqn:Hsc.
  - rewrite (commit_crtc_set_config w i q cs Hcs Hsc).
    destruct (get_connector_set_run (cs_connector_ids cs) w)
      as (conn & w1 & Hconn & Hw1).
    assert (same_tables w w1) as S1.
    { destruct Hw1 as [->|[s ->]]; apply same_tables_alloc; lia. }
    destruct (mode_set_config_internal D (hw w1) (config_set i cs conn))
      as [rc h] eqn:Hset.
    destruct (decide (rc = 0)) as [->|Hrc].
    + destruct (inv_cback _ _ _ I q cs Hcs) as [Hst|Hst].
      * unfold set_config, call_mode_set_config_internal, swap_crtc_state.
        unfold_ops. run. rewrite Hset. run. done.
      * rewrite (set_config_ok w w1 a t i q cs conn h c (Some q)); try done.
        -- cbn [outcome]. right. split; [done|]. by apply Hsw.
        -- by rewrite (st_helper _ _ S1).
        -- by rewrite (st_crtcs _ _ S1).
    + rewrite (set_config_fail w w1 i q cs conn rc h) by done.
      cbn [outcome]. left. split; [done|]. by apply Hkeep.
  - destruct (cs_fb cs) as [fb|] eqn:Hfb.
    + destruct (decide (cs_fb live = Some fb)) as [Heq|Hne].
      { rewrite (commit_crtc_noop w i q cs c l live) by congruence.
        cbn [outcome]. by left. }
      destruct (crtc_fb D (hw w) i) as [bound|] eqn:Hb.
      2:{ rewrite (commit_crtc_flip_unbound w i q cs c l live fb) by done.
          cbn [outcome]. by left. }
      destruct (crtc_has_page_flip c) eqn:Hpf.
      2:{ rewrite (commit_crtc_flip_unsupported w i q cs c l live fb bound)
            by done.
          cbn [outcome]. by left. }
      destruct (inv_cback _ _ _ I q cs Hcs) as [Hst|Hst].
      * unfold drm_atomic_helper_commit_crtc_state. unfold_ops. run. done.
      * destruct (page_flip D (hw w) i fb (cs_event cs) (flags t))
          as [rc h] eqn:Hflip.
        destruct (decide (rc = 0)) as [->|Hrc].
        -- rewrite (commit_crtc_flip_ok w a t i q cs c l live fb bound h (Some q))
             by done.
           cbn [outcome]. right. split; [done|]. by apply Hsw.
        -- rewrite (commit_crtc_flip_fail w a t i q cs c l live fb bound rc h)
             by done.
           cbn [outcome]. left. split; [done|]. by apply Hkeep.
    + destruct (cs_fb live) as [old|] eqn:Hold.
      2:{ rewrite (commit_crtc_noop w i q cs c l live) by congruence.
          cbn [outcome]. by left. }
      destruct (mode_set_config_internal D (hw w) (disable_set i))
        as [rc h] eqn:Hset.
      destruct (decide (rc = 0)) as [->|Hrc].
      * destruct (inv_cback _ _ _ I q cs Hcs) as [Hst|Hst].
        -- unfold drm_atomic_helper_commit_crtc_state,
             call_mode_set_config_internal, swap_crtc_state.
           unfold_ops. run. rewrite Hset. run. done.
        -- rewrite (commit_crtc_disable_ok w a t i q cs c l live old h (Some q))
             by done.
           cbn [outcome]. right. split; [done|]. by apply Hsw.
      * rewrite (commit_crtc_disable_fail w i q cs c l live old rc h) by done.
        cbn [outcome]. left. split; [done|]. by apply Hkeep.
Qed.

(** One iteration of the plane loop and of the crtc loop of a commit. *)
Lemma commit_plane_body_shape a w t i :
  Inv a w t → (i < dev_num_plane w)%nat →
  outcome (commit_plane_body (Some a) i w)
    (λ r w',
       match r with
       | None => pstates t !! i = Some None ∧ w' = w
       | Some rc =>
           ∃ q pl l, pstates t !! i = Some (Some q) ∧
             dev_planes w !! i = Some pl ∧ plane_state pl = Some l ∧
             drm_atomic_helper_commit_plane_state i (Some q) w = Ok (rc, w') ∧
             ((rc ≠ 0 ∧ same_tables w w') ∨
              (rc = 0 ∧
               same_tables (swapped_plane a t i (Some l) (Some q) w) w'))
       end)
    (∃ q ps, pstates t !! i = Some (Some q) ∧ pstate_mem w !! q = Some ps ∧
             ps_state ps = None).
Proof.
  intros I Hi. pose proof (inv_txn _ _ _ I) as Ht.
  pose proof (inv_planes _ _ _ I) as T.
  destruct (lookup_lt_is_Some_2 (planes t) i) as [[p|] Hp].
  { by rewrite (ti_mark_len _ _ _ _ _ T). }
  - destruct (Inv_touched a w t i p I Hp) as (-> & q & ps & pl & Hq & Hps & Hpl).
    destruct (Inv_live_plane a w t i I Hi) as (pl' & l & live & Hpl' & Hl & _).
    rewrite Hpl in Hpl'. injection Hpl' as <-.
    unfold commit_plane_body, drm_atomic_commit_plane_state.
    unfold_ops. run.
    pose proof (commit_plane_state_outcome a w t i q I Hq) as Ho.
    pose proof (commit_plane_state_shape a w t i q pl l I Hq Hpl Hl) as Hs.
    destruct (drm_atomic_helper_commit_plane_state i (Some q) w)
      as [[rc w']|e] eqn:E; simpl in *.
    + exists q, pl, l. split_and!; done.
    + destruct Ho as (ps' & Hps' & Hst). eauto.
  - unfold commit_plane_body. unfold_ops. run. simpl.
    split; [|done]. by apply (ti_pair _ _ _ _ _ T).
Qed.

Lemma commit_crtc_body_shape a w t i :
  Inv a w t → (i < dev_num_crtc w)%nat →
  outcome (commit_crtc_body (Some a) i w)
    (λ r w',
       match r with
       | None => cstates t !! i = Some None ∧ w' = w
       | Some rc =>
           ∃ q c, cstates t !! i = Some (Some q) ∧ dev_crtcs w !! i = Some c ∧
             drm_atomic_helper_commit_crtc_state i (Some q) w = Ok (rc, w') ∧
             ((rc ≠ 0 ∧ same_tables w w') ∨
              (rc = 0 ∧ same_tables (swapped_crtc a t i c (Some q) w) w'))
       end)
    (∃ q cs, cstates t !! i = Some (Some q) ∧ cstate_mem w !! q = Some cs ∧
             cs_state cs = None).
Proof.
  intros I Hi. pose proof (inv_txn _ _ _ I) as Ht.
  pose proof (inv_crtcs _ _ _ I) as T.
  destruct (lookup_lt_is_Some_2 (crtcs t) i) as [[p|] Hp].
  { by rewrite (ti_mark_len _ _ _ _ _ T). }
  - assert (p = i) as -> by (by eapply (ti_tag _ _ _ _ _ T)).
    destruct (proj2 (table_slot_marker _ _ _ _ _ i T)) as [q Hq]; [eauto|].
    destruct (Inv_live_crtc a w t i I Hi) as (c & _ & _ & Hc & _).
    unfold commit_crtc_body, drm_atomic_commit_crtc_state.
    unfold_ops. run.
    pose proof (commit_crtc_state_outcome a w t i q I Hq) as Ho.
    pose proof (commit_crtc_state_shape a w t i q c I Hq Hc) as Hs.
    destruct (drm_atomic_helper_commit_crtc_state i (Some q) w)
      as [[rc w']|e] eqn:E; simpl in *.
    + exists q, c. split_and!; done.
    + destruct Ho as (cs' & Hcs' & Hst). eauto.
  - unfold commit_crtc_body. unfold_ops. run. simpl.
    split; [|done]. by apply (ti_pair _ _ _ _ _ T).
Qed.

(** ** Blocks that point back to the transaction *)

Lemma owned_same_tables a w w' t :
  owned a w t → same_tables w w' → owned a w' t.
Proof.
  intros [Op Oc] S. destruct S.
  split; rewrite ?st_planes0, ?st_crtcs0, ?st_pmem0, ?st_cmem0; done.
Qed.

Lemma owned_swapped_plane a w t i q pl l :
  owned a w t → pstates t !! i = Some (Some q) →
  dev_planes w !! i = Some pl → plane_state pl = Some l →
  owned a (swapped_plane a t i (Some l) (Some q) w) (swap_plane_txn t i (Some l)).
Proof.
  intros [Op Oc] Hq Hpl Hl.
  assert (i < length (pstates t))%nat as Hi by (by eapply lookup_lt_Some).
  assert (i < length (dev_planes w))%nat as Hi' by (by eapply lookup_lt_Some).
  split; wsimpl; [|exact Oc].
  intros x ps Hx Hst. destruct (Op x ps Hx Hst) as (i0 & s & Hs & Hor).
  simpl. destruct (decide (i = i0)) as [<-|Hne].
  - exists i, l. rewrite list_lookup_insert_eq by done. split; [done|].
    rewrite Hq in Hs. injection Hs as <-.
    rewrite list_lookup_insert_eq by done. simpl.
    destruct Hor as [->|Hlive]; [by right|].
    left. rewrite Hpl in Hlive. simpl in Hlive. congruence.
  - exists i0, s. by rewrite !list_lookup_insert_ne by done.
Qed.

Lemma owned_swapped_crtc a w t i q c :
  owned a w t → cstates t !! i = Some (Some q) → dev_crtcs w !! i = Some c →
  is_Some (crtc_state c) →
  owned a (swapped_crtc a t i c (Some q) w) (swap_crtc_txn t i (crtc_state c)).
Proof.
  intros [Op Oc] Hq Hc [l Hl].
  assert (i < length (cstates t))%nat as Hi by (by eapply lookup_lt_Some).
  assert (i < length (dev_crtcs w))%nat as Hi' by (by eapply lookup_lt_Some).
  split; wsimpl; [exact Op|].
  intros x cs Hx Hst. destruct (Oc x cs Hx Hst) as (i0 & s & Hs & Hor).
  simpl. destruct (decide (i = i0)) as [<-|Hne].
  - exists i, l. rewrite list_lookup_insert_eq by done. split; [by rewrite Hl|].
    rewrite Hq in Hs. injection Hs as <-.
    rewrite list_lookup_insert_eq by done. simpl.
    destruct Hor as [->|Hlive]; [by right|].
    left. rewrite Hc in Hlive. simpl in Hlive. congruence.
  - exists i0, s. by rewrite !list_lookup_insert_ne by done.
Qed.

(** What both loops of a commit keep: anything that survives a step which
    leaves the tables alone and a swap of a staged object. *)
Lemma commit_preserves (J : world → drm_atomic_helper_state → Prop) a w t rc w' :
  (∀ w1 w2 t1, Inv a w1 t1 → J w1 t1 → same_tables w1 w2 → J w2 t1) →
  (∀ w1 t1 i q pl l, Inv a w1 t1 → J w1 t1 →
     pstates t1 !! i = Some (Some q) → dev_planes w1 !! i = Some pl →
     plane_state pl = Some l →
     J (swapped_plane a t1 i (Some l) (Some q) w1) (swap_plane_txn t1 i (Some l))) →
  (∀ w1 t1 i q c, Inv a w1 t1 → J w1 t1 →
     cstates t1 !! i = Some (Some q) → dev_crtcs w1 !! i = Some c →
     is_Some (crtc_state c) →
     J (swapped_crtc a t1 i c (Some q) w1) (swap_crtc_txn t1 i (crtc_state c))) →
  Inv a w t → J w t →
  drm_atomic_helper_commit (Some a) w = Ok (rc, w') →
  ∃ t', Inv a w' t' ∧ J w' t'.
Proof.
  intros Hsame Hplane Hcrtc I O E.
  assert (outcome (drm_atomic_helper_commit (Some a) w)
            (λ _ w', ∃ t', Inv a w' t' ∧ J w' t') True) as H.
  2:{ by rewrite E in H. }
  clear E. unfold drm_atomic_helper_commit.
  unfold mbind at 1, M_bind at 1. unfold gets at 1.
  unfold mbind at 1, M_bind at 1. unfold gets at 1.
  set (K := λ (_ : nat) w1, ∃ t1, Inv a w1 t1 ∧ J w1 t1 ∧
                dev_num_plane w1 = dev_num_plane w ∧
                dev_num_crtc w1 = dev_num_crtc w).
  assert (∀ j k rc w2, (K j w2 ∧ (rc = k ∨ rc = 0)) ∨
            (∃ i : nat, (0 ≤ i < 0 + j)%nat ∧ rc ≠ 0 ∧ K i w2) → K 0%nat w2)
    as Hpost.
  { intros j k r w2 [[HJ _]|(i & _ & _ & HJ)]; exact HJ. }
  eapply outcome_bind.
  { eapply outcome_weaken;
      [apply (for_each_seq K (λ i _ w1, K i w1) True _ (dev_num_plane w) 0%nat 0 w)
      | apply Hpost | done].
    - intros i w1 Hi (t1 & I1 & O1 & N1 & N2).
      eapply outcome_weaken;
        [apply (commit_plane_body_shape a w1 t1 i I1); lia | | done].
      intros r w2 Hr.
      assert (K i w2) as HJ.
      { destruct r as [rc1|].
        - destruct Hr as (q & pl & l & Hq & Hpl & Hl & _ & [[_ S]|[_ S]]).
          + exists t1. split; [by eapply Inv_same_tables|].
            split; [by eapply Hsame|]. destruct S. split; congruence.
          + exists (swap_plane_txn t1 i (Some l)).
            split; [|split; [|destruct S; split; wsimpl; congruence]].
            * eapply Inv_same_tables; [|exact S]. rewrite <- Hl.
              by apply Inv_swapped_plane.
            * eapply Hsame; [| |exact S].
              -- rewrite <- Hl. by apply Inv_swapped_plane.
              -- by eapply Hplane.
        - destruct Hr as [_ ->]. by exists t1. }
      destruct r as [rc1|]; [|exact HJ]. by destruct (decide (rc1 = 0)).
    - exists t. done. }
  intros ret w1 H1. cbn beta in H1.
  eapply outcome_weaken;
    [apply (for_each_seq K (λ i _ w1, K i w1) True _ (dev_num_crtc w) 0%nat ret w1)
    | | done].
  - intros i w2 Hi (t1 & I1 & O1 & N1 & N2).
    eapply outcome_weaken;
      [apply (commit_crtc_body_shape a w2 t1 i I1); lia | | done].
    intros r w3 Hr.
    assert (K i w3) as HJ.
    { destruct r as [rc1|].
      - destruct Hr as (q & c & Hq & Hc & _ & [[_ S]|[_ S]]).
        + exists t1. split; [by eapply Inv_same_tables|].
          split; [by eapply Hsame|]. destruct S. split; congruence.
        + exists (swap_crtc_txn t1 i (crtc_state c)).
          split; [|split; [|destruct S; split; wsimpl; congruence]].
          * eapply Inv_same_tables; [|exact S]. by apply Inv_swapped_crtc.
          * eapply Hsame; [| |exact S].
            -- by apply Inv_swapped_crtc.
            -- eapply Hcrtc; try done.
               destruct (ti_live_valid _ _ _ _ _ (inv_crtcs _ _ _ I1) i (crtc_state c))
                 as (l & -> & _); [|done].
               by rewrite list_lookup_fmap, Hc.
      - destruct Hr as [_ ->]. by exists t1. }
    destruct r as [rc1|]; [|exact HJ]. by destruct (decide (rc1 = 0)).
  - exact H1.
  - intros r w2 H2. apply Hpost in H2. destruct H2 as (t2 & ? & ? & _). eauto.
Qed.

Lemma commit_owned a w t rc w' :
  Inv a w t → owned a w t →
  drm_atomic_helper_commit (Some a) w = Ok (rc, w') →
  ∃ t', Inv a w' t' ∧ owned a w' t'.
Proof.
  apply (commit_preserves (owned a)).
  - intros w1 w2 t1 _. apply owned_same_tables.
  - intros w1 t1 i q pl l _. apply owned_swapped_plane.
  - intros w1 t1 i q c _. apply owned_swapped_crtc.
Qed.

(** ** Staging, case by case *)

Lemma get_plane_state_cases a w t i p w' :
  Inv a w t →
  drm_atomic_helper_get_plane_state i (Some a) w = Ok (p, w') →
  (∃ q, pstates t !! i = Some (Some q) ∧ p = Some q ∧ w' = w) ∨
  (∃ pl l live, pstates t !! i = Some None ∧ dev_planes w !! i = Some pl ∧
     plane_state pl = Some l ∧ pstate_mem w !! l = Some live ∧
     head (kmalloc_script w) ≠ Some false ∧
     p = Some (brk w) ∧ w' = staged_plane a t i live w).
Proof.
  intros I. pose proof (inv_txn _ _ _ I) as Ht.
  pose proof (inv_planes _ _ _ I) as T.
  destruct (pstates t !! i) as [[q|]|] eqn:Hq.
  - rewrite (get_plane_state_hit w a t i q Ht Hq). intros [= <- <-]. eauto.
  - assert (i < dev_num_plane w)%nat as Hi.
    { rewrite <- (ti_slot_len _ _ _ _ _ T). by eapply lookup_lt_Some. }
    destruct (Inv_live_plane a w t i I Hi) as (pl & l & live & Hpl & Hl & Hlive).
    destruct (decide (head (kmalloc_script w) = Some false)) as [E|E].
    + destruct (kmalloc_script w) as [|[] s] eqn:E'; try done.
      by rewrite (get_plane_state_oom w a t i pl l live s).
    + rewrite (get_plane_state_miss w a t i pl l live); try done.
      * intros [= <- <-]. right. eauto 12.
      * apply lookup_lt_is_Some_2. by rewrite (ti_mark_len _ _ _ _ _ T).
  - unfold drm_atomic_helper_get_plane_state. unfold_ops. by rewrite Ht, Hq.
Qed.

Lemma get_crtc_state_cases a w t i p w' :
  Inv a w t →
  drm_atomic_helper_get_crtc_state i (Some a) w = Ok (p, w') →
  (∃ q, cstates t !! i = Some (Some q) ∧ p = Some q ∧ w' = w) ∨
  (∃ c l live, cstates t !! i = Some None ∧ dev_crtcs w !! i = Some c ∧
     crtc_state c = Some l ∧ cstate_mem w !! l = Some live ∧
     head (kmalloc_script w) ≠ Some false ∧
     p = Some (brk w) ∧ w' = staged_crtc a t i live w).
Proof.
  intros I. pose proof (inv_txn _ _ _ I) as Ht.
  pose proof (inv_crtcs _ _ _ I) as T.
  destruct (cstates t !! i) as [[q|]|] eqn:Hq.
  - rewrite (get_crtc_state_hit w a t i q Ht Hq). intros [= <- <-]. eauto.
  - assert (i < dev_num_crtc w)%nat as Hi.
    { rewrite <- (ti_slot_len _ _ _ _ _ T). by eapply lookup_lt_Some. }
    destruct (Inv_live_crtc a w t i I Hi) as (c & l & live & Hc & Hl & Hlive).
    destruct (decide (head (kmalloc_script w) = Some false)) as [E|E].
    + destruct (kmalloc_script w) as [|[] s] eqn:E'; try done.
      by rewrite (get_crtc_state_oom w a t i c l live s).
    + rewrite (get_crtc_state_miss w a t i c l live); try done.
      * intros [= <- <-]. right. eauto 12.
      * apply lookup_lt_is_Some_2. by rewrite (ti_mark_len _ _ _ _ _ T).
  - unfold drm_atomic_helper_get_crtc_state. unfold_ops. by rewrite Ht, Hq.
Qed.

(** ** Back-pointers and live blocks in every reachable state *)

Lemma owned_staged_plane a w t i live :
  Inv a w t → owned a w t → pstates t !! i = Some None →
  owned a (staged_plane a t i live w) (stage_plane_txn t i (brk w)).
Proof.
  intros I [Op Oc] Hq.
  assert (i < length (pstates t))%nat as Hi by (by eapply lookup_lt_Some).
  split; wsimpl; [|exact Oc]. simpl.
  intros x ps Hx Hst. destruct (decide (brk w = x)) as [<-|Hne].
  - exists i, (brk w). rewrite list_lookup_insert_eq by done. auto.
  - rewrite lookup_insert_ne in Hx by done.
    destruct (Op x ps Hx Hst) as (i0 & s & Hs & Hor).
    exists i0, s. rewrite list_lookup_insert_ne; [done|]. congruence.
Qed.

Lemma owned_staged_crtc a w t i live :
  Inv a w t → owned a w t → cstates t !! i = Some None →
  owned a (staged_crtc a t i live w) (stage_crtc_txn t i (brk w)).
Proof.
  intros I [Op Oc] Hq.
  assert (i < length (cstates t))%nat as Hi by (by eapply lookup_lt_Some).
  split; wsimpl; [exact Op|]. simpl.
  intros x cs Hx Hst. destruct (decide (brk w = x)) as [<-|Hne].
  - exists i, (brk w). rewrite list_lookup_insert_eq by done. auto.
  - rewrite lookup_insert_ne in Hx by done.
    destruct (Oc x cs Hx Hst) as (i0 & s & Hs & Hor).
    exists i0, s. rewrite list_lookup_insert_ne; [done|]. congruence.
Qed.

Lemma owned_store_pstate a w t q ps ps' :
  owned a w t → pstate_mem w !! q = Some ps → ps_state ps' = ps_state ps →
  owned a (set_pstate_mem (<[q := ps']>) w) t.
Proof.
  intros [Op Oc] Hq Hst. split; wsimpl; [|exact Oc].
  intros x y. destruct (decide (q = x)) as [<-|Hne].
  - rewrite lookup_insert_eq. intros [= <-]. rewrite Hst. by apply Op.
  - rewrite lookup_insert_ne by done. apply Op.
Qed.

Lemma owned_store_cstate a w t q cs cs' :
  owned a w t → cstate_mem w !! q = Some cs → cs_state cs' = cs_state cs →
  owned a (set_cstate_mem (<[q := cs']>) w) t.
Proof.
  intros [Op Oc] Hq Hst. split; wsimpl; [exact Op|].
  intros x y. destruct (decide (q = x)) as [<-|Hne].
  - rewrite lookup_insert_eq. intros [= <-]. rewrite Hst. by apply Oc.
  - rewrite lookup_insert_ne by done. apply Oc.
Qed.

Lemma live_clean_keep w w' :
  dev_planes w' = dev_planes w → dev_crtcs w' = dev_crtcs w →
  (∀ i pl l, dev_planes w !! i = Some pl → plane_state pl = Some l →
     pstate_mem w' !! l = pstate_mem w !! l) →
  (∀ i c l, dev_crtcs w !! i = Some c → crtc_state c = Some l →
     cstate_mem w' !! l = cstate_mem w !! l) →
  live_clean w → live_clean w'.
Proof.
  intros Ep Ec Hp Hc [Lp Lc]. split.
  - intros i pl ps. unfold plane_live. rewrite Ep.
    destruct (dev_planes w !! i) as [pl'|] eqn:Hpl; [|done]. simpl.
    destruct (plane_state pl') as [l|] eqn:Hl; [|done]. simpl.
    rewrite (Hp i pl' l Hpl Hl). intros H. apply (Lp i pl ps).
    unfold plane_live. by rewrite Hpl; simpl; rewrite Hl.
  - intros i c cs. unfold crtc_live. rewrite Ec.
    destruct (dev_crtcs w !! i) as [c'|] eqn:Hcc; [|done]. simpl.
    destruct (crtc_state c') as [l|] eqn:Hl; [|done]. simpl.
    rewrite (Hc i c' l Hcc Hl). intros H. apply (Lc i c cs).
    unfold crtc_live. by rewrite Hcc; simpl; rewrite Hl.
Qed.

Lemma Inv_plane_live_valid a w t i pl l :
  Inv a w t → dev_planes w !! i = Some pl → plane_state pl = Some l →
  valid_pstate w l.
Proof.
  intros I Hpl Hl.
  destruct (ti_live_valid _ _ _ _ _ (inv_planes _ _ _ I) i (Some l))
    as (l' & [= <-] & Hv); [|done].
  by rewrite list_lookup_fmap, Hpl, <- Hl.
Qed.

Lemma Inv_crtc_live_valid a w t i c l :
  Inv a w t → dev_crtcs w !! i = Some c → crtc_state c = Some l →
  valid_cstate w l.
Proof.
  intros I Hc Hl.
  destruct (ti_live_valid _ _ _ _ _ (inv_crtcs _ _ _ I) i (Some l))
    as (l' & [= <-] & Hv); [|done].
  by rewrite list_lookup_fmap, Hc, <- Hl.
Qed.

Lemma Inv_plane_live_not_slot a w t i pl l j :
  Inv a w t → dev_planes w !! i = Some pl → plane_state pl = Some l →
  pstates t !! j ≠ Some (Some l).
Proof.
  intros I Hpl Hl. eapply (ti_sep_ls _ _ _ _ _ (inv_planes _ _ _ I) i j l).
  by rewrite list_lookup_fmap, Hpl, <- Hl.
Qed.

Lemma Inv_crtc_live_not_slot a w t i c l j :
  Inv a w t → dev_crtcs w !! i = Some c → crtc_state c = Some l →
  cstates t !! j ≠ Some (Some l).
Proof.
  intros I Hc Hl. eapply (ti_sep_ls _ _ _ _ _ (inv_crtcs _ _ _ I) i j l).
  by rewrite list_lookup_fmap, Hc, <- Hl.
Qed.

Lemma live_clean_staged_plane a w t i live :
  Inv a w t → live_clean w → live_clean (staged_plane a t i live w).
Proof.
  intros I. apply live_clean_keep; wsimpl; try done.
  intros k pl l Hk Hl. rewrite lookup_insert_ne; [done|]. intros <-.
  pose proof (inv_pbrk _ _ _ I _ (Inv_plane_live_valid a w t k pl _ I Hk Hl)). lia.
Qed.

Lemma live_clean_staged_crtc a w t i live :
  Inv a w t → live_clean w → live_clean (staged_crtc a t i live w).
Proof.
  intros I. apply live_clean_keep; wsimpl; try done.
  intros k c l Hk Hl. rewrite lookup_insert_ne; [done|]. intros <-.
  pose proof (inv_cbrk _ _ _ I _ (Inv_crtc_live_valid a w t k c _ I Hk Hl)). lia.
Qed.

Lemma live_clean_store_pstate a w t i q ps' :
  Inv a w t → pstates t !! i = Some (Some q) → live_clean w →
  live_clean (set_pstate_mem (<[q := ps']>) w).
Proof.
  intros I Hq. apply live_clean_keep; wsimpl; try done.
  intros k pl l Hk Hl. rewrite lookup_insert_ne; [done|]. intros <-.
  by apply (Inv_plane_live_not_slot a w t k pl q i I Hk Hl).
Qed.

Lemma live_clean_store_cstate a w t i q cs' :
  Inv a w t → cstates t !! i = Some (Some q) → live_clean w →
  live_clean (set_cstate_mem (<[q := cs']>) w).
Proof.
  intros I Hq. apply live_clean_keep; wsimpl; try done.
  intros k c l Hk Hl. rewrite lookup_insert_ne; [done|]. intros <-.
  by apply (Inv_crtc_live_not_slot a w t k c q i I Hk Hl).
Qed.

(** The transaction of a reachable state, with what holds of it: the
    table invariant, every block that points back to it belongs to one of
    its slots, and, as long as no commit ran, the live blocks point to no
    transaction. *)
Lemma reachable_owned a b w :
  reachable a b w →
  ∃ t, Inv a w t ∧ owned a w t ∧ (b = false → staged a w t ∧ live_clean w).
Proof.
  induction 1 as [w0 fl w Q E|b w i p w' _ (t & I & O & L) E
                 |b w i p w' _ (t & I & O & L) E
                 |b w obj ev rc w' _ (t & I & O & L) E
                 |b w t0 i q ps ps' refs _ (t & I & O & L) Ht Hq Hps Hst
                 |b w t0 i q cs cs' refs _ (t & I & O & L) Ht Hq Hcs Hst
                 |b w rc w' _ (t & I & O & L) E|b w rc w' _ (t & I & O & L) E].
  - destruct (begin_inversion fl w0 _ w E) as ([= ->] & -> & _).
    destruct (begin_Inv fl w0 Q) as [I S].
    exists (fresh_helper_state fl w0). split; [done|]. split; [|intros _; split; [done|]].
    + split; wsimpl; intros x y Hx Hst.
      * by rewrite (qu_pback _ Q x y Hx) in Hst.
      * by rewrite (qu_cback _ Q x y Hx) in Hst.
    + split.
      * intros k pl ps. unfold plane_live. wsimpl.
        destruct (dev_planes w0 !! k) as [pl'|]; [|done]. simpl.
        destruct (plane_state pl') as [l|]; [|done]. simpl.
        destruct (pstate_mem w0 !! l) as [ps'|] eqn:Hl; [|done].
        intros [= _ <-]. by apply (qu_pback _ Q l).
      * intros k c cs. unfold crtc_live. wsimpl.
        destruct (dev_crtcs w0 !! k) as [c'|]; [|done]. simpl.
        destruct (crtc_state c') as [l|]; [|done]. simpl.
        destruct (cstate_mem w0 !! l) as [cs'|] eqn:Hl; [|done].
        intros [= _ <-]. by apply (qu_cback _ Q l).
  - destruct (get_plane_state_cases a w t i p w' I E)
      as [(q & Hq & -> & ->)|(pl & l & live & Hq & Hpl & Hl & Hlive & Hk & -> & ->)].
    + eauto.
    + destruct (Inv_staged_plane a w t i live I Hq) as [I' S'].
      exists (stage_plane_txn t i (brk w)). split; [done|].
      split; [by apply owned_staged_plane|].
      intros Hb. destruct (L Hb) as [S Lc].
      split; [by apply S' | by eapply live_clean_staged_plane].
  - destruct (get_crtc_state_cases a w t i p w' I E)
      as [(q & Hq & -> & ->)|(c & l & live & Hq & Hc & Hl & Hlive & Hk & -> & ->)].
    + eauto.
    + destruct (Inv_staged_crtc a w t i live I Hq) as [I' S'].
      exists (stage_crtc_txn t i (brk w)). split; [done|].
      split; [by apply owned_staged_crtc|].
      intros Hb. destruct (L Hb) as [S Lc].
      split; [by apply S' | by eapply live_clean_staged_crtc].
  - destruct obj as [crtc| |]; simpl in E.
    + unfold mbind at 1, M_bind at 1 in E.
      destruct (drm_atomic_helper_get_crtc_state crtc (Some a) w)
        as [[p w1]|e] eqn:E1; [|done].
      assert (∃ t1 q, Inv a w1 t1 ∧ owned a w1 t1 ∧
                (b = false → staged a w1 t1 ∧ live_clean w1) ∧
                p = Some q ∧ cstates t1 !! crtc = Some (Some q)) as
        (t1 & q & I1 & O1 & L1 & -> & Hq).
      { destruct (get_crtc_state_cases a w t crtc p w1 I E1)
          as [(q & Hq & -> & ->)|(c & l & live & Hq & Hc & Hl & Hlive & Hk & -> & ->)].
        - exists t, q. done.
        - destruct (Inv_staged_crtc a w t crtc live I Hq) as [I' S'].
          exists (stage_crtc_txn t crtc (brk w)), (brk w).
          split; [done|]. split; [by apply owned_staged_crtc|].
          split; [|split; [done|]].
          + intros Hb. destruct (L Hb) as [S Lc].
            split; [by apply S' | by eapply live_clean_staged_crtc].
          + simpl. apply list_lookup_insert_eq. by eapply lookup_lt_Some. }
      revert E. unfold_ops.
      destruct (cstate_mem w1 !! q) as [cs|] eqn:Hcs; [|done].
      intros [= <- <-]. exists t1.
      destruct (Inv_store_cstate a w1 t1 q cs (with_cs_event cs ev) I1 Hcs eq_refl)
        as [I2 S2].
      split; [done|]. split; [by eapply owned_store_cstate|].
      intros Hb. destruct (L1 Hb) as [S Lc].
      split; [by apply S2 | by eapply live_clean_store_cstate].
    + injection E as <- <-. eauto.
    + injection E as <- <-. eauto.
  - pose proof (inv_txn _ _ _ I) as Ht'. rewrite Ht in Ht'. injection Ht' as ->.
    exists t. destruct (Inv_store_pstate a w t q ps ps' I Hps Hst) as [I' S'].
    split; [by apply Inv_set_fb_refcount|].
    split; [by eapply owned_store_pstate|].
    intros Hb. destruct (L Hb) as [S Lc].
    split; [by apply S' | by eapply live_clean_store_pstate].
  - pose proof (inv_txn _ _ _ I) as Ht'. rewrite Ht in Ht'. injection Ht' as ->.
    exists t. destruct (Inv_store_cstate a w t q cs cs' I Hcs Hst) as [I' S'].
    split; [by apply Inv_set_fb_refcount|].
    split; [by eapply owned_store_cstate|].
    intros Hb. destruct (L Hb) as [S Lc].
    split; [by apply S' | by eapply live_clean_store_cstate].
  - exists t. destruct (check_Inv a w t rc w' I E) as [I' S'].
    rewrite (check_run a w t I) in E.
    destruct (validate_spec _ 0 (hw w)) as [[r h] evs].
    injection E as <- <-. split; [done|]. split; [exact O|].
    intros Hb. destruct (L Hb) as [S Lc]. split; [by apply S' | exact Lc].
  - destruct (commit_owned a w t rc w' I O E) as (t' & I' & O').
    exists t'. done.
Qed.

(** ** The teardown, block by block *)

Lemma cleared_start {St} (back : St → option addr) (clear : St → St)
    (mem : gmap addr St) (lv sl : list (option addr)) :
  (∀ x s, mem !! x = Some s → back s ≠ None →
     ∃ i q, sl !! i = Some (Some q) ∧ (q = x ∨ lv !! i = Some (Some x))) →
  cleared back clear mem mem lv sl 0.
Proof.
  intros H. split.
  - intros x s Hx Hb. destruct (H x s Hx Hb) as (i & q & ? & ?).
    exists i, q. split; [lia | done].
  - intros x s Hx. eauto.
  - intros i q Hi. lia.
  - intros x Hx _. exact Hx.
Qed.

Lemma cleared_skip {St} (back : St → option addr) (clear : St → St)
    (mem0 mem : gmap addr St) (lv sl : list (option addr)) j :
  cleared back clear mem0 mem lv sl j → sl !! j = Some None →
  cleared back clear mem0 mem lv sl (S j).
Proof.
  intros [Hb Hf Hd Hk] Hj. split; [|done| |].
  - intros x s Hx Hs. destruct (Hb x s Hx Hs) as (i & q & Hi & Hq & Hor).
    exists i, q. split; [|done].
    destruct (decide (i = j)) as [->|]; [congruence | lia].
  - intros i q Hi Hq. destruct (decide (i = j)) as [->|]; [congruence|].
    apply (Hd i q); [lia | done].
  - intros x Hx Hno. apply Hk; [done|]. intros i Hi. apply Hno. lia.
Qed.

Lemma cleared_step {St} (back : St → option addr) (clear : St → St)
    (mem0 mem : gmap addr St) (lv sl : list (option addr)) j q l live :
  (∀ s, back (clear s) = None) → (∀ s, clear (clear s) = clear s) →
  cleared back clear mem0 mem lv sl j →
  sl !! j = Some (Some q) → lv !! j = Some (Some l) → mem !! l = Some live →
  cleared back clear mem0 (delete q (<[l := clear live]> mem)) lv sl (S j).
Proof.
  intros Hc Hcc [Hb Hf Hd Hk] Hq Hl Hlive. split.
  - intros x s Hx Hs.
    destruct (decide (q = x)) as [<-|Hqx]; [by rewrite lookup_delete_eq in Hx|].
    rewrite lookup_delete_ne in Hx by done.
    destruct (decide (l = x)) as [<-|Hlx].
    { rewrite lookup_insert_eq in Hx. injection Hx as <-. by rewrite Hc in Hs. }
    rewrite lookup_insert_ne in Hx by done.
    destruct (Hb x s Hx Hs) as (i & q' & Hi & Hq' & Hor).
    exists i, q'. split; [|done].
    destruct (decide (i = j)) as [->|]; [|lia].
    rewrite Hq in Hq'. injection Hq' as <-.
    destruct Hor as [?|Hor]; [done|]. rewrite Hl in Hor. congruence.
  - intros x s Hx.
    destruct (decide (q = x)) as [<-|Hqx]; [by rewrite lookup_delete_eq in Hx|].
    rewrite lookup_delete_ne in Hx by done.
    destruct (decide (l = x)) as [<-|Hlx]; [|rewrite lookup_insert_ne in Hx by done; eauto].
    rewrite lookup_insert_eq in Hx. injection Hx as <-.
    destruct (Hf l live Hlive) as (s0 & Hs0 & [->| ->]); exists s0; rewrite ?Hcc; auto.
  - intros i q' Hi Hq'.
    destruct (decide (q = q')) as [<-|Hqq]; [apply lookup_delete_eq|].
    rewrite lookup_delete_ne by done.
    destruct (decide (i = j)) as [->|]; [congruence|].
    assert (mem !! q' = None) as Hnone by (apply (Hd i q'); [lia | done]).
    rewrite lookup_insert_ne; [done|]. congruence.
  - intros x Hx Hno.
    assert (q ≠ x) as Hqx by (intros <-; by apply (Hno j); [lia|]).
    rewrite lookup_delete_ne by done.
    assert (is_Some (mem !! x)) as Hm.
    { apply Hk; [done|]. intros i Hi. apply Hno. lia. }
    destruct (decide (l = x)) as [<-|Hlx].
    + rewrite lookup_insert_eq. eauto.
    + by rewrite lookup_insert_ne.
Qed.

Lemma end_plane_body_clears a w0 t w i :
  Inv a w0 t → (i < dev_num_plane w0)%nat → end_plane_pass w0 t i w →
  outcome (end_plane_body (Some a) i w) (λ _ w', end_plane_pass w0 t (S i) w') False.
Proof.
  intros I Hi (E & Q & Hc & C). pose proof (inv_planes _ _ _ I) as T.
  pose proof (end_plane_body_outcome a w0 t w i I E Hi) as HE.
  assert (helper_mem w !! a = Some t) as Ht.
  { rewrite (ep_helper _ _ _ E). apply I. }
  destruct (lookup_lt_is_Some_2 (pstates t) i) as [[q|] Hq].
  { by rewrite (ti_slot_len _ _ _ _ _ T). }
  - destruct (proj1 (table_slot_marker _ _ _ _ _ i T)) as [p Hp]; [eauto|].
    destruct (Inv_live_plane a w0 t i I Hi) as (pl & l & live0 & Hpl & Hl & _).
    destruct (ep_plive _ _ _ E i pl l Hpl Hl) as [live Hlive].
    assert (p = i) as -> by (by eapply (ti_tag _ _ _ _ _ T)).
    assert (dev_planes w !! i = Some pl) as Hpl'.
    { by rewrite (ep_planes _ _ _ E). }
    revert HE. unfold end_plane_body. unfold_ops. run. simpl. intros HE.
    split; [exact HE|]. split; [by destruct Q|]. split; [done|].
    apply (cleared_step ps_state (λ s, with_ps_state s None)); try done.
    by rewrite list_lookup_fmap, Hpl, <- Hl.
  - revert HE. unfold end_plane_body. unfold_ops. run. simpl. intros HE.
    split; [exact HE|]. split; [done|]. split; [done|]. by apply cleared_skip.
Qed.

Lemma end_crtc_body_clears a w0 t w1 w i :
  Inv a w0 t → (i < dev_num_crtc w0)%nat → end_crtc_pass w0 t w1 i w →
  outcome (end_crtc_body (Some a) i w)
    (λ _ w', end_crtc_pass w0 t w1 (S i) w') False.
Proof.
  intros I Hi (E & Q & Hc & C). pose proof (inv_crtcs _ _ _ I) as T.
  pose proof (end_crtc_body_outcome a w0 t w i I E Hi) as HE.
  assert (helper_mem w !! a = Some t) as Ht.
  { rewrite (ep_helper _ _ _ E). apply I. }
  destruct (lookup_lt_is_Some_2 (cstates t) i) as [[q|] Hq].
  { by rewrite (ti_slot_len _ _ _ _ _ T). }
  - destruct (proj1 (table_slot_marker _ _ _ _ _ i T)) as [p Hp]; [eauto|].
    destruct (Inv_live_crtc a w0 t i I Hi) as (c & l & live0 & Hcc & Hl & _).
    destruct (ep_clive _ _ _ E i c l Hcc Hl) as [live Hlive].
    assert (p = i) as -> by (by eapply (ti_tag _ _ _ _ _ T)).
    assert (dev_crtcs w !! i = Some c) as Hc'.
    { by rewrite (ep_crtcs _ _ _ E). }
    revert HE. unfold end_crtc_body. unfold_ops. run. simpl. intros HE.
    split; [exact HE|]. split; [by destruct Q|]. split; [done|].
    apply (cleared_step cs_state (λ s, with_cs_state s None)); try done.
    by rewrite list_lookup_fmap, Hcc, <- Hl.
  - revert HE. unfold end_crtc_body. unfold_ops. run. simpl. intros HE.
    split; [exact HE|]. split; [done|]. split; [done|]. by apply cleared_skip.
Qed.

(** [drm_atomic_helper_end] on a transaction whose blocks are accounted
    for: the world it leaves. *)
Lemma end_clears a w t :
  Inv a w t → owned a w t →
  ∃ w2, drm_atomic_helper_end (Some a) w = Ok (tt, set_helper_mem (delete a) w2) ∧
    end_pass w t w2 ∧ end_quiet w w2 ∧
    cleared ps_state (λ s, with_ps_state s None) (pstate_mem w) (pstate_mem w2)
      (plane_state <$> dev_planes w) (pstates t) (dev_num_plane w) ∧
    cleared cs_state (λ s, with_cs_state s None) (cstate_mem w) (cstate_mem w2)
      (crtc_state <$> dev_crtcs w) (cstates t) (dev_num_crtc w).
Proof.
  intros I [Op Oc].
  assert (outcome (drm_atomic_helper_end (Some a) w)
            (λ _ w', ∃ w2, w' = set_helper_mem (delete a) w2 ∧
               end_pass w t w2 ∧ end_quiet w w2 ∧
               cleared ps_state (λ s, with_ps_state s None) (pstate_mem w)
                 (pstate_mem w2) (plane_state <$> dev_planes w) (pstates t)
                 (dev_num_plane w) ∧
               cleared cs_state (λ s, with_cs_state s None) (cstate_mem w)
                 (cstate_mem w2) (crtc_state <$> dev_crtcs w) (cstates t)
                 (dev_num_crtc w)) False) as H.
  2:{ destruct (outcome_ok _ _ H) as ([] & w' & E & w2 & -> & ?). eauto. }
  unfold drm_atomic_helper_end.
  unfold mbind at 1, M_bind at 1. unfold gets at 1.
  unfold mbind at 1, M_bind at 1. unfold gets at 1.
  eapply outcome_bind.
  { apply (for_all_seq (end_plane_pass w t) False _ (dev_num_plane w) 0%nat w).
    - intros i w1 Hi E. apply (end_plane_body_clears a w t w1 i); [done|lia|done].
    - split; [by eapply end_pass_start|]. split; [done|]. split; [done|].
      apply cleared_start. intros x ps Hx Hb.
      destruct (inv_pback _ _ _ I x ps Hx) as [?|Hst]; [done|].
      destruct (Op x ps Hx Hst) as (i & s & ? & ?).
      exists i, s. by rewrite list_lookup_fmap. }
  intros [] w1 (E1 & Q1 & Hc1 & C1). eapply outcome_bind.
  { apply (for_all_seq (end_crtc_pass w t w1) False _ (dev_num_crtc w) 0%nat w1).
    - intros i w2 Hi E. apply (end_crtc_body_clears a w t w1 w2 i); [done|lia|done].
    - split; [done|]. split; [done|]. split; [done|]. rewrite Hc1.
      apply cleared_start. intros x cs Hx Hb.
      destruct (inv_cback _ _ _ I x cs Hx) as [?|Hst]; [done|].
      destruct (Oc x cs Hx Hst) as (i & s & ? & ?).
      exists i, s. by rewrite list_lookup_fmap. }
  intros [] w2 (E2 & Q2 & Hp2 & C2). unfold_ops. simpl.
  exists w2. split; [done|]. split; [done|]. split; [done|].
  split; [by rewrite Hp2 | done].
Qed.

(** ** Loops over untouched objects *)

Lemma for_each_idle (body : nat → M (option Z)) m : ∀ k ret w,
  (∀ i, (k ≤ i < k + m)%nat → body i w = Ok (None, w)) →
  for_each (seq k m) body ret w = Ok (ret, w).
Proof.
  induction m as [|m IH]; intros k ret w H; [done|].
  cbn [seq for_each]. unfold mbind at 1, M_bind at 1.
  rewrite (H k) by lia. apply IH. intros i Hi. apply H. lia.
Qed.

Lemma for_all_idle (body : nat → M unit) m : ∀ k w,
  (∀ i, (k ≤ i < k + m)%nat → body i w = Ok (tt, w)) →
  for_all (seq k m) body w = Ok (tt, w).
Proof.
  induction m as [|m IH]; intros k w H; [done|].
  cbn [seq for_all]. unfold mbind at 1, M_bind at 1.
  rewrite (H k) by lia. apply IH. intros i Hi. apply H. lia.
Qed.

Lemma commit_plane_body_untouched a w t i :
  helper_mem w !! a = Some t → planes t !! i = Some None →
  commit_plane_body (Some a) i w = Ok (None, w).
Proof. intros Ht Hp. unfold commit_plane_body. unfold_ops. by run. Qed.

Lemma commit_crtc_body_untouched a w t i :
  helper_mem w !! a = Some t → crtcs t !! i = Some None →
  commit_crtc_body (Some a) i w = Ok (None, w).
Proof. intros Ht Hp. unfold commit_crtc_body. unfold_ops. by run. Qed.

Lemma end_plane_body_untouched a w t i :
  helper_mem w !! a = Some t → pstates t !! i = Some None →
  end_plane_body (Some a) i w = Ok (tt, w).
Proof. intros Ht Hp. unfold end_plane_body. unfold_ops. by run. Qed.

Lemma end_crtc_body_untouched a w t i :
  helper_mem w !! a = Some t → cstates t !! i = Some None →
  end_crtc_body (Some a) i w = Ok (tt, w).
Proof. intros Ht Hp. unfold end_crtc_body. unfold_ops. by run. Qed.

(** ** Live states under staging and stores into staged blocks *)

Lemma plane_live_store_slot a w t i q ps' j :
  Inv a w t → pstates t !! i = Some (Some q) →
  plane_live (set_pstate_mem (<[q := ps']>) w) j = plane_live w j.
Proof.
  intros I Hq. unfold plane_live. wsimpl.
  destruct (dev_planes w !! j) as [pl|] eqn:Hpl; [|done]. simpl.
  destruct (plane_state pl) as [l|] eqn:Hl; [|done]. simpl.
  rewrite lookup_insert_ne; [done|]. intros <-.
  by apply (Inv_plane_live_not_slot a w t j pl q i I Hpl Hl).
Qed.

Lemma crtc_live_store_slot a w t i q cs' j :
  Inv a w t → cstates t !! i = Some (Some q) →
  crtc_live (set_cstate_mem (<[q := cs']>) w) j = crtc_live w j.
Proof.
  intros I Hq. unfold crtc_live. wsimpl.
  destruct (dev_crtcs w !! j) as [c|] eqn:Hc; [|done]. simpl.
  destruct (crtc_state c) as [l|] eqn:Hl; [|done]. simpl.
  rewrite lookup_insert_ne; [done|]. intros <-.
  by apply (Inv_crtc_live_not_slot a w t j c q i I Hc Hl).
Qed.

Lemma plane_live_staged_plane a w t i live j :
  Inv a w t → plane_live (staged_plane a t i live w) j = plane_live w j.
Proof.
  intros I. unfold plane_live. wsimpl.
  destruct (dev_planes w !! j) as [pl|] eqn:Hpl; [|done]. simpl.
  destruct (plane_state pl) as [l|] eqn:Hl; [|done]. simpl.
  rewrite lookup_insert_ne; [done|]. intros <-.
  pose proof (inv_pbrk _ _ _ I _ (Inv_plane_live_valid a w t j pl _ I Hpl Hl)). lia.
Qed.

Lemma crtc_live_staged_crtc a w t i live j :
  Inv a w t → crtc_live (staged_crtc a t i live w) j = crtc_live w j.
Proof.
  intros I. unfold crtc_live. wsimpl.
  destruct (dev_crtcs w !! j) as [c|] eqn:Hc; [|done]. simpl.
  destruct (crtc_state c) as [l|] eqn:Hl; [|done]. simpl.
  rewrite lookup_insert_ne; [done|]. intros <-.
  pose proof (inv_cbrk _ _ _ I _ (Inv_crtc_live_valid a w t j c _ I Hc Hl)). lia.
Qed.

(** Staging crtc [i] when the allocator has a block to give: the block it
    returns and the transaction afterwards. *)
Lemma get_crtc_state_total a w t i :
  Inv a w t → (i < dev_num_crtc w)%nat → head (kmalloc_script w) ≠ Some false →
  ∃ q cs0 w1 t1,
    drm_atomic_helper_get_crtc_state i (Some a) w = Ok (Some q, w1) ∧
    Inv a w1 t1 ∧ cstates t1 !! i = Some (Some q) ∧
    cstate_mem w1 !! q = Some cs0 ∧
    (∀ j, crtc_live w1 j = crtc_live w j) ∧
    (∀ j, plane_live w1 j = plane_live w j).
Proof.
  intros I Hi Hk. pose proof (inv_txn _ _ _ I) as Ht.
  pose proof (inv_crtcs _ _ _ I) as T.
  destruct (lookup_lt_is_Some_2 (cstates t) i) as [[q|] Hq].
  { by rewrite (ti_slot_len _ _ _ _ _ T). }
  - destruct (ti_slot_valid _ _ _ _ _ T i q Hq) as [cs Hcs].
    exists q, cs, w, t. split; [by apply (get_crtc_state_hit w a t i q)|]. done.
  - destruct (Inv_live_crtc a w t i I Hi) as (c & l & live & Hc & Hl & Hlive).
    destruct (Inv_staged_crtc a w t i live I Hq) as [I1 _].
    exists (brk w), (with_cs_state live (Some a)), (staged_crtc a t i live w),
      (stage_crtc_txn t i (brk w)).
    split.
    { apply (get_crtc_state_miss w a t i c l live); try done.
      apply lookup_lt_is_Some_2. by rewrite (ti_mark_len _ _ _ _ _ T). }
    split; [done|]. split.
    { simpl. apply list_lookup_insert_eq. by eapply lookup_lt_Some. }
    split; [wsimpl; apply lookup_insert_eq|].
    split; [intros j; by eapply crtc_live_staged_crtc|].
    intros j. unfold plane_live. by wsimpl.
Qed.

Lemma get_plane_state_total a w t i :
  Inv a w t → (i < dev_num_plane w)%nat → head (kmalloc_script w) ≠ Some false →
  ∃ q ps0 w1 t1,
    drm_atomic_helper_get_plane_state i (Some a) w = Ok (Some q, w1) ∧
    Inv a w1 t1 ∧ pstates t1 !! i = Some (Some q) ∧
    pstate_mem w1 !! q = Some ps0 ∧
    (∀ j, plane_live w1 j = plane_live w j) ∧
    (∀ j, crtc_live w1 j = crtc_live w j).
Proof.
  intros I Hi Hk. pose proof (inv_txn _ _ _ I) as Ht.
  pose proof (inv_planes _ _ _ I) as T.
  destruct (lookup_lt_is_Some_2 (pstates t) i) as [[q|] Hq].
  { by rewrite (ti_slot_len _ _ _ _ _ T). }
  - destruct (ti_slot_valid _ _ _ _ _ T i q Hq) as [ps Hps].
    exists q, ps, w, t. split; [by apply (get_plane_state_hit w a t i q)|]. done.
  - destruct (Inv_live_plane a w t i I Hi) as (pl & l & live & Hpl & Hl & Hlive).
    destruct (Inv_staged_plane a w t i live I Hq) as [I1 _].
    exists (brk w), (with_ps_state live (Some a)), (staged_plane a t i live w),
      (stage_plane_txn t i (brk w)).
    split.
    { apply (get_plane_state_miss w a t i pl l live); try done.
      apply lookup_lt_is_Some_2. by rewrite (ti_mark_len _ _ _ _ _ T). }
    split; [done|]. split.
    { simpl. apply list_lookup_insert_eq. by eapply lookup_lt_Some. }
    split; [wsimpl; apply lookup_insert_eq|].
    split; [intros j; by eapply plane_live_staged_plane|].
    intros j. unfold crtc_live. by wsimpl.
Qed.

(** ** The two passes of a commit, object by object *)

Lemma frame_same_tables (Mp Mc : nat → Prop) w0 t0 w t w' :
  frame Mp Mc w0 t0 w t → same_tables w w' → frame Mp Mc w0 t0 w' t.
Proof.
  intros F S. destruct S. destruct F.
  split; rewrite ?st_planes0, ?st_crtcs0, ?st_pmem0, ?st_cmem0; done.
Qed.

Lemma commit_plane_state_fail_log w i q rc w' :
  drm_atomic_helper_commit_plane_state i (Some q) w = Ok (rc, w') → rc ≠ 0 →
  ∃ ps c fb, pstate_mem w !! q = Some ps ∧ ps_crtc ps = Some c ∧
    ps_fb ps = Some fb ∧
    events w' = events w ++ [EvUpdatePlane i c fb (geometry ps) rc].
Proof.
  unfold drm_atomic_helper_commit_plane_state, commit_plane_out, call_update_plane,
    call_disable_plane, swap_plane_state.
  unfold_ops.
  destruct (pstate_mem w !! q) as [ps|] eqn:Hps; [|done].
  destruct (ps_crtc ps) as [c|] eqn:Hc; [destruct (ps_fb ps) as [fb|] eqn:Hfb|].
  - destruct (update_plane D (hw w) i c fb (geometry ps)) as [r h] eqn:Hup.
    destruct (decide (r = 0)) as [->|Hr].
    + wsimpl. intros E Hrc. exfalso. revert E.
      repeat (case_match; try done); intros [= <- _]; done.
    + wsimpl. intros [= <- <-] _. exists ps, c, fb. done.
  - intros E Hrc. exfalso. revert E. wsimpl.
    repeat (case_match; try done); intros [= <- _]; done.
  - intros E Hrc. exfalso. revert E. wsimpl.
    repeat (case_match; try done); intros [= <- _]; done.
Qed.

Lemma plane_done_step a w0 t0 i w :
  Inv a w0 t0 → staged a w0 t0 → (i < dev_num_plane w0)%nat →
  plane_pass_done a w0 t0 i w →
  outcome (commit_plane_body (Some a) i w)
    (λ r w',
       match r with
       | None => plane_pass_done a w0 t0 (S i) w'
       | Some rc =>
           if decide (rc = 0) then plane_pass_done a w0 t0 (S i) w'
           else plane_pass_done a w0 t0 i w' ∧
                ∃ q ps c fb, pstates t0 !! i = Some (Some q) ∧
                  pstate_mem w0 !! q = Some ps ∧ ps_crtc ps = Some c ∧
                  ps_fb ps = Some fb ∧
                  last (events w') = Some (EvUpdatePlane i c fb (geometry ps) rc)
       end) False.
Proof.
  intros I0 [Sp _] Hi (t & I & F & C).
  destruct (Inv_num_plane a w0 t0 w t _ _ I0 I F) as [Hn _].
  assert (pstates t !! i = pstates t0 !! i) as Hsl.
  { apply (fr_pstates _ _ _ _ _ _ F). intros [? _]. lia. }
  assert (dev_planes w !! i = dev_planes w0 !! i) as Hdp.
  { apply (fr_dev_planes _ _ _ _ _ _ F). intros [? _]. lia. }
  eapply outcome_weaken;
    [apply (commit_plane_body_shape a w t i I); lia | |].
  - intros [rc|] w' Hr.
    + destruct Hr as (q & pl & l & Hq & Hpl & Hl & E & Hor).
      rewrite Hsl in Hq.
      assert (planes t0 !! i ≠ Some None) as Htouch.
      { intros Hnone. apply (ti_pair _ _ _ _ _ (inv_planes _ _ _ I0)) in Hnone.
        congruence. }
      destruct (decide (rc = 0)) as [->|Hrc].
      * destruct Hor as [[? _]|[_ S]]; [done|].
        exists (swap_plane_txn t i (Some l)). split; [|split].
        -- eapply Inv_same_tables; [|exact S]. rewrite <- Hl.
           apply Inv_swapped_plane; [done| |done]. by rewrite Hsl.
        -- eapply frame_same_tables; [|exact S].
           eapply frame_trans; [exact F | apply frame_swapped_plane | | side].
           intros j [[Hj Ht]| ->]; (split; [lia | done]).
        -- intros x q' Hx Hq'. destruct S. rewrite st_planes0. wsimpl. simpl.
           destruct (decide (x = i)) as [->|Hne].
           ++ rewrite Hq in Hq'. injection Hq' as <-.
              rewrite !list_lookup_insert_eq.
              ** simpl. split; [done|]. by rewrite <- Hdp, Hpl, <- Hl.
              ** rewrite (ti_slot_len _ _ _ _ _ (inv_planes _ _ _ I)). lia.
              ** apply lookup_lt_Some in Hpl. done.
           ++ rewrite !list_lookup_insert_ne by done. apply C; [lia | done].
      * destruct Hor as [[_ S]|[? _]]; [|done]. split.
        -- exists t. split; [by eapply Inv_same_tables|].
           split; [by eapply frame_same_tables|].
           intros x q' Hx Hq'. destruct S. rewrite st_planes0. by apply C.
        -- destruct (commit_plane_state_fail_log w i q rc w' E Hrc)
             as (ps & c & fb & Hps & Hc & Hfb & Hev).
           exists q, ps, c, fb. rewrite <- (fr_pmem _ _ _ _ _ _ F).
           repeat split; try done. rewrite Hev. apply last_snoc.
    + destruct Hr as [Hnone ->]. exists t. split; [done|]. split.
      * eapply frame_mono; [exact F | | done]. intros j [? ?]. split; [lia|done].
      * intros x q' Hx Hq'. destruct (decide (x = i)) as [->|Hne].
        -- rewrite Hsl in Hnone. congruence.
        -- apply C; [lia | done].
  - intros (q & ps & Hq & Hps & Hst).
    rewrite Hsl in Hq. rewrite (fr_pmem _ _ _ _ _ _ F) in Hps.
    specialize (Sp i q ps Hq Hps). congruence.
Qed.

(** The plane loop of a commit on a transaction that was not committed
    before: where it stopped and what it left. *)
Lemma commit_plane_loop_done a w t :
  Inv a w t → staged a w t →
  ∃ rc w1 k,
    for_each (seq 0 (dev_num_plane w)) (commit_plane_body (Some a)) 0 w
    = Ok (rc, w1) ∧
    plane_pass_done a w t k w1 ∧ (k ≤ dev_num_plane w)%nat ∧
    (rc = 0 → k = dev_num_plane w) ∧
    (rc ≠ 0 → ∃ q ps c fb, pstates t !! k = Some (Some q) ∧
       pstate_mem w !! q = Some ps ∧ ps_crtc ps = Some c ∧ ps_fb ps = Some fb ∧
       last (events w1) = Some (EvUpdatePlane k c fb (geometry ps) rc)).
Proof.
  intros I S.
  destruct (outcome_ok _ _
    (for_each_seq (plane_pass_done a w t)
       (λ i rc w', plane_pass_done a w t i w' ∧
          ∃ q ps c fb, pstates t !! i = Some (Some q) ∧
            pstate_mem w !! q = Some ps ∧ ps_crtc ps = Some c ∧
            ps_fb ps = Some fb ∧
            last (events w') = Some (EvUpdatePlane i c fb (geometry ps) rc))
       False (commit_plane_body (Some a)) (dev_num_plane w) 0%nat 0 w
       (λ i w1 Hi HI, plane_done_step a w t i w1 I S (proj2 Hi) HI)
       (ex_intro _ t (conj I (conj (frame_refl _ _ w t)
          (λ i q (Hi : (i < 0)%nat) _, False_ind _ (Nat.nlt_0_r i Hi)))))))
    as (rc & w1 & E & [[HI Hrc]|(k & Hk & Hrc & HB & Hev)]).
  - exists rc, w1, (dev_num_plane w). split; [done|]. split; [done|].
    split; [done|]. split; [done|]. intros ?. by destruct Hrc.
  - exists rc, w1, k. split; [done|]. split; [done|]. split; [lia|].
    split; [done|]. intros _. exact Hev.
Qed.

(** The [for] loop with [break] again, with an invariant that sees the
    result so far. *)
Lemma for_each_seq_ret (I : nat → Z → world → Prop) (B : nat → Z → world → Prop)
    (F : Prop) (body : nat → M (option Z)) m : ∀ k ret w,
  (∀ i ret w, (k ≤ i < k + m)%nat → I i ret w →
     outcome (body i w)
       (λ r w', match r with
                | None => I (S i) ret w'
                | Some rc => if decide (rc = 0) then I (S i) 0 w' else B i rc w'
                end) F) →
  I k ret w →
  outcome (for_each (seq k m) body ret w)
    (λ rc w', I (k + m)%nat rc w' ∨
              (∃ i, (k ≤ i < k + m)%nat ∧ rc ≠ 0 ∧ B i rc w')) F.
Proof.
  induction m as [|m IH]; intros k ret w Hbody HI; simpl.
  - left. by rewrite Nat.add_0_r.
  - eapply outcome_bind; [apply (Hbody k ret w); [lia | done] |].
    intros [rc|] w1 H1; simpl in H1.
    + revert H1. destruct (decide (rc = 0)) as [->|Hrc]; intros H1.
      * eapply outcome_weaken; [apply (IH (S k) 0 w1) | |done].
        -- intros i r w2 Hi. apply Hbody. lia.
        -- done.
        -- intros rc w2 [HI2|(i & Hi & Hr)].
           ++ left. by replace (k + S m)%nat with (S k + m)%nat by lia.
           ++ right. exists i. split; [lia | done].
      * right. exists k. split; [lia | done].
    + eapply outcome_weaken; [apply (IH (S k) ret w1) | |done].
      * intros i r w2 Hi. apply Hbody. lia.
      * done.
      * intros rc w2 [HI2|(i & Hi & Hr)].
        -- left. by replace (k + S m)%nat with (S k + m)%nat by lia.
        -- right. exists i. split; [lia | done].
Qed.

Lemma crtc_done_step a w0 t0 i ret w :
  Inv a w0 t0 → staged a w0 t0 → (i < dev_num_crtc w0)%nat →
  crtc_pass_done a w0 t0 i ret w →
  outcome (commit_crtc_body (Some a) i w)
    (λ r w',
       match r with
       | None => crtc_pass_done a w0 t0 (S i) ret w'
       | Some rc =>
           if decide (rc = 0) then crtc_pass_done a w0 t0 (S i) 0 w'
           else (∃ r0, crtc_pass_done a w0 t0 i r0 w') ∧
                ∃ q, cstates t0 !! i = Some (Some q)
       end) False.
Proof.
  intros I0 [_ Sc] Hi [(t & I & F & C) Hret].
  destruct (Inv_num_plane a w0 t0 w t _ _ I0 I F) as [_ Hn].
  assert (cstates t !! i = cstates t0 !! i) as Hsl.
  { apply (fr_cstates _ _ _ _ _ _ F). intros [? _]. lia. }
  assert (dev_crtcs w !! i = dev_crtcs w0 !! i) as Hdp.
  { apply (fr_dev_crtcs _ _ _ _ _ _ F). intros [? _]. lia. }
  eapply outcome_weaken;
    [apply (commit_crtc_body_shape a w t i I); lia | |].
  - intros [rc|] w' Hr.
    + destruct Hr as (q & c & Hq & Hc & E & Hor).
      rewrite Hsl in Hq.
      assert (crtcs t0 !! i ≠ Some None) as Htouch.
      { intros Hnone. apply (ti_pair _ _ _ _ _ (inv_crtcs _ _ _ I0)) in Hnone.
        congruence. }
      destruct (decide (rc = 0)) as [->|Hrc].
      * destruct Hor as [[? _]|[_ S]]; [done|]. split; [|done].
        exists (swap_crtc_txn t i (crtc_state c)). split; [|split].
        -- eapply Inv_same_tables; [|exact S].
           apply Inv_swapped_crtc; [done| |done]. by rewrite Hsl.
        -- eapply frame_same_tables; [|exact S].
           eapply frame_trans; [exact F | apply frame_swapped_crtc | side |].
           intros j [[Hj Ht]| ->]; (split; [lia | done]).
        -- intros x q' Hx Hq'. destruct S. rewrite st_crtcs0. wsimpl. simpl.
           destruct (decide (x = i)) as [->|Hne].
           ++ rewrite Hq in Hq'. injection Hq' as <-.
              rewrite !list_lookup_insert_eq.
              ** simpl. split; [done|]. by rewrite <- Hdp, Hc.
              ** rewrite (ti_slot_len _ _ _ _ _ (inv_crtcs _ _ _ I)). lia.
              ** apply lookup_lt_Some in Hc. done.
           ++ rewrite !list_lookup_insert_ne by done. apply C; [lia | done].
      * destruct Hor as [[_ S]|[? _]]; [|done]. split; [|eauto].
        exists ret. split; [|done].
        exists t. split; [by eapply Inv_same_tables|].
        split; [by eapply frame_same_tables|].
        intros x q' Hx Hq'. destruct S. rewrite st_crtcs0. by apply C.
    + destruct Hr as [Hnone ->]. split.
      * exists t. split; [done|]. split.
        -- eapply frame_mono; [exact F | done |]. intros j [? ?]. split; [lia|done].
        -- intros x q' Hx Hq'. destruct (decide (x = i)) as [->|Hne].
           ++ rewrite Hsl in Hnone. congruence.
           ++ apply C; [lia | done].
      * intros x q' Hx Hq'. destruct (decide (x = i)) as [->|Hne].
        -- rewrite Hsl in Hnone. congruence.
        -- apply (Hret x q'); [lia | done].
  - intros (q & cs & Hq & Hcs & Hst).
    rewrite Hsl in Hq. rewrite (fr_cmem _ _ _ _ _ _ F) in Hcs.
    specialize (Sc i q cs Hq Hcs). congruence.
Qed.

(** The crtc loop of a commit, started in a world [w1] that the plane loop
    left with result [ret]. *)
Lemma commit_crtc_loop_done a w t ret w1 :
  Inv a w t → staged a w t → crtc_pass a w t 0 w1 →
  ∃ rc w2,
    for_each (seq 0 (dev_num_crtc w)) (commit_crtc_body (Some a)) ret w1
    = Ok (rc, w2) ∧
    (crtc_pass_done a w t (dev_num_crtc w) rc w2 ∨
     ∃ k r0 q, (k < dev_num_crtc w)%nat ∧ rc ≠ 0 ∧
       crtc_pass_done a w t k r0 w2 ∧ cstates t !! k = Some (Some q)).
Proof.
  intros I S (t1 & I1 & F1).
  destruct (outcome_ok _ _
    (for_each_seq_ret (crtc_pass_done a w t)
       (λ i rc w', (∃ r0, crtc_pass_done a w t i r0 w') ∧
                   ∃ q, cstates t !! i = Some (Some q))
       False (commit_crtc_body (Some a)) (dev_num_crtc w) 0%nat ret w1
       (λ i r w2 Hi HI, crtc_done_step a w t i r w2 I S (proj2 Hi) HI)
       (conj (ex_intro _ t1 (conj I1 (conj F1
                (λ i q (Hi : (i < 0)%nat) _, False_ind _ (Nat.nlt_0_r i Hi)))))
             (λ i q (Hi : (i < 0)%nat) _, False_ind _ (Nat.nlt_0_r i Hi)))))
    as (rc & w2 & E & [HI|(k & Hk & Hrc & [r0 HB] & q & Hq)]).
  - exists rc, w2. split; [done|]. by left.
  - exists rc, w2. split; [done|]. right. exists k, r0, q.
    split; [lia|]. done.
Qed.

Lemma reachable_at a b w t :
  reachable a b w → helper_mem w !! a = Some t →
  Inv a w t ∧ owned a w t ∧ (b = false → staged a w t ∧ live_clean w).
Proof.
  intros R Ht. destruct (reachable_owned a b w R) as (t' & I & O & L).
  pose proof (inv_txn _ _ _ I) as Ht'. rewrite Ht in Ht'.
  injection Ht' as ->. done.
Qed.

End More.

(** * Further properties of the helpers *)

Section Properties.
Context {D : drm_driver}.
Implicit Types (w : @world D) (t : drm_atomic_helper_state).

(** X1: [drm_atomic_helper_end] returns on every state of a transaction
    that [begin], staging, [set_event], edits of staged blocks, [check] and
    [commit] can bring about, committed or not.  The device it leaves is
    between transactions again: every plane and crtc has an allocated live
    block of its own and no state block points to a transaction.  The
    transaction is freed, and of the state blocks exactly those left in
    its slots are freed.  No state pointer of the device changed, no image
    reference count changed and the driver was not called. *)
Theorem end_leaves_device_quiescent a b w :
  reachable a b w →
  ∃ w', drm_atomic_helper_end (Some a) w = Ok (tt, w') ∧
    quiescent w' ∧ helper_mem w' = delete a (helper_mem w) ∧
    dev_planes w' = dev_planes w ∧ dev_crtcs w' = dev_crtcs w ∧
    fb_refcount w' = fb_refcount w ∧ hw w' = hw w ∧ events w' = events w ∧
    ∀ t, helper_mem w !! a = Some t →
      (∀ x, is_Some (pstate_mem w' !! x) ↔
            is_Some (pstate_mem w !! x) ∧ ∀ i, pstates t !! i ≠ Some (Some x)) ∧
      (∀ x, is_Some (cstate_mem w' !! x) ↔
            is_Some (cstate_mem w !! x) ∧ ∀ i, cstates t !! i ≠ Some (Some x)).
Proof.
  intros R. destruct (reachable_owned a b w R) as (t & I & O & _).
  destruct (end_clears a w t I O) as (w2 & E & EP & Q & Cp & Cc).
  pose proof (inv_planes _ _ _ I) as Tp. pose proof (inv_crtcs _ _ _ I) as Tc.
  exists (set_helper_mem (delete a) w2). split; [done|].
  destruct Q as [Qr Qh Qe Qb Qs].
  split; [|wsimpl; split; [by rewrite (ep_helper _ _ _ EP)|];
           split; [apply EP|]; split; [apply EP|];
           split; [done|]; split; [done|]; split; [done|];
           intros t0 Ht0;
           assert (t0 = t) as -> by (pose proof (inv_txn _ _ _ I); congruence);
           split; intros x; split].
  - split; unfold valid_pstate, valid_cstate; wsimpl.
    + rewrite (ep_planes _ _ _ EP), (ep_nplane _ _ _ EP).
      rewrite <- (ti_live_len _ _ _ _ _ Tp). by rewrite length_fmap.
    + rewrite (ep_crtcs _ _ _ EP), (ep_ncrtc _ _ _ EP).
      rewrite <- (ti_live_len _ _ _ _ _ Tc). by rewrite length_fmap.
    + rewrite (ep_planes _ _ _ EP). intros i pl Hpl.
      destruct (ti_live_valid _ _ _ _ _ Tp i (plane_state pl)) as (l & Hl & _).
      { by rewrite list_lookup_fmap, Hpl. }
      exists l. split; [done|]. by apply (ep_plive _ _ _ EP i pl l).
    + rewrite (ep_crtcs _ _ _ EP). intros i c Hc.
      destruct (ti_live_valid _ _ _ _ _ Tc i (crtc_state c)) as (l & Hl & _).
      { by rewrite list_lookup_fmap, Hc. }
      exists l. split; [done|]. by apply (ep_clive _ _ _ EP i c l).
    + rewrite (ep_planes _ _ _ EP). intros i j pi pj q Hi Hj Hqi Hqj.
      apply (ti_sep_ll _ _ _ _ _ Tp i j q).
      * by rewrite list_lookup_fmap, Hi, <- Hqi.
      * by rewrite list_lookup_fmap, Hj, <- Hqj.
    + rewrite (ep_crtcs _ _ _ EP). intros i j ci cj q Hi Hj Hqi Hqj.
      apply (ti_sep_ll _ _ _ _ _ Tc i j q).
      * by rewrite list_lookup_fmap, Hi, <- Hqi.
      * by rewrite list_lookup_fmap, Hj, <- Hqj.
    + intros q ps Hq. destruct (ps_state ps) as [x|] eqn:Hst; [|done].
      destruct (cl_back _ _ _ _ _ _ _ Cp q ps Hq) as (i & s & Hi & Hs & _).
      { by rewrite Hst. }
      apply lookup_lt_Some in Hs. rewrite (ti_slot_len _ _ _ _ _ Tp) in Hs. lia.
    + intros q cs Hq. destruct (cs_state cs) as [x|] eqn:Hst; [|done].
      destruct (cl_back _ _ _ _ _ _ _ Cc q cs Hq) as (i & s & Hi & Hs & _).
      { by rewrite Hst. }
      apply lookup_lt_Some in Hs. rewrite (ti_slot_len _ _ _ _ _ Tc) in Hs. lia.
    + intros q [ps Hq]. rewrite Qb.
      destruct (cl_from _ _ _ _ _ _ _ Cp q ps Hq) as (s0 & Hs0 & _).
      apply (inv_pbrk _ _ _ I). by exists s0.
    + intros q [cs Hq]. rewrite Qb.
      destruct (cl_from _ _ _ _ _ _ _ Cc q cs Hq) as (s0 & Hs0 & _).
      apply (inv_cbrk _ _ _ I). by exists s0.
  - intros [ps Hx]. split.
    + destruct (cl_from _ _ _ _ _ _ _ Cp x ps Hx) as (s0 & Hs0 & _). eauto.
    + intros i Hi.
      rewrite (cl_freed _ _ _ _ _ _ _ Cp i x) in Hx; [done| |done].
      rewrite <- (ti_slot_len _ _ _ _ _ Tp). by eapply lookup_lt_Some.
  - intros [Hx Hno]. apply (cl_kept _ _ _ _ _ _ _ Cp x Hx). auto.
  - intros [cs Hx]. split.
    + destruct (cl_from _ _ _ _ _ _ _ Cc x cs Hx) as (s0 & Hs0 & _). eauto.
    + intros i Hi.
      rewrite (cl_freed _ _ _ _ _ _ _ Cc i x) in Hx; [done| |done].
      rewrite <- (ti_slot_len _ _ _ _ _ Tc). by eapply lookup_lt_Some.
  - intros [Hx Hno]. apply (cl_kept _ _ _ _ _ _ _ Cc x Hx). auto.
Qed.

(** X2: ending a transaction on which no commit ran gives it up without a
    trace on the device: [drm_atomic_helper_end] returns, and the live
    state of every plane and crtc, staged or not, state pointer and
    contents of the state block, is what it was. *)
Theorem end_without_commit_keeps_live_states a w :
  reachable a false w →
  ∃ w', drm_atomic_helper_end (Some a) w = Ok (tt, w') ∧
    ∀ i, plane_live w' i = plane_live w i ∧ crtc_live w' i = crtc_live w i.
Proof.
  intros R. destruct (reachable_owned a false w R) as (t & I & O & L).
  destruct (L eq_refl) as [_ [Lp Lc]].
  destruct (end_clears a w t I O) as (w2 & E & EP & Q & Cp & Cc).
  exists (set_helper_mem (delete a) w2). split; [done|].
  intros i. split.
  - unfold plane_live. wsimpl. rewrite (ep_planes _ _ _ EP).
    destruct (dev_planes w !! i) as [pl|] eqn:Hpl; [|done]. simpl.
    destruct (plane_state pl) as [l|] eqn:Hl; [|done]. simpl.
    destruct (ep_plive _ _ _ EP i pl l Hpl Hl) as [ps Hps].
    destruct (cl_from _ _ _ _ _ _ _ Cp l ps Hps) as (s0 & Hs0 & Hor).
    rewrite Hps, Hs0. simpl. do 2 f_equal.
    destruct Hor as [->| ->]; [done|].
    assert (ps_state s0 = None) as Hn.
    { apply (Lp i pl s0). unfold plane_live. rewrite Hpl. simpl. rewrite Hl.
      simpl. by rewrite Hs0. }
    destruct s0. simpl in Hn. by rewrite Hn.
  - unfold crtc_live. wsimpl. rewrite (ep_crtcs _ _ _ EP).
    destruct (dev_crtcs w !! i) as [c|] eqn:Hc; [|done]. simpl.
    destruct (crtc_state c) as [l|] eqn:Hl; [|done]. simpl.
    destruct (ep_clive _ _ _ EP i c l Hc Hl) as [cs Hcs].
    destruct (cl_from _ _ _ _ _ _ _ Cc l cs Hcs) as (s0 & Hs0 & Hor).
    rewrite Hcs, Hs0. simpl. do 2 f_equal.
    destruct Hor as [->| ->]; [done|].
    assert (cs_state s0 = None) as Hn.
    { apply (Lc i c s0). unfold crtc_live. rewrite Hc. simpl. rewrite Hl.
      simpl. by rewrite Hs0. }
    destruct s0. simpl in Hn. by rewrite Hn.
Qed.

(** X3: staging never answers [NULL].  When [drm_atomic_helper_get_plane_state]
    or [drm_atomic_helper_get_crtc_state] returns, the pointer it returns
    leads to an allocated block.  When the object is not staged yet and the
    allocation of the shadow block fails, the result of [kzalloc] is used
    unchecked: the snapshot is stored through the [NULL] pointer, and
    [drm_atomic_helper_set_event], which stages the crtc first, faults the
    same way. *)
Theorem staging_never_returns_null a b w i :
  reachable a b w →
  (∀ p w', drm_atomic_helper_get_plane_state i (Some a) w = Ok (p, w') →
     ∃ q, p = Some q ∧ is_Some (pstate_mem w' !! q)) ∧
  (∀ p w', drm_atomic_helper_get_crtc_state i (Some a) w = Ok (p, w') →
     ∃ q, p = Some q ∧ is_Some (cstate_mem w' !! q)) ∧
  (∀ t s, helper_mem w !! a = Some t → kmalloc_script w = false :: s →
     (pstates t !! i = Some None →
        drm_atomic_helper_get_plane_state i (Some a) w = Oops NullDeref) ∧
     (cstates t !! i = Some None →
        drm_atomic_helper_get_crtc_state i (Some a) w = Oops NullDeref ∧
        ∀ ev, drm_atomic_helper_set_event (Some a) (ObjCrtc i) ev w
              = Oops NullDeref)).
Proof.
  intros R. destruct (reachable_Inv a b w R) as (t & I & _).
  pose proof (inv_txn _ _ _ I) as Ht.
  split; [|split].
  - intros p w' E.
    destruct (get_plane_state_cases a w t i p w' I E)
      as [(q & Hq & -> & ->)|(pl & l & live & Hq & Hpl & Hl & Hlive & Hk & -> & ->)].
    + exists q. split; [done|].
      exact (ti_slot_valid _ _ _ _ _ (inv_planes _ _ _ I) i q Hq).
    + exists (brk w). split; [done|]. wsimpl. rewrite lookup_insert_eq. eauto.
  - intros p w' E.
    destruct (get_crtc_state_cases a w t i p w' I E)
      as [(q & Hq & -> & ->)|(c & l & live & Hq & Hc & Hl & Hlive & Hk & -> & ->)].
    + exists q. split; [done|].
      exact (ti_slot_valid _ _ _ _ _ (inv_crtcs _ _ _ I) i q Hq).
    + exists (brk w). split; [done|]. wsimpl. rewrite lookup_insert_eq. eauto.
  - intros t' s Ht' Hs. assert (t' = t) as -> by congruence. split.
    + intros Hq.
      assert (i < dev_num_plane w)%nat as Hi.
      { rewrite <- (ti_slot_len _ _ _ _ _ (inv_planes _ _ _ I)).
        by eapply lookup_lt_Some. }
      destruct (Inv_live_plane a w t i I Hi) as (pl & l & live & Hpl & Hl & Hlive).
      by apply (get_plane_state_oom w a t i pl l live s).
    + intros Hq.
      assert (i < dev_num_crtc w)%nat as Hi.
      { rewrite <- (ti_slot_len _ _ _ _ _ (inv_crtcs _ _ _ I)).
        by eapply lookup_lt_Some. }
      destruct (Inv_live_crtc a w t i I Hi) as (c & l & live & Hc & Hl & Hlive).
      pose proof (get_crtc_state_oom w a t i c l live s Ht Hq Hc Hl Hlive Hs) as E.
      split; [done|]. intros ev. simpl. unfold mbind at 1, M_bind at 1.
      by rewrite E.
Qed.

(** X4: [drm_atomic_helper_set_event] on a crtc stages the crtc and stores
    the event in the staged block, nowhere else: it returns 0, the world is
    the one staging left with the event field of that block set, and the
    live state of every plane and crtc is what it was.  A second call
    overwrites the event of the same block.  On a plane or any other kind
    of object it returns -EINVAL and does nothing. *)
Theorem set_event_stores_event_in_shadow a b w i ev :
  reachable a b w → (i < dev_num_crtc w)%nat →
  head (kmalloc_script w) ≠ Some false →
  ∃ q cs0 w1,
    drm_atomic_helper_get_crtc_state i (Some a) w = Ok (Some q, w1) ∧
    cstate_mem w1 !! q = Some cs0 ∧
    drm_atomic_helper_set_event (Some a) (ObjCrtc i) ev w
    = Ok (0, set_cstate_mem (<[q := with_cs_event cs0 ev]>) w1) ∧
    (∀ j, crtc_live (set_cstate_mem (<[q := with_cs_event cs0 ev]>) w1) j
          = crtc_live w j) ∧
    (∀ j, plane_live (set_cstate_mem (<[q := with_cs_event cs0 ev]>) w1) j
          = plane_live w j) ∧
    (∀ ev', drm_atomic_helper_set_event (Some a) (ObjCrtc i) ev'
              (set_cstate_mem (<[q := with_cs_event cs0 ev]>) w1)
            = Ok (0, set_cstate_mem (<[q := with_cs_event cs0 ev']>) w1)) ∧
    (∀ p, drm_atomic_helper_set_event (Some a) (ObjPlane p) ev w
          = Ok (- EINVAL, w)) ∧
    drm_atomic_helper_set_event (Some a) ObjOther ev w = Ok (- EINVAL, w).
Proof.
  intros R Hi Hk. destruct (reachable_Inv a b w R) as (t & I & _).
  destruct (get_crtc_state_total a w t i I Hi Hk)
    as (q & cs0 & w1 & t1 & E & I1 & Hq & Hcs & Lc & Lp).
  exists q, cs0, w1. split; [done|]. split; [done|].
  split; [|split; [|split; [|split; [|split; [done|done]]]]].
  - simpl. unfold mbind at 1, M_bind at 1. rewrite E. unfold_ops. by run.
  - intros j. by rewrite (crtc_live_store_slot a w1 t1 i q _ j I1 Hq).
  - intros j. unfold plane_live. wsimpl. apply Lp.
  - intros ev'. simpl. unfold mbind at 1, M_bind at 1.
    rewrite (get_crtc_state_hit _ a t1 i q); [|wsimpl; apply I1|done].
    unfold_ops. wsimpl. rewrite lookup_insert_eq.
    unfold set_cstate_mem. wsimpl. by rewrite insert_insert_eq.
Qed.

(** X5: a transaction on which nothing is staged does nothing.  On a
    device between transactions whose next allocation succeeds,
    [drm_atomic_helper_begin] returns a transaction; on it
    [drm_atomic_helper_check] and [drm_atomic_helper_commit] return 0 and
    leave the world exactly as it is, without a call to the driver, and
    [drm_atomic_helper_end] frees the transaction: the world after it is
    the one before [begin] but for the allocator's counter. *)
Theorem empty_transaction_round_trip fl w0 :
  quiescent w0 → head (kmalloc_script w0) ≠ Some false →
  drm_atomic_helper_begin fl w0 = Ok (Some (brk w0), begun fl w0) ∧
  drm_atomic_helper_check (Some (brk w0)) (begun fl w0) = Ok (0, begun fl w0) ∧
  drm_atomic_helper_commit (Some (brk w0)) (begun fl w0) = Ok (0, begun fl w0) ∧
  drm_atomic_helper_end (Some (brk w0)) (begun fl w0)
  = Ok (tt, set_helper_mem (delete (brk w0)) (allocated w0)).
Proof.
  intros Q Hk.
  assert (helper_mem (begun fl w0) !! brk w0 = Some (fresh_helper_state fl w0))
    as Ht by (wsimpl; apply lookup_insert_eq).
  split; [by apply begin_ok|]. split; [|split].
  - unfold drm_atomic_helper_check. unfold mbind at 1, M_bind at 1.
    unfold gets at 1. apply for_each_idle. intros i Hi.
    apply (check_body_untouched _ _ _ _ Ht). simpl.
    apply lookup_replicate_2. wsimpl. lia.
  - unfold drm_atomic_helper_commit.
    unfold mbind at 1, M_bind at 1. unfold gets at 1.
    unfold mbind at 1, M_bind at 1. unfold gets at 1.
    unfold mbind at 1, M_bind at 1.
    rewrite for_each_idle.
    + apply for_each_idle. intros i Hi.
      apply (commit_crtc_body_untouched _ _ _ _ Ht). simpl.
      apply lookup_replicate_2. wsimpl. lia.
    + intros i Hi. apply (commit_plane_body_untouched _ _ _ _ Ht). simpl.
      apply lookup_replicate_2. wsimpl. lia.
  - unfold drm_atomic_helper_end.
    unfold mbind at 1, M_bind at 1. unfold gets at 1.
    unfold mbind at 1, M_bind at 1. unfold gets at 1.
    unfold mbind at 1, M_bind at 1.
    rewrite for_all_idle.
    + unfold mbind at 1, M_bind at 1. rewrite for_all_idle.
      * unfold modify, begun, set_helper_mem. wsimpl. by rewrite delete_insert_eq.
      * intros i Hi. apply (end_crtc_body_untouched _ _ _ _ Ht). simpl.
        apply lookup_replicate_2. wsimpl. lia.
    + intros i Hi. apply (end_plane_body_untouched _ _ _ _ Ht). simpl.
      apply lookup_replicate_2. wsimpl. lia.
Qed.

(** X6: a commit of planes only stops at the first plane that fails.  On a
    transaction that was not committed before and stages no crtc,
    [drm_atomic_helper_commit] returns; there is an index [k] such that
    every staged plane below [k] has been swapped (its state pointer is the
    staged block, the slot holds the block that was live) and every plane
    from [k] on has the pointer and the slot it had.  When the result is 0,
    [k] is the number of planes.  When it is not, plane [k] is staged with
    a crtc and an image, the last call made is [update_plane] on it, and
    the result is the code of that call; the planes swapped before it stay
    swapped.  No crtc has changed. *)
Theorem commit_of_planes_stops_at_first_failure a w t :
  reachable a false w → helper_mem w !! a = Some t →
  (∀ i q, cstates t !! i ≠ Some (Some q)) →
  ∃ rc w' t' k,
    drm_atomic_helper_commit (Some a) w = Ok (rc, w') ∧
    helper_mem w' !! a = Some t' ∧ (k ≤ dev_num_plane w)%nat ∧
    (∀ i q, (i < k)%nat → pstates t !! i = Some (Some q) →
       plane_state <$> dev_planes w' !! i = Some (Some q) ∧
       pstates t' !! i = plane_state <$> dev_planes w !! i) ∧
    (∀ i, (k ≤ i)%nat →
       dev_planes w' !! i = dev_planes w !! i ∧ pstates t' !! i = pstates t !! i) ∧
    (∀ i, dev_crtcs w' !! i = dev_crtcs w !! i) ∧
    (rc = 0 → k = dev_num_plane w) ∧
    (rc ≠ 0 → ∃ q ps c fb,
       pstates t !! k = Some (Some q) ∧ pstate_mem w !! q = Some ps ∧
       ps_crtc ps = Some c ∧ ps_fb ps = Some fb ∧
       last (events w') = Some (EvUpdatePlane k c fb (geometry ps) rc)).
Proof.
  intros R Ht Hno. destruct (reachable_at a false w t R Ht) as (I & _ & L).
  destruct (L eq_refl) as [S _].
  destruct (commit_plane_loop_done a w t I S)
    as (rc & w1 & k & E & (t1 & I1 & F1 & C1) & Hk & Hz & Hnz).
  exists rc, w1, t1, k. split.
  { unfold drm_atomic_helper_commit.
    unfold mbind at 1, M_bind at 1. unfold gets at 1.
    unfold mbind at 1, M_bind at 1. unfold gets at 1.
    unfold mbind at 1, M_bind at 1. rewrite E.
    apply for_each_idle. intros i Hi.
    apply (commit_crtc_body_untouched a w1 t1 i (inv_txn _ _ _ I1)).
    rewrite (fr_crtcs _ _ _ _ _ _ F1).
    apply (ti_pair _ _ _ _ _ (inv_crtcs _ _ _ I)).
    destruct (lookup_lt_is_Some_2 (cstates t) i) as [[q|] Hq]; [|by destruct (Hno i q)|done].
    rewrite (ti_slot_len _ _ _ _ _ (inv_crtcs _ _ _ I)). lia. }
  split; [apply I1|]. split; [done|]. split; [exact C1|].
  split; [|split; [|done]].
  - intros i Hi. split.
    + apply (fr_dev_planes _ _ _ _ _ _ F1). intros [? _]. lia.
    + apply (fr_pstates _ _ _ _ _ _ F1). intros [? _]. lia.
  - intros i. apply (fr_dev_crtcs _ _ _ _ _ _ F1). tauto.
Qed.

(** X7: when a crtc is staged, the result of a commit is that of the crtc
    pass alone.  On a transaction that was not committed before and stages
    at least one crtc, [drm_atomic_helper_commit] returns, and it returns 0
    exactly when every staged crtc has been swapped, whatever the commits
    of the staged planes returned.  When the result is not 0, there is a
    staged crtc [k] whose commit failed: it and the crtcs after it have the
    state pointer they had, the staged crtcs before it are swapped. *)
Theorem commit_result_is_that_of_the_crtc_pass a w t :
  reachable a false w → helper_mem w !! a = Some t →
  (∃ c q, cstates t !! c = Some (Some q)) →
  ∃ rc w' t',
    drm_atomic_helper_commit (Some a) w = Ok (rc, w') ∧
    helper_mem w' !! a = Some t' ∧
    (rc = 0 ↔ ∀ i q, cstates t !! i = Some (Some q) →
                crtc_state <$> dev_crtcs w' !! i = Some (Some q)) ∧
    (rc ≠ 0 → ∃ k q, cstates t !! k = Some (Some q) ∧
       (∀ i, (k ≤ i)%nat → dev_crtcs w' !! i = dev_crtcs w !! i ∧
                           cstates t' !! i = cstates t !! i) ∧
       (∀ i q', (i < k)%nat → cstates t !! i = Some (Some q') →
          crtc_state <$> dev_crtcs w' !! i = Some (Some q') ∧
          cstates t' !! i = crtc_state <$> dev_crtcs w !! i)).
Proof.
  intros R Ht (c0 & q0 & Hq0).
  destruct (reachable_at a false w t R Ht) as (I & _ & L).
  destruct (L eq_refl) as [S _].
  assert (c0 < dev_num_crtc w)%nat as Hc0.
  { rewrite <- (ti_slot_len _ _ _ _ _ (inv_crtcs _ _ _ I)).
    by eapply lookup_lt_Some. }
  destruct (outcome_ok _ _
    (outcome_weaken _ _ _ _ False (commit_plane_loop_outcome a w t I)
       (λ _ _ H, H) (λ H, H S))) as (ret & w1 & E1 & P1).
  destruct (commit_crtc_loop_done a w t ret w1 I S P1) as (rc & w2 & E2 & Hor).
  assert (drm_atomic_helper_commit (Some a) w = Ok (rc, w2)) as E.
  { unfold drm_atomic_helper_commit.
    unfold mbind at 1, M_bind at 1. unfold gets at 1.
    unfold mbind at 1, M_bind at 1. unfold gets at 1.
    unfold mbind at 1, M_bind at 1. by rewrite E1. }
  assert (∀ k t2 q,
            frame (λ x, planes t !! x ≠ Some None)
                  (λ x, (x < k)%nat ∧ crtcs t !! x ≠ Some None) w t w2 t2 →
            cstates t !! k = Some (Some q) →
            crtc_state <$> dev_crtcs w2 !! k ≠ Some (Some q)) as Hkeep.
  { intros k t2 q F2 Hq.
    rewrite (fr_dev_crtcs _ _ _ _ _ _ F2) by (intros [? _]; lia).
    intros Hlive.
    apply (ti_sep_ls _ _ _ _ _ (inv_crtcs _ _ _ I) k k q); [|done].
    by rewrite list_lookup_fmap. }
  destruct Hor as [[(t2 & I2 & F2 & C2) Hret]
                  |(k & r0 & q & Hk & Hrc & [(t2 & I2 & F2 & C2) _] & Hq)].
  - assert (rc = 0) as -> by (by eapply (Hret c0 q0)).
    exists 0, w2, t2. split; [done|]. split; [apply I2|]. split; [|done].
    split; [|done]. intros _ i q Hq. apply (C2 i q); [|done].
    rewrite <- (ti_slot_len _ _ _ _ _ (inv_crtcs _ _ _ I)).
    by eapply lookup_lt_Some.
  - exists rc, w2, t2. split; [done|]. split; [apply I2|]. split.
    + split; [done|]. intros Hall. destruct (Hkeep k t2 q F2 Hq).
      by apply Hall.
    + intros _. exists k, q. split; [done|]. split; [|exact C2].
      intros i Hi. split.
      * apply (fr_dev_crtcs _ _ _ _ _ _ F2). intros [? _]. lia.
      * apply (fr_cstates _ _ _ _ _ _ F2). intros [? _]. lia.
Qed.

(** X8: the commit of one object never does half of its work.  In every
    state of a transaction on which no commit has run yet,
    [drm_atomic_helper_commit_plane_state] on the block in a plane's slot
    returns.  When it returns 0, the plane's state pointer is that block
    and the slot holds the pointer that was live; when it returns anything
    else, the device tables and the transaction are what they were.  Either
    way no state block and no other object has changed.  The same holds of
    [drm_atomic_helper_commit_crtc_state]. *)
Theorem object_commit_swaps_or_leaves_alone a w t i q :
  reachable a false w → helper_mem w !! a = Some t →
  (pstates t !! i = Some (Some q) →
   ∃ rc w', drm_atomic_helper_commit_plane_state i (Some q) w = Ok (rc, w') ∧
     pstate_mem w' = pstate_mem w ∧ cstate_mem w' = cstate_mem w ∧
     dev_crtcs w' = dev_crtcs w ∧
     (rc = 0 →
        plane_state <$> dev_planes w' !! i = Some (Some q) ∧
        (∃ t', helper_mem w' !! a = Some t' ∧
               pstates t' !! i = plane_state <$> dev_planes w !! i) ∧
        ∀ j, j ≠ i → dev_planes w' !! j = dev_planes w !! j) ∧
     (rc ≠ 0 → dev_planes w' = dev_planes w ∧ helper_mem w' = helper_mem w)) ∧
  (cstates t !! i = Some (Some q) →
   ∃ rc w', drm_atomic_helper_commit_crtc_state i (Some q) w = Ok (rc, w') ∧
     pstate_mem w' = pstate_mem w ∧ cstate_mem w' = cstate_mem w ∧
     dev_planes w' = dev_planes w ∧
     (rc = 0 →
        crtc_state <$> dev_crtcs w' !! i = Some (Some q) ∧
        (∃ t', helper_mem w' !! a = Some t' ∧
               cstates t' !! i = crtc_state <$> dev_crtcs w !! i) ∧
        ∀ j, j ≠ i → dev_crtcs w' !! j = dev_crtcs w !! j) ∧
     (rc ≠ 0 → dev_crtcs w' = dev_crtcs w ∧ helper_mem w' = helper_mem w)).
Proof.
  intros R Ht. destruct (reachable_at a false w t R Ht) as (I & _ & L).
  destruct (L eq_refl) as [[Sp Sc] _]. split.
  - intros Hq.
    assert (i < dev_num_plane w)%nat as Hi.
    { rewrite <- (ti_slot_len _ _ _ _ _ (inv_planes _ _ _ I)).
      by eapply lookup_lt_Some. }
    destruct (Inv_live_plane a w t i I Hi) as (pl & l & live & Hpl & Hl & _).
    pose proof (commit_plane_state_shape a w t i q pl l I Hq Hpl Hl) as Hs.
    pose proof (commit_plane_state_outcome a w t i q I Hq) as Ho.
    destruct (drm_atomic_helper_commit_plane_state i (Some q) w)
      as [[rc w']|e] eqn:E; simpl in Hs, Ho.
    2:{ destruct Ho as (ps & Hps & Hst). specialize (Sp i q ps Hq Hps).
        congruence. }
    exists rc, w'. split; [done|].
    assert (i < length (dev_planes w))%nat by (by eapply lookup_lt_Some).
    assert (i < length (pstates t))%nat by (by eapply lookup_lt_Some).
    destruct Hs as [[Hrc S]|[-> S]]; destruct S; wsimpl.
    + split; [done|]. split; [done|]. split; [done|]. split; [done|]. done.
    + split; [done|]. split; [done|]. split; [done|]. split; [|done].
      intros _. rewrite st_planes0, st_helper0. split; [|split].
      * by rewrite list_lookup_insert_eq.
      * exists (swap_plane_txn t i (Some l)). rewrite lookup_insert_eq.
        split; [done|]. simpl. rewrite list_lookup_insert_eq by done.
        by rewrite Hpl, <- Hl.
      * intros j Hj. by rewrite list_lookup_insert_ne.
  - intros Hq.
    assert (i < dev_num_crtc w)%nat as Hi.
    { rewrite <- (ti_slot_len _ _ _ _ _ (inv_crtcs _ _ _ I)).
      by eapply lookup_lt_Some. }
    destruct (Inv_live_crtc a w t i I Hi) as (c & l & live & Hc & Hl & _).
    pose proof (commit_crtc_state_shape a w t i q c I Hq Hc) as Hs.
    pose proof (commit_crtc_state_outcome a w t i q I Hq) as Ho.
    destruct (drm_atomic_helper_commit_crtc_state i (Some q) w)
      as [[rc w']|e] eqn:E; simpl in Hs, Ho.
    2:{ destruct Ho as (cs & Hcs & Hst). specialize (Sc i q cs Hq Hcs).
        congruence. }
    exists rc, w'. split; [done|].
    assert (i < length (dev_crtcs w))%nat by (by eapply lookup_lt_Some).
    assert (i < length (cstates t))%nat by (by eapply lookup_lt_Some).
    destruct Hs as [[Hrc S]|[-> S]]; destruct S; wsimpl.
    + split; [done|]. split; [done|]. split; [done|]. split; [done|]. done.
    + split; [done|]. split; [done|]. split; [done|]. split; [|done].
      intros _. rewrite st_crtcs0, st_helper0. split; [|split].
      * by rewrite list_lookup_insert_eq.
      * exists (swap_crtc_txn t i (crtc_state c)). rewrite lookup_insert_eq.
        split; [done|]. simpl. rewrite list_lookup_insert_eq by done.
        by rewrite Hc.
      * intros j Hj. by rewrite list_lookup_insert_ne.
Qed.

(** X9: turning a plane off cannot fail.  When the staged block of a plane
    names no crtc or no image, [drm_atomic_helper_commit_plane_state] calls
    [disable_plane] and does not look at its code: whatever the driver
    answers, the commit returns 0, swaps the staged block in (the slot then
    holds the block that was live), leaves the blocks as they are and drops
    one reference of the staged image and one of the image that was live,
    when they are set. *)
Theorem plane_disable_ignores_driver_code w a t i q ps rc h pl l live :
  pstate_mem w !! q = Some ps → ps_crtc ps = None ∨ ps_fb ps = None →
  disable_plane D (hw w) i = (rc, h) →
  dev_planes w !! i = Some pl → plane_state pl = Some l →
  pstate_mem w !! l = Some live →
  ps_state ps = Some a → helper_mem w !! a = Some t →
  pstates t !! i = Some (Some q) →
  ∃ w' t', drm_atomic_helper_commit_plane_state i (Some q) w = Ok (0, w') ∧
    events w' = events w ++ [EvDisablePlane i rc] ∧ hw w' = h ∧
    plane_live w' i = Some (mk_plane (Some q) (Some q), ps) ∧
    helper_mem w' !! a = Some t' ∧ pstates t' !! i = Some (Some l) ∧
    pstate_mem w' = pstate_mem w ∧
    fb_refcount w'
    = fb_refcount (unreferenced (ps_fb live) (unreferenced (ps_fb ps) w)).
Proof.
  intros Hps Hc Hdis Hpl Hl Hlive Hst Ht Hq.
  assert (i < length (dev_planes w))%nat as Hi by (by eapply lookup_lt_Some).
  assert (i < length (pstates t))%nat as Hi' by (by eapply lookup_lt_Some).
  exists (unreferenced (ps_fb live) (unreferenced (ps_fb ps)
            (swapped_plane a t i (Some l) (Some q)
               (set_hw h (EvDisablePlane i rc) w)))),
         (swap_plane_txn t i (Some l)).
  split.
  { by apply (commit_plane_disable w a t i q ps rc h pl l live (Some q)). }
  destruct (ps_fb live), (ps_fb ps); unfold unreferenced; wsimpl;
    (split_and!; try done;
     [unfold plane_live; wsimpl; rewrite list_lookup_insert_eq by done;
      simpl; by rewrite Hps
     |apply lookup_insert_eq
     |simpl; by apply list_lookup_insert_eq]).
Qed.

(** X10: when [update_plane] refuses the staged state of a plane, the
    commit returns the driver's code and swaps nothing: the device tables,
    the transaction, the state blocks and so the live state of every plane
    are what they were.  It drops exactly one reference, that of the staged
    image; if staging had taken that reference, every count is back to
    what it was before. *)
Theorem failed_plane_update_releases_new_image w i q ps c fb rc h :
  pstate_mem w !! q = Some ps → ps_crtc ps = Some c → ps_fb ps = Some fb →
  update_plane D (hw w) i c fb (geometry ps) = (rc, h) → rc ≠ 0 →
  ∃ w', drm_atomic_helper_commit_plane_state i (Some q) w = Ok (rc, w') ∧
    dev_planes w' = dev_planes w ∧ helper_mem w' = helper_mem w ∧
    pstate_mem w' = pstate_mem w ∧
    (∀ j, plane_live w' j = plane_live w j) ∧
    events w' = events w ++ [EvUpdatePlane i c fb (geometry ps) rc] ∧
    fb_refcount w' = alter Z.pred fb (fb_refcount w) ∧
    (∀ refs, fb_refcount w = alter Z.succ fb refs → fb_refcount w' = refs).
Proof.
  intros Hps Hc Hfb Hup Hrc. eexists. split.
  { by apply (commit_plane_update_fail w i q ps c fb rc h). }
  unfold unreferenced. wsimpl. split_and!; try done.
  intros refs ->. apply map_eq. intros f. rewrite !lookup_alter.
  destruct (decide (fb = f)) as [<-|Hf]; [|done].
  rewrite decide_True by done.
  destruct (refs !! fb); simpl; [f_equal; lia | done].
Qed.

(** X11: a page flip that the driver accepts.  [page_flip] is called with
    the staged image, the event stored in the staged block and the flags
    of the transaction; the commit returns 0, the crtc's state pointer
    becomes the staged block and the slot holds the block that was live;
    the one reference dropped is that of the image the driver had bound to
    the crtc, whatever image the state that was live names. *)
Theorem page_flip_swaps_and_releases_bound_image
    w a t i q cs c l live fb bound h :
  cstate_mem w !! q = Some cs → cs_set_config cs = false →
  dev_crtcs w !! i = Some c → crtc_state c = Some l →
  cstate_mem w !! l = Some live →
  cs_fb cs = Some fb → cs_fb live ≠ Some fb →
  crtc_fb D (hw w) i = Some bound → crtc_has_page_flip c = true →
  cs_state cs = Some a → helper_mem w !! a = Some t →
  cstates t !! i = Some (Some q) →
  page_flip D (hw w) i fb (cs_event cs) (flags t) = (0, h) →
  ∃ w' t', drm_atomic_helper_commit_crtc_state i (Some q) w = Ok (0, w') ∧
    events w' = events w ++ [EvPageFlip i fb (cs_event cs) (flags t) 0] ∧
    hw w' = h ∧
    crtc_live w' i = Some (mk_crtc (Some q) (Some q) true, cs) ∧
    helper_mem w' !! a = Some t' ∧ cstates t' !! i = Some (Some l) ∧
    cstate_mem w' = cstate_mem w ∧
    fb_refcount w' = alter Z.pred bound (fb_refcount w).
Proof.
  intros Hcs Hsc Hc Hl Hlive Hfb Hne Hb Hpf Hst Ht Hq Hflip.
  assert (i < length (dev_crtcs w))%nat as Hi by (by eapply lookup_lt_Some).
  assert (i < length (cstates t))%nat as Hi' by (by eapply lookup_lt_Some).
  exists (unreferenced (Some bound)
            (swapped_crtc a t i c (Some q)
               (set_hw h (EvPageFlip i fb (cs_event cs) (flags t) 0) w))),
         (swap_crtc_txn t i (crtc_state c)).
  split.
  { by apply (commit_crtc_flip_ok w a t i q cs c l live fb bound h (Some q)). }
  unfold unreferenced. wsimpl. split_and!; try done.
  - unfold crtc_live. wsimpl. rewrite list_lookup_insert_eq by done.
    simpl. by rewrite Hcs, Hpf.
  - apply lookup_insert_eq.
  - simpl. rewrite Hl. by apply list_lookup_insert_eq.
Qed.

(** X12: a page flip on a crtc whose driver has no [page_flip] (an image is
    bound, the staged image differs from the live one) returns -EINVAL and
    leaves the whole world as it was: no call, no swap, and the reference
    of the staged image is not dropped. *)
Theorem page_flip_without_hook_is_refused w i q cs c l live fb bound :
  cstate_mem w !! q = Some cs → cs_set_config cs = false →
  dev_crtcs w !! i = Some c → crtc_state c = Some l →
  cstate_mem w !! l = Some live →
  cs_fb cs = Some fb → cs_fb live ≠ Some fb →
  crtc_fb D (hw w) i = Some bound → crtc_has_page_flip c = false →
  drm_atomic_helper_commit_crtc_state i (Some q) w = Ok (- EINVAL, w) ∧
  - EINVAL ≠ 0.
Proof.
  intros. split; [by eapply commit_crtc_flip_unsupported | done].
Qed.

(** X13: disabling a crtc (the staged block names no image, the live state
    does).  The commit asks the mode-setting core for the empty
    configuration and returns its code.  The reference of the image that
    was live is dropped whether the call succeeded or not; the swap is done
    only when it succeeded.  After a failure the live state is the one
    that was live, image included, with one reference fewer on that
    image. *)
Theorem crtc_disable_releases_live_image w a t i q cs c l live old rc h :
  cstate_mem w !! q = Some cs → cs_set_config cs = false →
  dev_crtcs w !! i = Some c → crtc_state c = Some l →
  cstate_mem w !! l = Some live →
  cs_fb cs = None → cs_fb live = Some old →
  cs_state cs = Some a → helper_mem w !! a = Some t →
  cstates t !! i = Some (Some q) →
  mode_set_config_internal D (hw w) (disable_set i) = (rc, h) →
  ∃ w', drm_atomic_helper_commit_crtc_state i (Some q) w = Ok (rc, w') ∧
    events w' = events w ++ [EvSetConfig (disable_set i) rc] ∧
    fb_refcount w' = alter Z.pred old (fb_refcount w) ∧
    cstate_mem w' = cstate_mem w ∧
    (rc = 0 →
       crtc_live w' i
       = Some (mk_crtc (Some q) (Some q) (crtc_has_page_flip c), cs) ∧
       ∃ t', helper_mem w' !! a = Some t' ∧ cstates t' !! i = Some (Some l)) ∧
    (rc ≠ 0 →
       crtc_live w' i = Some (c, live) ∧ cs_fb live = Some old ∧
       helper_mem w' = helper_mem w).
Proof.
  intros Hcs Hsc Hc Hl Hlive Hfb Hold Hst Ht Hq Hset.
  assert (i < length (dev_crtcs w))%nat as Hi by (by eapply lookup_lt_Some).
  assert (i < length (cstates t))%nat as Hi' by (by eapply lookup_lt_Some).
  destruct (decide (rc = 0)) as [->|Hrc].
  - eexists. split.
    { by apply (commit_crtc_disable_ok w a t i q cs c l live old h (Some q)). }
    unfold unreferenced. wsimpl. split_and!; try done.
    intros _. split.
    + unfold crtc_live. wsimpl. rewrite list_lookup_insert_eq by done.
      simpl. by rewrite Hcs.
    + exists (swap_crtc_txn t i (crtc_state c)).
      split; [apply lookup_insert_eq|]. simpl. rewrite Hl.
      by apply list_lookup_insert_eq.
  - eexists. split.
    { by apply (commit_crtc_disable_fail w i q cs c l live old rc h). }
    unfold unreferenced. wsimpl. split_and!; try done.
    intros _. split; [|done]. unfold crtc_live. wsimpl. rewrite Hc. simpl.
    rewrite Hl. simpl. by rewrite Hlive.
Qed.

(** X14: a full reconfiguration.  When the staged block asks for one,
    the commit does not look at the live state: it hands the mode-setting
    core a request with the staged position, the staged mode when it is
    marked valid, the staged image, the number of staged connector ids and
    the connectors found for them, and returns the core's code.  When the
    array for the connectors cannot be allocated the request still goes
    out, with no connectors and the same number.  The swap is done exactly
    when the code is 0; the reference of the staged image is dropped either
    way. *)
Theorem full_modeset_request_and_result w a t i q cs c l :
  cstate_mem w !! q = Some cs → cs_set_config cs = true →
  dev_crtcs w !! i = Some c → crtc_state c = Some l →
  cs_state cs = Some a → helper_mem w !! a = Some t →
  cstates t !! i = Some (Some q) →
  ∃ conn rc h w',
    conn = (if decide (head (kmalloc_script w) = Some false) then None
            else Some (map (connector_find D (hw w)) (cs_connector_ids cs))) ∧
    mode_set_config_internal D (hw w) (config_set i cs conn) = (rc, h) ∧
    drm_atomic_helper_commit_crtc_state i (Some q) w = Ok (rc, w') ∧
    events w' = events w ++ [EvSetConfig (config_set i cs conn) rc] ∧
    set_num_connectors (config_set i cs conn) = length (cs_connector_ids cs) ∧
    set_mode (config_set i cs conn)
    = (if cs_mode_valid cs then Some (cs_mode cs) else None) ∧
    set_fb (config_set i cs conn) = cs_fb cs ∧
    fb_refcount w' = fb_refcount (unreferenced (cs_fb cs) w) ∧
    cstate_mem w' = cstate_mem w ∧
    (rc = 0 →
       crtc_live w' i
       = Some (mk_crtc (Some q) (Some q) (crtc_has_page_flip c), cs) ∧
       ∃ t', helper_mem w' !! a = Some t' ∧ cstates t' !! i = Some (Some l)) ∧
    (rc ≠ 0 → dev_crtcs w' = dev_crtcs w ∧ helper_mem w' = helper_mem w).
Proof.
  intros Hcs Hsc Hc Hl Hst Ht Hq.
  assert (i < length (dev_crtcs w))%nat as Hi by (by eapply lookup_lt_Some).
  assert (i < length (cstates t))%nat as Hi' by (by eapply lookup_lt_Some).
  set (conn := if decide (head (kmalloc_script w) = Some false) then None
               else Some (map (connector_find D (hw w)) (cs_connector_ids cs))).
  assert (∃ w1, get_connector_set (cs_connector_ids cs) w = Ok (conn, w1) ∧
            hw w1 = hw w ∧ events w1 = events w ∧ dev_crtcs w1 = dev_crtcs w ∧
            helper_mem w1 = helper_mem w ∧ cstate_mem w1 = cstate_mem w ∧
            fb_refcount w1 = fb_refcount w) as (w1 & Hconn & Hh & He & Hd & Hm & Hcm & Hr).
  { unfold get_connector_set, kzalloc, conn. unfold_ops.
    destruct (kmalloc_script w) as [|[] s] eqn:Es; simpl; eexists; done. }
  destruct (mode_set_config_internal D (hw w) (config_set i cs conn))
    as [rc h] eqn:Hset.
  exists conn, rc, h.
  destruct (decide (rc = 0)) as [->|Hrc].
  - eexists. split; [done|]. split; [done|]. split.
    { rewrite (commit_crtc_set_config w i q cs Hcs Hsc).
      apply (set_config_ok w w1 a t i q cs conn h c (Some q)); try done.
      + by rewrite Hh.
      + by rewrite Hm.
      + by rewrite Hd. }
    destruct (cs_fb cs) as [fb|] eqn:Hfb; unfold unreferenced; wsimpl;
      rewrite ?He, ?Hr, ?Hcm;
      (split_and!; try done;
       [intros _; split;
        [unfold crtc_live; wsimpl; rewrite list_lookup_insert_eq by (by rewrite Hd);
         simpl; by rewrite Hcm, Hcs
        |exists (swap_crtc_txn t i (crtc_state c));
         split; [apply lookup_insert_eq|]; simpl; rewrite Hl;
         by apply list_lookup_insert_eq]]).
  - eexists. split; [done|]. split; [done|]. split.
    { rewrite (commit_crtc_set_config w i q cs Hcs Hsc).
      apply (set_config_fail w w1 i q cs conn rc h); try done.
      by rewrite Hh. }
    destruct (cs_fb cs) as [fb|] eqn:Hfb; unfold unreferenced; wsimpl;
      rewrite ?He, ?Hr, ?Hcm; split_and!; done.
Qed.

(** X15: the property setters stage before they mutate.
    [drm_atomic_helper_plane_set_property] stages the plane and hands the
    staged block to the property code, never the live one: it returns the
    code of the property code, the world is the one staging left with that
    block and the reference counts as the property code left them, and the
    live state of every plane and crtc is what it was.  When the property
    code keeps the back-pointer of the block, the state reached is again
    one of the transaction's states, so everything that holds of those
    holds after the call.  The same for
    [drm_atomic_helper_crtc_set_property]. *)
Theorem set_property_stages_before_mutating a b w i :
  reachable a b w → head (kmalloc_script w) ≠ Some false →
  (∀ setter, (i < dev_num_plane w)%nat →
     (∀ ps refs, ps_state (setter ps refs).1.2 = ps_state ps) →
     ∃ q ps0 w1 w',
       drm_atomic_helper_get_plane_state i (Some a) w = Ok (Some q, w1) ∧
       pstate_mem w1 !! q = Some ps0 ∧
       w' = set_fb_refcount (λ _, (setter ps0 (fb_refcount w1)).2)
              (set_pstate_mem (<[q := (setter ps0 (fb_refcount w1)).1.2]>) w1) ∧
       drm_atomic_helper_plane_set_property setter i (Some a) w
       = Ok ((setter ps0 (fb_refcount w1)).1.1, w') ∧
       reachable a b w' ∧
       (∀ j, plane_live w' j = plane_live w j) ∧
       (∀ j, crtc_live w' j = crtc_live w j)) ∧
  (∀ setter, (i < dev_num_crtc w)%nat →
     (∀ cs refs, cs_state (setter cs refs).1.2 = cs_state cs) →
     ∃ q cs0 w1 w',
       drm_atomic_helper_get_crtc_state i (Some a) w = Ok (Some q, w1) ∧
       cstate_mem w1 !! q = Some cs0 ∧
       w' = set_fb_refcount (λ _, (setter cs0 (fb_refcount w1)).2)
              (set_cstate_mem (<[q := (setter cs0 (fb_refcount w1)).1.2]>) w1) ∧
       drm_atomic_helper_crtc_set_property setter i (Some a) w
       = Ok ((setter cs0 (fb_refcount w1)).1.1, w') ∧
       reachable a b w' ∧
       (∀ j, plane_live w' j = plane_live w j) ∧
       (∀ j, crtc_live w' j = crtc_live w j)).
Proof.
  intros R Hk. destruct (reachable_Inv a b w R) as (t & I & _). split.
  - intros setter Hi Hback.
    destruct (get_plane_state_total a w t i I Hi Hk)
      as (q & ps0 & w1 & t1 & E & I1 & Hq & Hps & Lp & Lc).
    destruct (Inv_live_plane a w t i I Hi) as (pl & _ & _ & Hpl & _).
    exists q, ps0, w1. eexists. split; [done|]. split; [done|].
    split; [reflexivity|]. split; [|split; [|split]].
    + unfold drm_atomic_helper_plane_set_property, drm_atomic_get_plane_state.
      unfold mbind at 1, M_bind at 1. unfold mbind at 1, M_bind at 1.
      rewrite (load_plane_run w i pl Hpl), E. unfold_ops. by run.
    + eapply (reach_edit_plane a b w1 t1 i q ps0); try done.
      * by eapply reach_get_plane_state.
      * apply I1.
    + intros j. unfold plane_live. wsimpl.
      change (plane_live (set_pstate_mem
                (<[q := (setter ps0 (fb_refcount w1)).1.2]>) w1) j
              = plane_live w j).
      by rewrite (plane_live_store_slot a w1 t1 i q _ j I1 Hq).
    + intros j. unfold crtc_live. wsimpl. apply Lc.
  - intros setter Hi Hback.
    destruct (get_crtc_state_total a w t i I Hi Hk)
      as (q & cs0 & w1 & t1 & E & I1 & Hq & Hcs & Lc & Lp).
    destruct (Inv_live_crtc a w t i I Hi) as (c & _ & _ & Hc & _).
    exists q, cs0, w1. eexists. split; [done|]. split; [done|].
    split; [reflexivity|]. split; [|split; [|split]].
    + unfold drm_atomic_helper_crtc_set_property, drm_atomic_get_crtc_state.
      unfold mbind at 1, M_bind at 1. unfold mbind at 1, M_bind at 1.
      rewrite (load_crtc_run w i c Hc), E. unfold_ops. by run.
    + eapply (reach_edit_crtc a b w1 t1 i q cs0); try done.
      * by eapply reach_get_crtc_state.
      * apply I1.
    + intros j. unfold plane_live. wsimpl. apply Lp.
    + intros j. unfold crtc_live. wsimpl.
      change (crtc_live (set_cstate_mem
                (<[q := (setter cs0 (fb_refcount w1)).1.2]>) w1) j
              = crtc_live w j).
      by rewrite (crtc_live_store_slot a w1 t1 i q _ j I1 Hq).
Qed.

(** X16: [base.propvals] follows the live state.  When, before a commit,
    the [propvals] pointer of every plane and crtc is the one of its live
    state, the same holds after the commit, whichever objects it swapped
    and whatever it returned. *)
Theorem propvals_follow_the_live_state a b w rc w' :
  reachable a b w → propvals_track w →
  drm_atomic_helper_commit (Some a) w = Ok (rc, w') →
  propvals_track w'.
Proof.
  intros R P E. destruct (reachable_Inv a b w R) as (t & I & _).
  destruct (commit_preserves (λ w1 _, propvals_track w1) a w t rc w')
    as (t' & _ & P'); try done.
  - intros w1 w2 t1 _ [Pp Pc] S. destruct S.
    split; rewrite ?st_planes0, ?st_crtcs0; done.
  - intros w1 t1 i q pl l _ [Pp Pc] _ Hpl _. split; wsimpl; [|done].
    intros j pj. destruct (decide (j = i)) as [->|Hne].
    + rewrite list_lookup_insert_eq by (by eapply lookup_lt_Some).
      by intros [= <-].
    + rewrite list_lookup_insert_ne by done. apply Pp.
  - intros w1 t1 i q c _ [Pp Pc] _ Hc _. split; wsimpl; [done|].
    intros j cj. destruct (decide (j = i)) as [->|Hne].
    + rewrite list_lookup_insert_eq by (by eapply lookup_lt_Some).
      by intros [= <-].
    + rewrite list_lookup_insert_ne by done. apply Pc.
Qed.

(** X17: a commit moves pointers and drops references, nothing else.
    Whatever [drm_atomic_helper_commit] returns, no state block has been
    written, allocated or freed, and no reference count has gone up. *)
Theorem commit_moves_pointers_only a b w rc w' :
  reachable a b w →
  drm_atomic_helper_commit (Some a) w = Ok (rc, w') →
  pstate_mem w' = pstate_mem w ∧ cstate_mem w' = cstate_mem w ∧
  (∀ f n k, fb_refcount w !! f = Some n → fb_refcount w' !! f = Some k → k ≤ n).
Proof.
  intros R E. destruct (reachable_Inv a b w R) as (t & I & _).
  destruct (commit_preserves
              (λ w1 _, pstate_mem w1 = pstate_mem w ∧ cstate_mem w1 = cstate_mem w ∧
                       refs_dropped (fb_refcount w) (fb_refcount w1)) a w t rc w')
    as (t' & _ & Hp & Hc & Hr); try done.
  - intros w1 w2 t1 _ (Hp & Hc & Hr) S. destruct S.
    split; [congruence|]. split; [congruence|]. by eapply refs_dropped_trans.
  - split; [done|]. split; [done|]. apply refs_dropped_refl.
  - split; [done|]. split; [done|].
    intros f n k Hn Hk. specialize (Hr f). by rewrite Hn, Hk in Hr.
Qed.

End Properties.

(** * The further properties on the examples *)

(** X1 on the demo transaction after its commit. *)
Lemma end_leaves_device_quiescent_witness :
  ∃ w', drm_atomic_helper_end (Some 3%nat)
          (exec (drm_atomic_helper_commit (Some 3%nat))
             (demo_plane_txn 0 640 demo_device)) = Ok (tt, w') ∧
    quiescent w'.
Proof.
  destruct (end_leaves_device_quiescent 3%nat true _ demo_committed_reachable)
    as (w' & E & Q & _).
  exists w'. split; [exact E | exact Q].
Defined.

(** X2 on the transaction that stages plane 0 and crtc 0 and is given
    up. *)
Lemma end_without_commit_keeps_live_states_witness :
  ∃ w', drm_atomic_helper_end (Some 3%nat) demo_mixed_txn = Ok (tt, w') ∧
    plane_live w' 0%nat = plane_live demo_mixed_txn 0%nat ∧
    crtc_live w' 0%nat = crtc_live demo_mixed_txn 0%nat.
Proof.
  destruct (end_without_commit_keeps_live_states 3%nat demo_mixed_txn
              demo_mixed_txn_reachable) as (w' & E & K).
  exists w'. split; [exact E | exact (K 0%nat)].
Defined.

Lemma demo_tight_reachable :
  reachable 3%nat false (exec (drm_atomic_helper_begin 0) demo_device_tight).
Proof.
  apply (reach_begin 3%nat demo_device_tight 0);
    [by apply demo_quiescent | (vm_compute; reflexivity)].
Qed.

(** X3 on the demo device when the allocation of the shadow block fails. *)
Lemma staging_never_returns_null_witness :
  kmalloc_script (exec (drm_atomic_helper_begin 0) demo_device_tight) = [false] ∧
  drm_atomic_helper_get_plane_state 0 (Some 3%nat)
    (exec (drm_atomic_helper_begin 0) demo_device_tight) = Oops NullDeref ∧
  drm_atomic_helper_get_crtc_state 0 (Some 3%nat)
    (exec (drm_atomic_helper_begin 0) demo_device_tight) = Oops NullDeref.
Proof.
  split; [(vm_compute; reflexivity)|].
  destruct (staging_never_returns_null 3%nat false _ 0%nat demo_tight_reachable)
    as (_ & _ & H).
  destruct (H (mk_helper_state 0 [None; None] [None; None] [None] [None]) [])
    as [Hp Hc]; [(vm_compute; reflexivity) | (vm_compute; reflexivity) |].
  split; [apply Hp; (vm_compute; reflexivity) | apply Hc; (vm_compute; reflexivity)].
Defined.

(** X4 right after [begin] on the demo device: event 9 for crtc 0. *)
Lemma set_event_stores_event_in_shadow_witness :
  ∃ q cs0 w1,
    drm_atomic_helper_set_event (Some 3%nat) (ObjCrtc 0) (Some 9%nat)
      (exec (drm_atomic_helper_begin 0) demo_device)
    = Ok (0, set_cstate_mem (<[q := with_cs_event cs0 (Some 9%nat)]>) w1) ∧
    crtc_live (set_cstate_mem (<[q := with_cs_event cs0 (Some 9%nat)]>) w1) 0%nat
    = crtc_live (exec (drm_atomic_helper_begin 0) demo_device) 0%nat.
Proof.
  destruct (set_event_stores_event_in_shadow 3%nat false
              (exec (drm_atomic_helper_begin 0) demo_device) 0%nat (Some 9%nat))
    as (q & cs0 & w1 & _ & _ & E & L & _).
  - apply demo_begin_reachable. by left.
  - vm_compute. lia.
  - vm_compute. discriminate.
  - exists q, cs0, w1. split; [exact E | exact (L 0%nat)].
Defined.

(** X5 on the demo device. *)
Lemma empty_transaction_round_trip_witness :
  drm_atomic_helper_begin 0 demo_device
  = Ok (Some (brk demo_device), begun 0 demo_device) ∧
  drm_atomic_helper_check (Some (brk demo_device)) (begun 0 demo_device)
  = Ok (0, begun 0 demo_device) ∧
  drm_atomic_helper_commit (Some (brk demo_device)) (begun 0 demo_device)
  = Ok (0, begun 0 demo_device) ∧
  drm_atomic_helper_end (Some (brk demo_device)) (begun 0 demo_device)
  = Ok (tt, set_helper_mem (delete (brk demo_device)) (allocated demo_device)).
Proof.
  apply (empty_transaction_round_trip 0 demo_device).
  - by apply demo_quiescent.
  - vm_compute. discriminate.
Defined.

(** X6 on the transaction whose plane 0 is refused by the driver. *)
Lemma commit_of_planes_stops_at_first_failure_witness :
  ∃ rc w' k,
    drm_atomic_helper_commit (Some 3%nat) (demo_plane_txn 0 0 demo_device)
    = Ok (rc, w') ∧
    (k ≤ 2)%nat ∧ (rc = 0 → k = 2%nat) ∧
    (∀ i, (k ≤ i)%nat →
       dev_planes w' !! i = dev_planes (demo_plane_txn 0 0 demo_device) !! i).
Proof.
  destruct (commit_of_planes_stops_at_first_failure 3%nat
              (demo_plane_txn 0 0 demo_device)
              (mk_helper_state 0 [Some 0%nat; None] [Some 4%nat; None] [None] [None]))
    as (rc & w' & t' & k & E & _ & Hk & _ & Hkeep & _ & Hz & _).
  - apply demo_plane_txn_reachable. by left.
  - vm_compute. reflexivity.
  - intros [|i] q; simpl; discriminate.
  - exists rc, w', k. split; [exact E|]. split; [exact Hk|]. split; [exact Hz|].
    intros i Hi. apply (Hkeep i Hi).
Defined.

(** X7 on the transaction whose plane 0 is refused and whose crtc 0 is
    flipped. *)
Lemma commit_result_is_that_of_the_crtc_pass_witness :
  ∃ rc w',
    drm_atomic_helper_commit (Some 3%nat) demo_mixed_txn = Ok (rc, w') ∧
    (rc = 0 ↔ ∀ i q,
       cstates (mk_helper_state 0 [Some 0%nat; None] [Some 4%nat; None]
                  [Some 0%nat] [Some 5%nat]) !! i = Some (Some q) →
       crtc_state <$> dev_crtcs w' !! i = Some (Some q)).
Proof.
  destruct (commit_result_is_that_of_the_crtc_pass 3%nat demo_mixed_txn
              (mk_helper_state 0 [Some 0%nat; None] [Some 4%nat; None]
                 [Some 0%nat] [Some 5%nat]))
    as (rc & w' & t' & E & _ & Hiff & _).
  - exact demo_mixed_txn_reachable.
  - vm_compute. reflexivity.
  - exists 0%nat, 5%nat. reflexivity.
  - exists rc, w'. split; [exact E | exact Hiff].
Defined.

(** X8 on plane 0 of the demo transaction. *)
Lemma object_commit_swaps_or_leaves_alone_witness :
  ∃ rc w',
    drm_atomic_helper_commit_plane_state 0 (Some 4%nat)
      (demo_plane_txn 0 640 demo_device) = Ok (rc, w') ∧
    pstate_mem w' = pstate_mem (demo_plane_txn 0 640 demo_device) ∧
    (rc = 0 → plane_state <$> dev_planes w' !! 0%nat = Some (Some 4%nat)).
Proof.
  destruct (object_commit_swaps_or_leaves_alone 3%nat
              (demo_plane_txn 0 640 demo_device)
              (mk_helper_state 0 [Some 0%nat; None] [Some 4%nat; None] [None] [None])
              0%nat 4%nat) as [Hp _].
  - apply demo_plane_txn_reachable. by left.
  - vm_compute. reflexivity.
  - destruct (Hp eq_refl) as (rc & w' & E & Hm & _ & _ & Hz & _).
    exists rc, w'. split; [exact E|]. split; [exact Hm|].
    intros Hrc. exact (proj1 (Hz Hrc)).
Defined.

(** X9 under the driver that refuses everything: plane 1 is turned off
    all the same. *)
Lemma plane_disable_ignores_driver_code_witness :
  ∃ w', drm_atomic_helper_commit_plane_state 1 (Some 4%nat) stubborn_txn
        = Ok (0, w') ∧
    events w' = events stubborn_txn ++ [EvDisablePlane 1 (- EINVAL)] ∧
    plane_live w' 1%nat
    = Some (mk_plane (Some 4%nat) (Some 4%nat), turn_off (Some 3%nat)).
Proof.
  destruct (plane_disable_ignores_driver_code stubborn_txn 3%nat
              (mk_helper_state 0 [None; Some 1%nat] [None; Some 4%nat]
                 [Some 0%nat] [Some 5%nat])
              1%nat 4%nat (turn_off (Some 3%nat)) (- EINVAL) [Some 5%nat]
              (mk_plane (Some 1%nat) (Some 1%nat)) 1%nat overlay_plane)
    as (w' & t' & E & Hev & _ & Hl & _);
    [(vm_compute; reflexivity) | (left; reflexivity) | (vm_compute; reflexivity)
    | (vm_compute; reflexivity) | (vm_compute; reflexivity)
    | (vm_compute; reflexivity) | (vm_compute; reflexivity)
    | (vm_compute; reflexivity) | (vm_compute; reflexivity) |].
  exists w'. split; [exact E|]. split; [exact Hev | exact Hl].
Defined.

(** X10 on the demo transaction with a destination of width zero. *)
Lemma failed_plane_update_releases_new_image_witness :
  ∃ w', drm_atomic_helper_commit_plane_state 0 (Some 4%nat)
          (demo_plane_txn 0 0 demo_device) = Ok (- EINVAL, w') ∧
    fb_refcount (demo_plane_txn 0 0 demo_device)
    = hold_6 (fb_refcount demo_device) ∧
    fb_refcount w' = fb_refcount demo_device.
Proof.
  destruct (failed_plane_update_releases_new_image (demo_plane_txn 0 0 demo_device)
              0%nat 4%nat (show_image_6 (Some 3%nat) 0) 0%nat 6%nat (- EINVAL)
              [Some 5%nat])
    as (w' & E & _ & _ & _ & _ & _ & _ & Hback);
    [(vm_compute; reflexivity) | (vm_compute; reflexivity)
    | (vm_compute; reflexivity) | (vm_compute; reflexivity) | discriminate |].
  exists w'. split; [exact E|]. split; [(vm_compute; reflexivity)|].
  apply Hback. (vm_compute; reflexivity).
Defined.

(** X11 on the demo device: crtc 0 flips from image 5 to image 6. *)
Lemma page_flip_swaps_and_releases_bound_image_witness :
  ∃ w', drm_atomic_helper_commit_crtc_state 0 (Some 4%nat)
          (demo_crtc_flip 0 demo_device) = Ok (0, w') ∧
    events w' = events (demo_crtc_flip 0 demo_device)
                ++ [EvPageFlip 0 6%nat None 0 0] ∧
    crtc_live w' 0%nat
    = Some (mk_crtc (Some 4%nat) (Some 4%nat) true, flip_to_6 (Some 3%nat)) ∧
    fb_refcount w'
    = alter Z.pred 5%nat (fb_refcount (demo_crtc_flip 0 demo_device)).
Proof.
  destruct (page_flip_swaps_and_releases_bound_image (demo_crtc_flip 0 demo_device)
              3%nat
              (mk_helper_state 0 [None; None] [None; None] [Some 0%nat] [Some 4%nat])
              0%nat 4%nat (flip_to_6 (Some 3%nat))
              (mk_crtc (Some 2%nat) (Some 2%nat) true) 2%nat scanout_crtc
              6%nat 5%nat [Some 6%nat])
    as (w' & t' & E & Hev & _ & Hl & _ & _ & _ & Hr);
    [(vm_compute; reflexivity) | (vm_compute; reflexivity)
    | (vm_compute; reflexivity) | (vm_compute; reflexivity)
    | (vm_compute; reflexivity) | (vm_compute; reflexivity) | discriminate
    | (vm_compute; reflexivity) | (vm_compute; reflexivity)
    | (vm_compute; reflexivity) | (vm_compute; reflexivity)
    | (vm_compute; reflexivity) | (vm_compute; reflexivity) |].
  exists w'. split; [exact E|]. split; [exact Hev|]. split; [exact Hl | exact Hr].
Defined.

(** X12 on the demo device with a driver that cannot flip. *)
Lemma page_flip_without_hook_is_refused_witness :
  drm_atomic_helper_commit_crtc_state 0 (Some 4%nat)
    (demo_crtc_flip 0 demo_device_no_flip)
  = Ok (- EINVAL, demo_crtc_flip 0 demo_device_no_flip) ∧ - EINVAL ≠ 0.
Proof.
  apply (page_flip_without_hook_is_refused (demo_crtc_flip 0 demo_device_no_flip)
           0%nat 4%nat (flip_to_6 (Some 3%nat))
           (mk_crtc (Some 2%nat) (Some 2%nat) false) 2%nat scanout_crtc
           6%nat 5%nat);
    [(vm_compute; reflexivity) | (vm_compute; reflexivity)
    | (vm_compute; reflexivity) | (vm_compute; reflexivity)
    | (vm_compute; reflexivity) | (vm_compute; reflexivity) | discriminate
    | (vm_compute; reflexivity) | (vm_compute; reflexivity)].
Defined.

(** X13 under the driver that refuses everything: the crtc keeps image 5
    and loses a reference on it. *)
Lemma crtc_disable_releases_live_image_witness :
  ∃ w', drm_atomic_helper_commit_crtc_state 0 (Some 5%nat) stubborn_txn
        = Ok (- EINVAL, w') ∧
    fb_refcount w' = alter Z.pred 5%nat (fb_refcount stubborn_txn) ∧
    crtc_live w' 0%nat
    = Some (mk_crtc (Some 2%nat) (Some 2%nat) true, scanout_crtc).
Proof.
  destruct (crtc_disable_releases_live_image stubborn_txn 3%nat
              (mk_helper_state 0 [None; Some 1%nat] [None; Some 4%nat]
                 [Some 0%nat] [Some 5%nat])
              0%nat 5%nat (blank_crtc (Some 3%nat))
              (mk_crtc (Some 2%nat) (Some 2%nat) true) 2%nat scanout_crtc
              5%nat (- EINVAL) [Some 5%nat])
    as (w' & E & _ & Hr & _ & _ & Hfail);
    [(vm_compute; reflexivity) | (vm_compute; reflexivity)
    | (vm_compute; reflexivity) | (vm_compute; reflexivity)
    | (vm_compute; reflexivity) | (vm_compute; reflexivity)
    | (vm_compute; reflexivity) | (vm_compute; reflexivity)
    | (vm_compute; reflexivity) | (vm_compute; reflexivity)
    | (vm_compute; reflexivity) |].
  exists w'. split; [exact E|]. split; [exact Hr|].
  apply Hfail. discriminate.
Defined.

(** X14 on the demo device when the connector array cannot be
    allocated: the request names two connectors and carries none. *)
Lemma full_modeset_request_and_result_witness :
  ∃ conn rc w',
    conn = None ∧
    drm_atomic_helper_commit_crtc_state 0 (Some 4%nat) demo_modeset_txn
    = Ok (rc, w') ∧
    events w' = events demo_modeset_txn
                ++ [EvSetConfig (config_set 0 (modeset_to_6 (Some 3%nat)) conn) rc] ∧
    set_num_connectors (config_set 0 (modeset_to_6 (Some 3%nat)) conn) = 2%nat.
Proof.
  destruct (full_modeset_request_and_result demo_modeset_txn 3%nat
              (mk_helper_state 0 [None; None] [None; None] [Some 0%nat] [Some 4%nat])
              0%nat 4%nat (modeset_to_6 (Some 3%nat))
              (mk_crtc (Some 2%nat) (Some 2%nat) true) 2%nat)
    as (conn & rc & h & w' & Hconn & _ & E & Hev & Hn & _);
    [(vm_compute; reflexivity) | (vm_compute; reflexivity)
    | (vm_compute; reflexivity) | (vm_compute; reflexivity)
    | (vm_compute; reflexivity) | (vm_compute; reflexivity)
    | (vm_compute; reflexivity) |].
  exists conn, rc, w'. split; [exact Hconn|]. split; [exact E|].
  split; [exact Hev | exact Hn].
Defined.

(** X15 right after [begin] on the demo device: plane 0 is told to show
    image 6. *)
Lemma set_property_stages_before_mutating_witness :
  ∃ rc w',
    drm_atomic_helper_plane_set_property demo_set_fb_6 0 (Some 3%nat)
      (exec (drm_atomic_helper_begin 0) demo_device) = Ok (rc, w') ∧
    reachable 3%nat false w' ∧
    plane_live w' 0%nat
    = plane_live (exec (drm_atomic_helper_begin 0) demo_device) 0%nat.
Proof.
  destruct (set_property_stages_before_mutating 3%nat false
              (exec (drm_atomic_helper_begin 0) demo_device) 0%nat) as [Hp _].
  - apply demo_begin_reachable. by left.
  - vm_compute. discriminate.
  - destruct (Hp demo_set_fb_6) as (q & ps0 & w1 & w' & _ & _ & _ & E & R & L & _).
    + vm_compute. lia.
    + intros ps refs. reflexivity.
    + exists (demo_set_fb_6 ps0 (fb_refcount w1)).1.1, w'.
      split; [exact E|]. split; [exact R | exact (L 0%nat)].
Defined.

Lemma demo_propvals_track : propvals_track demo_mixed_txn.
Proof.
  assert (dev_planes demo_mixed_txn
          = [mk_plane (Some 0%nat) (Some 0%nat); mk_plane (Some 1%nat) (Some 1%nat)])
    as Hp by (vm_compute; reflexivity).
  assert (dev_crtcs demo_mixed_txn = [mk_crtc (Some 2%nat) (Some 2%nat) true])
    as Hc by (vm_compute; reflexivity).
  split.
  - rewrite Hp. intros [|[|i]] pl; simpl; try done; by intros [= <-].
  - rewrite Hc. intros [|i] c; simpl; try done; by intros [= <-].
Qed.

(** X16 on the commit that swaps crtc 0. *)
Lemma propvals_follow_the_live_state_witness :
  propvals_track (exec (drm_atomic_helper_commit (Some 3%nat)) demo_mixed_txn).
Proof.
  apply (propvals_follow_the_live_state 3%nat false demo_mixed_txn 0).
  - exact demo_mixed_txn_reachable.
  - exact demo_propvals_track.
  - vm_compute. reflexivity.
Defined.

(** X17 on the same commit: the blocks are as they were, and image 5,
    whose reference the flip drops, has no more references than before. *)
Lemma commit_moves_pointers_only_witness :
  pstate_mem (exec (drm_atomic_helper_commit (Some 3%nat)) demo_mixed_txn)
  = pstate_mem demo_mixed_txn ∧
  cstate_mem (exec (drm_atomic_helper_commit (Some 3%nat)) demo_mixed_txn)
  = cstate_mem demo_mixed_txn ∧
  fb_refcount demo_mixed_txn !! 5%nat = Some 1 ∧
  fb_refcount (exec (drm_atomic_helper_commit (Some 3%nat)) demo_mixed_txn) !! 5%nat
  = Some 0 ∧
  0 ≤ 1.
Proof.
  destruct (commit_moves_pointers_only 3%nat false demo_mixed_txn 0
              (exec (drm_atomic_helper_commit (Some 3%nat)) demo_mixed_txn))
    as (Hp & Hc & Hr).
  - exact demo_mixed_txn_reachable.
  - vm_compute. reflexivity.
  - assert (fb_refcount demo_mixed_txn !! 5%nat = Some 1) as H1
      by (vm_compute; reflexivity).
    assert (fb_refcount (exec (drm_atomic_helper_commit (Some 3%nat))
                           demo_mixed_txn) !! 5%nat = Some 0) as H0
      by (vm_compute; reflexivity).
    split; [exact Hp|]. split; [exact Hc|]. split; [exact H1|].
    split; [exact H0|]. exact (Hr 5%nat 1 0 H1 H0).
Defined.
